(** * package-manager-enhancer: file-set resolution, dependency location
      and hover links

    A shallow embedding of
    - [src/utils/fs.ts]                  ([pathExists]),
    - [src/utils/pkg.ts]                 ([findPkgInstallDir],
                                          [getPkgNameAndVersionFromDocPosition]),
    - [src/utils/pkg-hover-contents.ts]  ([tryGetUrl], [extractGitUrl],
                                          [pkgWebsites]),
    - [src/codeLens/packageJsonFiles.ts] ([getCodeLenses]),
    together with the parts of [node:path], [jsonc-parser] and [globby]
    these functions call.  The first half of the file holds the
    definitions, the second half the properties proved about them. *)

From Stdlib Require Import String Ascii List Bool Arith Lia Permutation.
Import ListNotations.
Open Scope string_scope.
Open Scope list_scope.

Set Default Proof Using "Type".

(* ================================================================== *)
(** * Part I: the embedding                                            *)
(* ================================================================== *)

(** ** JavaScript string primitives used by the sources *)

Module Js.

(** [s.startsWith(p)] *)
Definition startsWith (p s : string) : bool := String.prefix p s.

(** [s.endsWith(suf)] *)
Definition endsWith (suf s : string) : bool :=
  (String.length suf <=? String.length s)%nat &&
  String.eqb (substring (String.length s - String.length suf)
                        (String.length suf) s) suf.

(** [s.slice(1)] *)
Definition sliceFrom1 (s : string) : string :=
  match s with
  | EmptyString => EmptyString
  | String _ rest => rest
  end.

(** [s.slice(0, -n)] *)
Definition dropLast (n : nat) (s : string) : string :=
  substring 0 (String.length s - n) s.

(** [s.slice(0, idx)] *)
Definition sliceTo (idx : nat) (s : string) : string := substring 0 idx s.

(** [s.indexOf(needle)]; [None] stands for [-1]. *)
Definition indexOf (needle s : string) : option nat := String.index 0 needle s.

Definition lowerAscii (c : ascii) : ascii :=
  let n := nat_of_ascii c in
  if ((65 <=? n) && (n <=? 90))%nat then ascii_of_nat (n + 32) else c.

(** [s.toLowerCase()] on ASCII text. *)
Fixpoint toLowerCase (s : string) : string :=
  match s with
  | EmptyString => EmptyString
  | String c rest => String (lowerAscii c) (toLowerCase rest)
  end.

(** [parts.join(sep)] *)
Definition join (sep : string) (parts : list string) : string :=
  String.concat sep parts.

(** Truthiness of a [string | undefined] value. *)
Definition truthy (v : option string) : bool :=
  match v with
  | Some s => negb (String.eqb s "")
  | None => false
  end.

(** [a === b] on [string | undefined] values. *)
Definition strictEq (a b : option string) : bool :=
  match a, b with
  | Some x, Some y => String.eqb x y
  | None, None => true
  | _, _ => false
  end.

(** A JavaScript [Set<string>] keeps its members in insertion order and
    [add] leaves a set that already holds the member untouched. *)
Definition SetOfString := list string.

Definition has (x : string) (s : SetOfString) : bool :=
  existsb (String.eqb x) s.

Definition add (s : SetOfString) (x : string) : SetOfString :=
  if has x s then s else s ++ [x].

Definition addAll (s : SetOfString) (xs : list string) : SetOfString :=
  fold_left add xs s.

End Js.

(** ** [node:path], POSIX flavour *)

Module Path.

Definition slash : ascii := "/"%char.

(** The text between separators, left to right; [cur] is the segment
    being read. *)
Fixpoint splitFrom (cur : string) (s : string) : list string :=
  match s with
  | EmptyString => [cur]
  | String c rest =>
      if Ascii.eqb c slash then cur :: splitFrom EmptyString rest
      else splitFrom (cur ++ String c EmptyString)%string rest
  end.

Definition split (s : string) : list string := splitFrom EmptyString s.

(** One step of [normalizeString] on an absolute path: the stack of kept
    segments is held innermost first; empty and [.] segments are
    dropped, [..] pops (and is dropped at the root). *)
Definition normStep (stack : list string) (seg : string) : list string :=
  if String.eqb seg "" || String.eqb seg "." then stack
  else if String.eqb seg ".." then tl stack
  else seg :: stack.

Definition normalize (segs : list string) : list string :=
  rev (fold_left normStep segs []).

Definition isAbsolute (p : string) : bool := Js.startsWith "/" p.

(** The right-to-left scan of [resolve]: arguments are prepended until
    one of them is absolute; empty arguments are skipped.  The result is
    the joined text and whether an absolute argument was met. *)
Fixpoint joinArgs (args : list string) : string * bool :=
  match args with
  | [] => (EmptyString, false)
  | p :: rest =>
      let '(acc, abs) := joinArgs rest in
      if abs then (acc, abs)
      else if String.eqb p "" then (acc, abs)
      else ((p ++ "/" ++ acc)%string, isAbsolute p)
  end.

(** The normalized segments as text: [/] for the root, else every
    segment after a separator. *)
Fixpoint renderSegments (segs : list string) : string :=
  match segs with
  | [] => ""
  | seg :: rest => ("/" ++ seg ++ renderSegments rest)%string
  end.

Definition render (segs : list string) : string :=
  match segs with
  | [] => "/"
  | _ => renderSegments segs
  end.

(** [resolve(...args)]; [processCwd] is [process.cwd()], an absolute
    path, consulted only when no argument is absolute. *)
Definition resolve (processCwd : string) (args : list string) : string :=
  let '(joined, abs) := joinArgs args in
  let full := if abs then joined else (processCwd ++ "/" ++ joined)%string in
  render (normalize (split full)).

(** The backward scan of [dirname] for the separator that ends the
    directory part: [revChars] holds the characters at indices [i],
    [i-1], ..., down to index 1. *)
Fixpoint dirnameEnd (revChars : list ascii) (matchedSlash : bool) (i : nat)
  : option nat :=
  match revChars with
  | [] => None
  | c :: rest =>
      if Ascii.eqb c slash then
        if matchedSlash then dirnameEnd rest true (i - 1) else Some i
      else dirnameEnd rest false (i - 1)
  end.

(** [dirname(path)] *)
Definition dirname (path : string) : string :=
  match path with
  | EmptyString => "."
  | String c0 rest =>
      let hasRoot := Ascii.eqb c0 slash in
      match dirnameEnd (rev (list_ascii_of_string rest)) true
                       (String.length rest) with
      | None => if hasRoot then "/" else "."
      | Some e =>
          if hasRoot && (e =? 1)%nat then "//" else substring 0 e path
      end
  end.

(** Drops the separators at the front of a reversed path. *)
Fixpoint dropSlashes (revChars : list ascii) : list ascii :=
  match revChars with
  | [] => []
  | c :: rest => if Ascii.eqb c slash then dropSlashes rest else revChars
  end.

(** Reads characters up to the next separator. *)
Fixpoint takeSegment (revChars : list ascii) : list ascii :=
  match revChars with
  | [] => []
  | c :: rest => if Ascii.eqb c slash then [] else c :: takeSegment rest
  end.

(** [basename(path)]: trailing separators are ignored, the last segment
    is returned. *)
Definition basename (path : string) : string :=
  string_of_list_ascii
    (rev (takeSegment (dropSlashes (rev (list_ascii_of_string path))))).

End Path.

(** ** [src/utils/fs.ts] *)

Module Fs.

(** What the two [node:fs/promises] calls of [pathExists] and the
    [realpath] call of [findPkgInstallDir] observe.  A rejected promise
    is [false] for [access] and [None] for the others. *)
Record FileSystem := {
  access : string -> bool;
  readdir : string -> option (list string);
  realpath : string -> option string
}.

(** [pathExists(path)]: [access] then, in the [then] callback, [readdir]
    of the containing directory and [includes] of the base name; the
    final [catch] turns every rejection into [false]. *)
Definition pathExists (fs : FileSystem) (path : string) : bool :=
  if access fs path then
    match readdir fs (Path.dirname path) with
    | Some fileNames => Js.has (Path.basename path) fileNames
    | None => false
    end
  else false.

End Fs.

(** ** [jsonc-parser]: the position-preserving tree and its two lookups *)

Module Jsonc.

(** [NodeType] *)
Inductive NodeType :=
  TObject | TArray | TProperty | TString | TNumber | TBoolean | TNull.

Definition NodeType_eqb (a b : NodeType) : bool :=
  match a, b with
  | TObject, TObject | TArray, TArray | TProperty, TProperty
  | TString, TString | TNumber, TNumber | TBoolean, TBoolean
  | TNull, TNull => true
  | _, _ => false
  end.

(** The tree [parseTree] builds.  Every node carries its [offset] and
    [length] in the source text.  The children of an object are its
    properties; a property holds its key, a string node, and its value
    when the text has one (the parser is error tolerant: a property may
    lack its value); the children of an array are its items. *)
#[warnings="-register-all"]
Inductive Node :=
| NString (offset length : nat) (value : string)
| NNumber (offset length : nat)
| NBoolean (offset length : nat)
| NNull (offset length : nat)
| NArray (offset length : nat) (items : list Node)
| NObject (offset length : nat) (props : list Property)
with Property :=
| NProperty (offset length : nat)
            (keyOffset keyLength : nat) (key : string)
            (value : option Node).

(** The [Node] interface seen uniformly: a value node or a property. *)
Inductive AnyNode :=
| AValue (n : Node)
| AProperty (p : Property).

Definition valueType (n : Node) : NodeType :=
  match n with
  | NString _ _ _ => TString
  | NNumber _ _ => TNumber
  | NBoolean _ _ => TBoolean
  | NNull _ _ => TNull
  | NArray _ _ _ => TArray
  | NObject _ _ _ => TObject
  end.

(** [node.type] *)
Definition nodeType (a : AnyNode) : NodeType :=
  match a with
  | AValue n => valueType n
  | AProperty _ => TProperty
  end.

Definition valueOffset (n : Node) : nat :=
  match n with
  | NString o _ _ | NNumber o _ | NBoolean o _ | NNull o _
  | NArray o _ _ | NObject o _ _ => o
  end.

Definition valueLength (n : Node) : nat :=
  match n with
  | NString _ l _ | NNumber _ l | NBoolean _ l | NNull _ l
  | NArray _ l _ | NObject _ l _ => l
  end.

(** [node.offset] *)
Definition nodeOffset (a : AnyNode) : nat :=
  match a with
  | AValue n => valueOffset n
  | AProperty (NProperty o _ _ _ _ _) => o
  end.

(** [node.length] *)
Definition nodeLength (a : AnyNode) : nat :=
  match a with
  | AValue n => valueLength n
  | AProperty (NProperty _ l _ _ _ _) => l
  end.

(** [node.value] of a string node; the sources read no other value. *)
Definition nodeValue (a : AnyNode) : option string :=
  match a with
  | AValue (NString _ _ v) => Some v
  | _ => None
  end.

Definition keyNode (p : Property) : Node :=
  match p with NProperty _ _ ko kl k _ => NString ko kl k end.

Definition propertyValue (p : Property) : option Node :=
  match p with NProperty _ _ _ _ _ v => v end.

Definition propertyKey (p : Property) : string :=
  match p with NProperty _ _ _ _ k _ => k end.

(** [node.children]; a leaf, which has none, yields the empty list. *)
Definition children (a : AnyNode) : list AnyNode :=
  match a with
  | AValue (NArray _ _ items) => map AValue items
  | AValue (NObject _ _ props) => map AProperty props
  | AValue _ => []
  | AProperty p =>
      AValue (keyNode p) ::
      match propertyValue p with
      | Some v => [AValue v]
      | None => []
      end
  end.

(** A node is identified by the child indices leading to it from the
    root: two references are [===] exactly when their paths agree. *)
Definition NodeRef := list nat.

Fixpoint nodeAt (a : AnyNode) (ref : NodeRef) : option AnyNode :=
  match ref with
  | [] => Some a
  | i :: rest =>
      match nth_error (children a) i with
      | Some c => nodeAt c rest
      | None => None
      end
  end.

(** [node.parent]: the root has none. *)
Definition parentRef (ref : NodeRef) : option NodeRef :=
  match ref with
  | [] => None
  | _ => Some (removelast ref)
  end.

Definition NodeRef_eqb (a b : NodeRef) : bool :=
  if list_eq_dec Nat.eq_dec a b then true else false.

(** [contains(node, offset)] with [includeRightBound = false]. *)
Definition contains (nodeOff nodeLen offset : nat) : bool :=
  (nodeOff <=? offset)%nat && (offset <? nodeOff + nodeLen)%nat.

(** The loop of [findNodeAtOffset] over the children runs while
    [children[i].offset <= offset] and returns the first hit; without a
    hit the node itself is the answer. *)
Definition orSelf (hit : option NodeRef) : option NodeRef :=
  match hit with
  | Some r => Some r
  | None => Some []
  end.

(** [findNodeAtOffset(node, offset)]: the innermost node whose span
    holds [offset]. *)
Fixpoint findValueAtOffset (offset : nat) (n : Node) {struct n}
  : option NodeRef :=
  if contains (valueOffset n) (valueLength n) offset then
    match n with
    | NArray _ _ items =>
        orSelf
          ((fix scan (cs : list Node) (i : nat) : option NodeRef :=
              match cs with
              | [] => None
              | c :: rest =>
                  if (valueOffset c <=? offset)%nat then
                    match findValueAtOffset offset c with
                    | Some r => Some (i :: r)
                    | None => scan rest (S i)
                    end
                  else None
              end) items 0)
    | NObject _ _ props =>
        orSelf
          ((fix scan (cs : list Property) (i : nat) : option NodeRef :=
              match cs with
              | [] => None
              | c :: rest =>
                  if (nodeOffset (AProperty c) <=? offset)%nat then
                    match findPropertyAtOffset offset c with
                    | Some r => Some (i :: r)
                    | None => scan rest (S i)
                    end
                  else None
              end) props 0)
    | _ => Some []
    end
  else None
with findPropertyAtOffset (offset : nat) (p : Property) {struct p}
  : option NodeRef :=
  match p with
  | NProperty o l ko kl k v =>
      if contains o l offset then
        orSelf
          (if (ko <=? offset)%nat then
             if contains ko kl offset then Some [0]
             else
               match v with
               | Some n =>
                   if (valueOffset n <=? offset)%nat then
                     match findValueAtOffset offset n with
                     | Some r => Some (1 :: r)
                     | None => None
                     end
                   else None
               | None => None
               end
           else None)
      else None
  end.

Definition findNodeAtOffset (root : Node) (offset : nat) : option NodeRef :=
  findValueAtOffset offset root.

(** The property loop of [findNodeAtLocation] for a string segment: the
    first property whose key is [segment] and that has both children;
    the result is its index and its value. *)
Fixpoint findProperty (segment : string) (props : list Property) (i : nat)
  : option (nat * Node) :=
  match props with
  | [] => None
  | p :: rest =>
      match propertyValue p with
      | Some v =>
          if String.eqb (propertyKey p) segment then Some (i, v)
          else findProperty segment rest (S i)
      | None => findProperty segment rest (S i)
      end
  end.

(** [findNodeAtLocation(root, path)] for a path of property names: the
    reference of the node found and the node itself. *)
Fixpoint findNodeAtLocationFrom (here : NodeRef) (node : Node)
         (path : list string) : option (NodeRef * Node) :=
  match path with
  | [] => Some (here, node)
  | segment :: rest =>
      match node with
      | NObject _ _ props =>
          match findProperty segment props 0 with
          | Some (i, v) => findNodeAtLocationFrom (here ++ [i; 1]) v rest
          | None => None
          end
      | _ => None
      end
  end.

Definition findNodeAtLocation (root : Node) (path : list string)
  : option (NodeRef * Node) :=
  findNodeAtLocationFrom [] root path.

End Jsonc.

(** ** [src/utils/pkg.ts] *)

Module Pkg.

(** Modelled from the spec: [src/utils/constants.ts] is not among the
    sources; the two names are those of the path
    [<dir>/node_modules/<packageName>/package.json] the walk tests. *)
Definition NODE_MODULES : string := "node_modules".
Definition PACKAGE_JSON : string := "package.json".

(** What an [async] function settles to. *)
Inductive Outcome (A : Type) :=
| Returns (a : A)
| Throws.
Arguments Returns {A} a.
Arguments Throws {A}.

Section FindPkgInstallDir.
(** [process.cwd()] and the file system the walk observes. *)
Variable processCwd : string.
Variable fs : Fs.FileSystem.
(** [getRoot] of [src/utils/path.ts], which is not among the sources:
    the boundary at which the walk gives up. *)
Variable getRoot : string -> string.

Definition pkgInstallDirIn (packageName currentDirPath : string) : string :=
  Path.resolve processCwd [currentDirPath; NODE_MODULES; packageName].

Definition pkgJsonPathIn (packageName currentDirPath : string) : string :=
  Path.resolve processCwd
    [pkgInstallDirIn packageName currentDirPath; PACKAGE_JSON].

(** The test of one level: [Promise.all] of the two [pathExists]
    calls, then [every(Boolean)]. *)
Definition pkgExistsIn (packageName currentDirPath : string) : bool :=
  forallb (fun b : bool => b)
    [Fs.pathExists fs (pkgInstallDirIn packageName currentDirPath);
     Fs.pathExists fs (pkgJsonPathIn packageName currentDirPath)].

(** The [while (true)] loop; [fuel] bounds the number of levels
    visited and [None] means the bound was hit before the loop left. *)
Fixpoint walkUp (fuel : nat) (packageName endPath currentDirPath : string)
  : option (option string) :=
  match fuel with
  | 0 => None
  | S fuel' =>
      if pkgExistsIn packageName currentDirPath then
        Some (Some (pkgInstallDirIn packageName currentDirPath))
      else if String.eqb currentDirPath endPath then Some None
      else walkUp fuel' packageName endPath (Path.dirname currentDirPath)
  end.

(** [findPkgInstallDir(packageName, baseFilePath)]: a rejected
    [realpath] rejects the call. *)
Definition findPkgInstallDir (fuel : nat) (packageName baseFilePath : string)
  : option (Outcome (option string)) :=
  match Fs.realpath fs baseFilePath with
  | None => Some Throws
  | Some baseFilePath' =>
      let currentDirPath := Path.dirname baseFilePath' in
      let endPath := getRoot baseFilePath' in
      option_map Returns (walkUp fuel packageName endPath currentDirPath)
  end.

(** The directories the loop visits when nothing is found: from
    [currentDirPath] upward, [endPath] included. *)
Fixpoint levelsTo (fuel : nat) (endPath currentDirPath : string)
  : option (list string) :=
  match fuel with
  | 0 => None
  | S fuel' =>
      if String.eqb currentDirPath endPath then Some [currentDirPath]
      else option_map (cons currentDirPath)
             (levelsTo fuel' endPath (Path.dirname currentDirPath))
  end.
End FindPkgInstallDir.

(** The value [getPkgNameAndVersionFromDocPosition] returns on a match. *)
Record NameAndVersion := {
  nameNode : Jsonc.NodeRef;
  versionNode : Jsonc.NodeRef;
  name : string;
  version : string
}.

Definition dependenciesNodePath : list string :=
  ["dependencies"; "devDependencies"; "peerDependencies";
   "optionalDependencies"].

(** [array.includes(x)] on node references, [undefined] included. *)
Definition includesRef (xs : list (option Jsonc.NodeRef))
           (x : option Jsonc.NodeRef) : bool :=
  existsb (fun y =>
             match y, x with
             | Some a, Some b => Jsonc.NodeRef_eqb a b
             | None, None => true
             | _, _ => false
             end) xs.

Section Locate.
(** [validatePkgName(name).validForOldPackages] *)
Variable validForOldPackages : string -> bool.

(** [getPkgNameAndVersionFromDocPosition(document, position)] on the
    tree [parseJsonc] gave ([None]: no tree) and the offset of the
    position.  The conjunction is evaluated left to right, so
    [versionNode.type] is read as soon as [nameNode] is a string:
    reading it of [undefined] throws. *)
Definition getPkgNameAndVersionFromDocPosition
           (root : option Jsonc.Node) (offset : nat)
  : Outcome (option NameAndVersion) :=
  match root with
  | None => Returns None
  | Some root =>
      match Jsonc.findNodeAtOffset root offset with
      | None => Returns None
      | Some nameRef =>
          match Jsonc.parentRef nameRef,
                Jsonc.nodeAt (Jsonc.AValue root) nameRef with
          | Some parent, Some nameNode_ =>
              let dependenciesNodes :=
                map (fun path =>
                       option_map fst (Jsonc.findNodeAtLocation root [path]))
                    dependenciesNodePath in
              let parentNode := Jsonc.nodeAt (Jsonc.AValue root) parent in
              let siblings :=
                match parentNode with
                | Some pn => Jsonc.children pn
                | None => []
                end in
              let versionNode_ := nth_error siblings 1 in
              if Jsonc.NodeType_eqb (Jsonc.nodeType nameNode_) Jsonc.TString
              then
                match versionNode_ with
                | None => Throws
                | Some vn =>
                    if Jsonc.NodeType_eqb (Jsonc.nodeType vn) Jsonc.TString
                       && match parentNode with
                          | Some pn =>
                              Jsonc.NodeType_eqb (Jsonc.nodeType pn)
                                                 Jsonc.TProperty
                          | None => false
                          end
                       && (List.length siblings =? 2)%nat
                       && Jsonc.NodeRef_eqb nameRef (parent ++ [0])
                       && includesRef dependenciesNodes
                                      (Jsonc.parentRef parent)
                    then
                      match Jsonc.nodeValue nameNode_, Jsonc.nodeValue vn with
                      | Some pkgName, Some ver =>
                          if validForOldPackages pkgName then
                            Returns (Some {| nameNode := nameRef;
                                             versionNode := parent ++ [1];
                                             name := pkgName;
                                             version := ver |})
                          else Returns None
                      | _, _ => Returns None
                      end
                    else Returns None
                end
              else Returns None
          | _, _ => Returns None
          end
      end
  end.
End Locate.

End Pkg.

(** ** [src/utils/pkg-hover-contents.ts] *)

Module HoverContents.

(** A [repository], [homepage] or [bugs] field of a manifest: a string,
    an object (whose [url], when it is a string, is kept), or absent. *)
Inductive UrlField :=
| FString (s : string)
| FObject (url : option string)
| FUndefined.

Record PackageJson := {
  homepage : UrlField;
  repository : UrlField;
  bugs : UrlField
}.

(** The fields of [PackageInfo] ([src/utils/pkg-info.ts]) that
    [pkgWebsites] reads. *)
Record PackageInfo := {
  name : string;
  installedVersion : option string;
  isBuiltinModule : bool;
  packageJson : PackageJson
}.

(** [tryGetUrl(val)] *)
Definition tryGetUrl (val : UrlField) : option string :=
  match val with
  | FString s => Some s
  | FObject (Some url) => Some url
  | _ => None
  end.

(** [/^https?:\/\/.*/i.test(url)] *)
Definition isHttpUrl (url : string) : bool :=
  Js.startsWith "http://" (Js.toLowerCase url) ||
  Js.startsWith "https://" (Js.toLowerCase url).

(** [s.replace(/\.git$/, '')] *)
Definition stripDotGit (s : string) : string :=
  if Js.endsWith ".git" s then Js.dropLast 4 s else s.

Section Links.
(** [hostedGitInfo.fromUrl(u)?.https({ noGitPlus: true, noCommittish:
    true })] of the [hosted-git-info] package: [None] when the text
    names no known host. *)
Variable hostedHttps : string -> option string.
(** [trimLeftSlash] of [src/utils/path.ts], not among the sources. *)
Variable trimLeftSlash : string -> string.
(** [spacing] of [src/utils/index.ts], not among the sources. *)
Variable spacing : nat -> string.

(** [extractGitUrl(url)] *)
Definition extractGitUrl (url : string) : option string :=
  let result :=
    if isHttpUrl url then Some url
    else hostedHttps (trimLeftSlash url) in
  match result with
  | Some r => if Js.truthy result then Some (stripDotGit r) else result
  | None => None
  end.

(** The bugs URL up to its first [/issues]. *)
Definition stripIssues (bugsUrl : string) : string :=
  match Js.indexOf "/issues" bugsUrl with
  | Some idx => Js.sliceTo idx bugsUrl
  | None => bugsUrl
  end.

(** [repositoryUrl] of [pkgWebsites] once the repository field was
    looked at. *)
Definition repositoryFieldUrl (pj : PackageJson) : option string :=
  let repositoryUrl := tryGetUrl (repository pj) in
  match repositoryUrl with
  | Some r => if Js.truthy repositoryUrl then extractGitUrl r
              else repositoryUrl
  | None => None
  end.

(** [repositoryUrl] of [pkgWebsites] after the bugs fallback. *)
Definition repositoryUrlOf (pj : PackageJson) : option string :=
  let repositoryUrl := repositoryFieldUrl pj in
  if negb (Js.truthy repositoryUrl) then
    let bugsUrl := tryGetUrl (bugs pj) in
    match bugsUrl with
    | Some b => if Js.truthy bugsUrl then extractGitUrl (stripIssues b)
                else repositoryUrl
    | None => repositoryUrl
    end
  else repositoryUrl.

(** [homepageUrl] of [pkgWebsites] once compared with [repositoryUrl]. *)
Definition homepageUrlOf (pj : PackageJson) : option string :=
  let homepageUrl := tryGetUrl (homepage pj) in
  if Js.strictEq (repositoryUrlOf pj) homepageUrl then None
  else homepageUrl.

(** The getter [packageNameAndVersion]. *)
Definition packageNameAndVersion (info : PackageInfo) : string :=
  (name info ++
   match installedVersion info with
   | Some v => if Js.truthy (Some v) then "@" ++ v else ""
   | None => ""
   end)%string.

Definition npmUrlOf (info : PackageInfo) : string :=
  ("https://www.npmjs.com/package/" ++ name info ++
   match installedVersion info with
   | Some v => if Js.truthy (Some v) then "/v/" ++ v else ""
   | None => ""
   end)%string.

(** A link pushed onto [infos] when its URL is truthy. *)
Definition linkWhen (label : string) (url : option string) : list string :=
  match url with
  | Some u => if Js.truthy url then [("[" ++ label ++ "](" ++ u ++ ")")%string]
              else []
  | None => []
  end.

Definition fixedLinks (info : PackageInfo) : list string :=
  let pkgName := name info in
  let nv := packageNameAndVersion info in
  [("[Sync Mirror](https://npmmirror.com/sync/" ++ pkgName ++ ")")%string;
   ("[Npm View](https://npmview.vercel.app/" ++ nv ++ ")")%string;
   ("[Npm Trends](https://npmtrends.com/" ++ pkgName ++ ")")%string;
   ("[Npm Graph](https://npmgraph.js.org/?q=" ++ nv ++ ")")%string;
   ("[Npm Charts](https://npmcharts.com/compare/" ++ pkgName ++ ")")%string;
   ("[Npm Stats](https://npm-stat.com/charts.html?package=" ++ pkgName ++ ")")%string;
   ("[Moiva](https://moiva.io/?npm=" ++ pkgName ++ ")")%string;
   ("[RunKit](https://npm.runkit.com/" ++ pkgName ++ ")")%string].

(** The array [infos] of [pkgWebsites]. *)
Definition websiteInfos (info : PackageInfo) : list string :=
  linkWhen "Npm" (Some (npmUrlOf info))
  ++ linkWhen "HomePage" (homepageUrlOf (packageJson info))
  ++ linkWhen "Repository" (repositoryUrlOf (packageJson info))
  ++ fixedLinks info.

(** The getter [pkgWebsites]; [None] is [undefined]. *)
Definition pkgWebsites (info : PackageInfo) : option string :=
  if isBuiltinModule info then None
  else Some (Js.join (spacing 4) (websiteInfos info)).
End Links.

End HoverContents.

(** ** [globby], as far as [getCodeLenses] relies on it

    [globby] turns a pattern list into tasks: every positive pattern is
    expanded with the negative patterns that follow it in the list as
    its [ignore] option, and the results are united.  The matching of
    one pattern against one path is left to the matcher. *)

Module Globby.

Section Globby.
(** The glob matcher: [globMatch pattern file] says that the
    relative path [file] is matched by [pattern]. *)
Variable globMatch : string -> string -> bool.
(** The regular files below [cwd], relative to it, as the walk with
    the options of the call ([dot], [onlyFiles], no symbolic links
    followed, the ignore files honoured) lists them. *)
Variable files : list string.

Definition isNegativePattern (pattern : string) : bool :=
  Js.startsWith "!" pattern.

(** A negative pattern ignores, with its [!] removed, the matches of
    the positive patterns that precede it. *)
Definition ignoredBy (patterns : list string) (file : string) : bool :=
  existsb (fun q => isNegativePattern q && globMatch (Js.sliceFrom1 q) file)
          patterns.

(** [file] is matched by a positive pattern of the list and by no
    negative pattern after that one. *)
Fixpoint selects (patterns : list string) (file : string) : bool :=
  match patterns with
  | [] => false
  | p :: rest =>
      if isNegativePattern p then selects rest file
      else (globMatch p file && negb (ignoredBy rest file))
           || selects rest file
  end.

(** [globby(patterns, options)] *)
Definition globby (patterns : list string) : list string :=
  filter (selects patterns) files.
End Globby.

End Globby.

(** ** [src/codeLens/packageJsonFiles.ts] *)

Module FilesCodeLens.

Definition filesLiteral : string := "files".

Definition defaultIncludedFiles : list string :=
  ["package.json"; "README.md"; "LICENSE.md"; "LICENCE.md"].

Definition defaultIgnoredPatterns : list string :=
  map (fun p => ("!" ++ p)%string)
    ["node_modules"; "package-lock.json"; "**/.gitignore"; "**/.npmignore";
     "**/npm-debug.log"; "**/.npmrc"; "**/.git"; "**/CVS"; "**/.svn";
     "**/.hg"; "**/.lock-wscript"; "**/.wafpickle-N"; "**/.*.swp";
     "**/.DS_Store"; "**/._*"; "**/config.gypi"; "**/*.orig"].

(** [vscode.Position] and [vscode.Range] *)
Record Position := { line : nat; character : nat }.
Record Range := { rangeStart : Position; rangeEnd : Position }.

(** [vscode.CodeLens], unresolved: only its range is set. *)
Record CodeLens := { range : Range }.

Inductive LensType := include | exclude | all.

(** An entry of [_codeLensDataMap]; the promise is represented by the
    array it resolves to. *)
Record CodeLensData := {
  type : LensType;
  position : Position;
  getReferenceFilesPromise : list string
}.

(** The two fields of [GlobCodeLensProvider] the method writes.  The
    map is keyed by object identity and every key is a fresh lens, so
    it is the list of its entries in insertion order. *)
Record Provider := {
  _negativePatterns : list string;
  _codeLensDataMap : list (CodeLens * CodeLensData)
}.

(** An element of [patternList]. *)
Record PatternItem := {
  isNegated : bool;
  pattern : string;
  itemRange : Range
}.

Section GetCodeLenses.
(** The environment of a call: [process.cwd()], the directory of the
    document, the glob matcher and the files it walks, the file
    system [pathExists] looks at, and the configuration flag. *)
Variable processCwd : string.
Variable cwd : string.
Variable globMatch : string -> string -> bool.
Variable files : list string.
Variable fs : Fs.FileSystem.
Variable includeDefaultPackedFiles : bool.
(** [document.positionAt] and [jsoncStringNodeToRange(document, _)]
    ([src/utils/jsonc.ts], not among the sources). *)
Variable positionAt : nat -> Position.
Variable jsoncStringNodeToRange : Jsonc.Node -> Range.
(** The effect on the provider of [super.getCodeLenses(document,
    _token)] ([GlobCodeLensProvider], not among the sources). *)
Variable superGetCodeLenses : Provider -> Provider.
(** The order in which the expansions of the items settle. *)
Variable completionOrder : list PatternItem -> list PatternItem.

Definition resolveInCwd (file : string) : string :=
  Path.resolve processCwd [cwd; file].

(** The first loop: it leaves at the first node that is not a string;
    the negated patterns met until then stay pushed. *)
Fixpoint collectPatterns (nodes : list Jsonc.AnyNode)
         (negativePatterns : list string) (patternList : list PatternItem)
  : option (list PatternItem) * list string :=
  match nodes with
  | [] => (Some patternList, negativePatterns)
  | patternNode :: rest =>
      match patternNode with
      | Jsonc.AValue (Jsonc.NString o l pattern_ as node) =>
          let range_ := jsoncStringNodeToRange node in
          let isNegated_ := Js.startsWith "!" pattern_ in
          collectPatterns rest
            (if isNegated_ then negativePatterns ++ [pattern_]
             else negativePatterns)
            (patternList ++ [{| isNegated := isNegated_;
                                pattern := pattern_;
                                itemRange := range_ |}])
      | _ => (None, negativePatterns)
      end
  end.

(** The patterns handed to [globby] for one item, before the default
    ignores are appended. *)
Definition patternsOf (negativePatterns : list string) (item : PatternItem)
  : list string :=
  if isNegated item then [Js.sliceFrom1 (pattern item)]
  else pattern item :: negativePatterns.

(** What the promise of one item resolves to. *)
Definition expand (negativePatterns : list string) (item : PatternItem)
  : list string :=
  map resolveInCwd
      (Globby.globby globMatch files
         (patternsOf negativePatterns item ++ defaultIgnoredPatterns)).

(** The effect on [totalFiles] of one expansion settling. *)
Definition settle (negativePatterns : list string)
           (totalFiles : Js.SetOfString) (item : PatternItem)
  : Js.SetOfString :=
  if isNegated item then totalFiles
  else Js.addAll totalFiles (expand negativePatterns item).

(** [addFileWhenExists(absPath)] *)
Definition addFileWhenExists (totalFiles : Js.SetOfString) (absPath : string)
  : Js.SetOfString * bool :=
  if Fs.pathExists fs absPath then (Js.add totalFiles absPath, true)
  else (totalFiles, false).

(** [for (const p of candidates) if (await addFileWhenExists(p)) break] *)
Fixpoint tryCandidates (totalFiles : Js.SetOfString)
         (candidates : list string) : Js.SetOfString :=
  match candidates with
  | [] => totalFiles
  | p :: rest =>
      let '(totalFiles', added) := addFileWhenExists totalFiles p in
      if added then totalFiles' else tryCandidates totalFiles' rest
  end.

Definition candidatesOf (file : string) : list string :=
  [resolveInCwd file;
   resolveInCwd (Js.dropLast 3 file);
   resolveInCwd (Js.toLowerCase file);
   resolveInCwd (Js.dropLast 3 (Js.toLowerCase file))].

(** The body of the loop over [defaultIncludedFiles]. *)
Definition addDefault (totalFiles : Js.SetOfString) (file : string)
  : Js.SetOfString :=
  let absPath := resolveInCwd file in
  if Js.endsWith ".md" absPath then tryCandidates totalFiles (candidatesOf file)
  else fst (addFileWhenExists totalFiles absPath).

(** The [main] step.  Its guard asks the node [findNodeAtLocation]
    found to be of type [property] and its first child to be a string;
    the path given to [resolve] is the [value] of that node.
    [findNodeAtLocation] answers with the value of the [main] property,
    never with the property. *)
Definition addMain (root : Jsonc.Node) (totalFiles : Js.SetOfString)
  : Js.SetOfString :=
  match Jsonc.findNodeAtLocation root ["main"] with
  | Some (_, mainProperty) =>
      if Jsonc.NodeType_eqb (Jsonc.valueType mainProperty) Jsonc.TProperty
         && match Jsonc.children (Jsonc.AValue mainProperty) with
            | c :: _ => Jsonc.NodeType_eqb (Jsonc.nodeType c) Jsonc.TString
            | [] => false
            end
      then
        match Jsonc.nodeValue (Jsonc.AValue mainProperty) with
        | Some mainEntry =>
            fst (addFileWhenExists totalFiles (resolveInCwd mainEntry))
        | None => totalFiles
        end
      else totalFiles
  | None => totalFiles
  end.

(** [totalFiles] once [Promise.all(promises)] is through. *)
Definition totalFilesOf (negativePatterns : list string)
           (settled : list PatternItem) : Js.SetOfString :=
  fold_left (settle negativePatterns) settled [].

(** What the promise of the [all] lens resolves to. *)
Definition allFiles (root : Jsonc.Node) (negativePatterns : list string)
           (settled : list PatternItem) : list string :=
  let totalFiles := totalFilesOf negativePatterns settled in
  if negb includeDefaultPackedFiles then totalFiles
  else
    let totalFiles := fold_left addDefault defaultIncludedFiles totalFiles in
    addMain root totalFiles.

(** The lens and the map entry the second loop makes for one item. *)
Definition itemLens (item : PatternItem) : CodeLens :=
  {| range := itemRange item |}.

Definition itemData (negativePatterns : list string) (item : PatternItem)
  : CodeLensData :=
  {| type := if isNegated item then exclude else include;
     position := rangeStart (itemRange item);
     getReferenceFilesPromise := expand negativePatterns item |}.

(** [getCodeLenses(document, _token)] on the tree [parseJsonc] gave
    for the text of the document: the array returned ([None] for
    [undefined]) and the provider afterwards. *)
Definition getCodeLenses (this : Provider) (root : option Jsonc.Node)
  : option (list CodeLens) * Provider :=
  let this := superGetCodeLenses this in
  match root with
  | None => (None, this)
  | Some root =>
      match Jsonc.findNodeAtLocation root ["files"] with
      | None => (None, this)
      | Some (_, filesPropertyNode) =>
          match Jsonc.children (Jsonc.AValue filesPropertyNode) with
          | [] => (None, this)
          | nodes =>
              match collectPatterns nodes (_negativePatterns this) [] with
              | (None, negs) =>
                  (None, {| _negativePatterns := negs;
                            _codeLensDataMap := _codeLensDataMap this |})
              | (Some patternList, negs) =>
                  let start :=
                    positionAt (Jsonc.valueOffset filesPropertyNode) in
                  let end_ :=
                    positionAt (Jsonc.valueOffset filesPropertyNode
                                + String.length filesLiteral) in
                  let codelens :=
                    {| range := {| rangeStart := start;
                                   rangeEnd := end_ |} |} in
                  let allData :=
                    {| type := all;
                       position := start;
                       getReferenceFilesPromise :=
                         allFiles root negs (completionOrder patternList) |} in
                  (Some (map itemLens patternList ++ [codelens]),
                   {| _negativePatterns := negs;
                      _codeLensDataMap :=
                        _codeLensDataMap this
                        ++ map (fun item => (itemLens item, itemData negs item))
                               patternList
                        ++ [(codelens, allData)] |})
              end
          end
      end
  end.
End GetCodeLenses.

End FilesCodeLens.

(** ** Vocabulary of the statements *)

Module Notions.

(** A file name proper: not empty, no separator in it, and neither [.]
    nor [..]. *)
Fixpoint noSlash (s : string) : bool :=
  match s with
  | EmptyString => true
  | String c rest => negb (Ascii.eqb c Path.slash) && noSlash rest
  end.

Definition simpleName (name : string) : bool :=
  negb (String.eqb name "") && negb (String.eqb name ".")
  && negb (String.eqb name "..") && noSlash name.

(** The directory part of [resolve(dir, name)] for a simple [name]:
    [resolve(dir)] without the [/] that stands for the root alone. *)
Definition dirText (processCwd dir : string) : string :=
  let full :=
    if String.eqb dir "" then processCwd
    else if Path.isAbsolute dir then dir
    else (processCwd ++ "/" ++ dir)%string in
  Path.renderSegments (Path.normalize (Path.split full)).

(** A package name: file names proper joined by separators, as
    [lodash] and [@scope/name] are. *)
Definition packagePath (name : string) : bool :=
  forallb simpleName (Path.split name).

(** The text a directory contributes in front of [/<name>]: nothing
    for the root, the directory itself otherwise. *)
Definition prefixOf (dir : string) : string :=
  if String.eqb dir "/" then "" else dir.

(** [n] applications of [dirname]. *)
Fixpoint ancestor (n : nat) (dir : string) : string :=
  match n with
  | 0 => dir
  | S k => ancestor k (Path.dirname dir)
  end.

End Notions.

(** ** Concrete environments for the examples *)

Module Demo.

(** A volume given by the listing of each of its directories. *)
Definition Listing := list (string * list string).

Fixpoint listingOf (t : Listing) (dir : string) : option (list string) :=
  match t with
  | [] => None
  | (d, names) :: rest =>
      if String.eqb d dir then Some names else listingOf rest dir
  end.

Definition sameName (caseInsensitive : bool) (a b : string) : bool :=
  if caseInsensitive then String.eqb (Js.toLowerCase a) (Js.toLowerCase b)
  else String.eqb a b.

(** The file system over a listing.  On a case-insensitive volume
    [access] finds an entry whatever the case it is asked in, while
    [readdir] reports the names as they were written. *)
Definition volume (caseInsensitive : bool) (t : Listing) : Fs.FileSystem :=
  let accessible path :=
    match listingOf t (Path.dirname path) with
    | Some names => existsb (sameName caseInsensitive (Path.basename path)) names
    | None => false
    end in
  {| Fs.access := accessible;
     Fs.readdir := listingOf t;
     Fs.realpath := fun path => if accessible path then Some path else None |}.

(** A matcher for the patterns of the examples: [**] stands for any
    text, [*] for any text without a separator, every other character
    for itself. *)
Fixpoint globChars (p : list ascii) (s : list ascii) {struct p} : bool :=
  match p with
  | [] => match s with [] => true | _ => false end
  | c :: p' =>
      if Ascii.eqb c "*"%char then
        match p' with
        | c2 :: p'' =>
            if Ascii.eqb c2 "*"%char then
              (fix any (s : list ascii) : bool :=
                 globChars p'' s ||
                 match s with
                 | [] => false
                 | _ :: s' => any s'
                 end) s
            else
              (fix run (s : list ascii) : bool :=
                 globChars p' s ||
                 match s with
                 | [] => false
                 | x :: s' => negb (Ascii.eqb x Path.slash) && run s'
                 end) s
        | [] =>
            (fix run (s : list ascii) : bool :=
               match s with
               | [] => true
               | x :: s' => negb (Ascii.eqb x Path.slash) && run s'
               end) s
        end
      else
        match s with
        | x :: s' => Ascii.eqb c x && globChars p' s'
        | [] => false
        end
  end.

Definition glob (pattern file : string) : bool :=
  globChars (list_ascii_of_string pattern) (list_ascii_of_string file).

End Demo.

(** ** Manifests of the examples *)

Module Manifests.
Import Jsonc.

(** [{"files":["lib"]}] *)
Definition filesOnly : Node :=
  NObject 0 17
    [NProperty 1 15 1 7 "files" (Some (NArray 9 7 [NString 10 5 "lib"]))].

(** [{"dependencies":{"lodash":"^4.17.21"}}] *)
Definition withDependency : Node :=
  NObject 0 38
    [NProperty 1 36 1 14 "dependencies"
       (Some (NObject 16 21
                [NProperty 17 19 17 8 "lodash"
                   (Some (NString 26 10 "^4.17.21"))]))].

(** [{"dependencies":{"lodash"}}], as the tolerant parser reads it: the
    property has its key only and runs up to the end of the object. *)
Definition keyOnly : Node :=
  NObject 0 27
    [NProperty 1 25 1 14 "dependencies"
       (Some (NObject 16 10 [NProperty 17 9 17 8 "lodash" None]))].

End Manifests.

(** ** Vocabulary of the statements on the repository link *)

Module Links.

(** A canonical HTTPS URL: it starts with [https://], does not end in
    [.git], and carries no [#committish]. *)
Definition canonicalHttps (url : string) : Prop :=
  Js.startsWith "https://" url = true
  /\ Js.endsWith ".git" url = false
  /\ Js.indexOf "#" url = None.

(** The answer of [hosted-git-info] on the one repository field of the
    examples: GitHub's [https] template, without [git+] and without the
    committish. *)
Definition hostedHttps (url : string) : option string :=
  if String.eqb url "git+https://github.com/user/repo.git#main"
  then Some "https://github.com/user/repo.git"
  else None.

(** An instance of [trimLeftSlash] for the examples: the text without
    its leading separators. *)
Fixpoint trimLeftSlash (path : string) : string :=
  match path with
  | String c rest => if Ascii.eqb c Path.slash then trimLeftSlash rest else path
  | EmptyString => EmptyString
  end.

(** An instance of [spacing] for the examples. *)
Definition spacing (n : nat) : string :=
  String.concat "" (repeat "&nbsp;" n).

End Links.

(** ** Vocabulary of the statements on [getCodeLenses] *)

Module Resolved.
Import FilesCodeLens.

(** An item of the [files] array that is a negated pattern. *)
Definition isNegatedNode (node : Jsonc.AnyNode) : bool :=
  match node with
  | Jsonc.AValue (Jsonc.NString _ _ pattern_) => Js.startsWith "!" pattern_
  | _ => false
  end.

(** The negated patterns of a pattern list, in order. *)
Definition negatedPatterns (patternList : list PatternItem) : list string :=
  map pattern (filter isNegated patternList).

(** [relativeFile] is matched by the negated pattern [negated]. *)
Definition excludedBy (globMatch : string -> string -> bool)
           (negated : PatternItem) (relativeFile : string) : Prop :=
  isNegated negated = true
  /\ globMatch (Js.sliceFrom1 (pattern negated)) relativeFile = true.

(** The names probed for one entry of [defaultIncludedFiles] that
    ends in [.md], in the order they are tried. *)
Definition candidateNames (file : string) : list string :=
  [file; Js.dropLast 3 file; Js.toLowerCase file;
   Js.dropLast 3 (Js.toLowerCase file)].

Section DefaultHit.
Variable processCwd : string.
Variable cwd : string.
Variable fs : Fs.FileSystem.

(** The path the default probing adds for one entry of
    [defaultIncludedFiles]: for an [.md] entry the first candidate
    that exists, for another entry the entry itself when it exists. *)
Definition defaultHit (file : string) : option string :=
  if Js.endsWith ".md" (resolveInCwd processCwd cwd file)
  then find (Fs.pathExists fs) (candidatesOf processCwd cwd file)
  else if Fs.pathExists fs (resolveInCwd processCwd cwd file)
       then Some (resolveInCwd processCwd cwd file)
       else None.
End DefaultHit.

(** The files of the [all] lens among the entries of the map. *)
Definition allLensFiles (map_ : list (CodeLens * CodeLensData))
  : list (list string) :=
  map (fun entry => getReferenceFilesPromise (snd entry))
      (filter (fun entry =>
                 match type (snd entry) with all => true | _ => false end)
              map_).

(** The files of the [include] lenses among the entries of the map. *)
Definition includeLensFiles (map_ : list (CodeLens * CodeLensData))
  : list (list string) :=
  map (fun entry => getReferenceFilesPromise (snd entry))
      (filter (fun entry =>
                 match type (snd entry) with include => true | _ => false end)
              map_).

End Resolved.

(** ** A package directory for the examples *)

Module Package.
Import FilesCodeLens.

Definition cwd : string := "/pkg".

(** A document of one line: the position of an offset is its column. *)
Definition positionAt (offset : nat) : Position :=
  {| line := 0; character := offset |}.

Definition jsoncStringNodeToRange (node : Jsonc.Node) : Range :=
  {| rangeStart := positionAt (Jsonc.valueOffset node);
     rangeEnd := positionAt (Jsonc.valueOffset node + Jsonc.valueLength node) |}.

Definition freshProvider : Provider :=
  {| _negativePatterns := []; _codeLensDataMap := [] |}.

(** [super.getCodeLenses] taken to leave the two fields as they are. *)
Definition superGetCodeLenses (this : Provider) : Provider := this.

(** The files of the package, relative to [cwd]. *)
Definition files : list string :=
  ["package.json"; "Readme.md"; "index.js";
   "lib/index.js"; "lib/index.test.js"].

(** The volume, case-insensitive as the default volumes of macOS and
    Windows are. *)
Definition volume : Fs.FileSystem :=
  Demo.volume true
    [("/", ["pkg"]);
     ("/pkg", ["package.json"; "Readme.md"; "index.js"; "lib"]);
     ("/pkg/lib", ["index.js"; "index.test.js"])].

(** [{"files":["index.js","!package.json"]}] *)
Definition negatedManifest : Jsonc.Node :=
  Jsonc.NObject 0 38
    [Jsonc.NProperty 1 36 1 7 "files"
       (Some (Jsonc.NArray 9 28
                [Jsonc.NString 10 10 "index.js";
                 Jsonc.NString 21 15 "!package.json"]))].

(** [{"files":["index.js"]}] *)
Definition plainManifest : Jsonc.Node :=
  Jsonc.NObject 0 22
    [Jsonc.NProperty 1 20 1 7 "files"
       (Some (Jsonc.NArray 9 12 [Jsonc.NString 10 10 "index.js"]))].

(** [{"files":["!lib/*.test.js","lib/**"]}] *)
Definition libManifest : Jsonc.Node :=
  Jsonc.NObject 0 37
    [Jsonc.NProperty 1 35 1 7 "files"
       (Some (Jsonc.NArray 9 27
                [Jsonc.NString 10 16 "!lib/*.test.js";
                 Jsonc.NString 27 8 "lib/**"]))].

(** [{"files":["index.js",1]}] *)
Definition malformedManifest : Jsonc.Node :=
  Jsonc.NObject 0 24
    [Jsonc.NProperty 1 22 1 7 "files"
       (Some (Jsonc.NArray 9 14
                [Jsonc.NString 10 10 "index.js"; Jsonc.NNumber 21 1]))].

Definition getCodeLenses (includeDefaultPackedFiles : bool)
           (completionOrder : list PatternItem -> list PatternItem) :=
  FilesCodeLens.getCodeLenses "/" cwd Demo.glob files volume
    includeDefaultPackedFiles positionAt jsoncStringNodeToRange
    superGetCodeLenses completionOrder.

(** The items of the arrays above. *)
Definition itemAt (offset length : nat) (pattern_ : string) : PatternItem :=
  {| isNegated := Js.startsWith "!" pattern_;
     pattern := pattern_;
     itemRange := jsoncStringNodeToRange (Jsonc.NString offset length pattern_) |}.

Definition indexJs : PatternItem := itemAt 10 10 "index.js".
Definition notPackageJson : PatternItem := itemAt 21 15 "!package.json".
Definition libAll : PatternItem := itemAt 27 8 "lib/**".

(** A project with one dependency installed at its root. *)
Definition project : Fs.FileSystem :=
  Demo.volume false
    [("/", ["p"]);
     ("/p", ["src"; "node_modules"; "package.json"]);
     ("/p/src", ["index.js"]);
     ("/p/node_modules", ["lodash"]);
     ("/p/node_modules/lodash", ["package.json"; "lodash.js"])].

(** [getRoot] taken to name the root of the volume. *)
Definition getRoot (path : string) : string := "/".

End Package.

(** ** The item [collectPatterns] makes of a node *)

Module Items.
Import FilesCodeLens.

Definition itemOf (jsoncStringNodeToRange : Jsonc.Node -> Range)
           (node : Jsonc.AnyNode) : option PatternItem :=
  match node with
  | Jsonc.AValue (Jsonc.NString o l pattern_) =>
      Some {| isNegated := Js.startsWith "!" pattern_;
              pattern := pattern_;
              itemRange := jsoncStringNodeToRange (Jsonc.NString o l pattern_) |}
  | _ => None
  end.

(** [items] are the items of [nodes], node by node. *)
Definition itemsOf (jsoncStringNodeToRange : Jsonc.Node -> Range)
           (nodes : list Jsonc.AnyNode) (items : list PatternItem) : Prop :=
  Forall2 (fun node item => itemOf jsoncStringNodeToRange node = Some item)
          nodes items.

Definition positive (item : PatternItem) : bool := negb (isNegated item).

End Items.

(** ** [src/utils/pkg-hover-contents.ts]: the hover contents *)

Module Hover.
Import HoverContents.

(** [xs.slice(-2)] *)
Definition lastTwo {A : Type} (xs : list A) : list A :=
  skipn (length xs - 2) xs.

(** [url.split('/').slice(-2).join('/')] *)
Definition lastTwoSegments (url : string) : string :=
  Js.join "/" (lastTwo (Path.split url)).

(** The double quote. *)
Definition quote : string := String "034"%char EmptyString.

Record BundleSize := { normal : nat; gzip : nat }.

(** [PackageInfo] with the fields the other getters read:
    [packageJson.description], [installDir], [isESMModule],
    [containsTypes] and [bundleSize]. *)
Record Info := {
  packageInfo : PackageInfo;
  description : option string;
  installDir : option string;
  isESMModule : bool;
  containsTypes : option bool;
  bundleSize : option BundleSize
}.

(** [GenerateOptions] *)
Record GenerateOptions := { showDescription : option bool }.

(** [vscode.MarkdownString], as [generate] sets it up. *)
Record MarkdownString := {
  value : string;
  isTrusted : bool;
  supportHtml : bool
}.

Section Creator.
Variable hostedHttps : string -> option string.
Variable trimLeftSlash : string -> string.
Variable spacing : nat -> string.
(** [formatSize] of [src/utils/fs.ts], not among the sources. *)
Variable formatSize : nat -> string.
(** [join] of [node:path], [encodeURIComponent], and the text of
    [Uri.parse(raw)]. *)
Variable pathJoin : string -> string -> string.
Variable encodeURIComponent : string -> string.
Variable uriToString : string -> string.

(** The getter [githubUserAndRepo]. *)
Definition githubUserAndRepo (info : Info) : option string :=
  if isBuiltinModule (packageInfo info) then None
  else
    let repositoryUrl := tryGetUrl (repository (packageJson (packageInfo info))) in
    let repositoryUrl :=
      match repositoryUrl with
      | Some r => if Js.truthy repositoryUrl
                  then extractGitUrl hostedHttps trimLeftSlash r
                  else repositoryUrl
      | None => None
      end in
    match repositoryUrl with
    | Some r => if Js.startsWith "https://github" r
                then Some (lastTwoSegments r) else None
    | None => None
    end.

(** The getter [pkgName]. *)
Definition pkgName (info : Info) : string := name (packageInfo info).

(** The getter [pkgDescription]. *)
Definition pkgDescription (info : Info) : option string :=
  if isBuiltinModule (packageInfo info) then None else description info.

(** [showTextDocumentCmdUri] of [pkgNameLink]. *)
Definition showTextDocumentCmdUri (info : Info) : option string :=
  if isBuiltinModule (packageInfo info) then None
  else
    let pkgJsonPath :=
      match installDir info with
      | Some dir => if Js.truthy (installDir info)
                    then Some (pathJoin dir Pkg.PACKAGE_JSON)
                    else installDir info
      | None => None
      end in
    match pkgJsonPath with
    | Some path =>
        if Js.truthy pkgJsonPath then
          Some (uriToString
                  ("command:extension.show.textDocument?"
                   ++ encodeURIComponent (quote ++ path ++ quote))%string)
        else None
    | None => None
    end.

(** The getter [pkgNameLink]. *)
Definition pkgNameLink (info : Info) : string :=
  let packageName :=
    if isBuiltinModule (packageInfo info) then name (packageInfo info)
    else packageNameAndVersion (packageInfo info) in
  let result := ("`" ++ packageName ++ "`")%string in
  let result :=
    match showTextDocumentCmdUri info with
    | Some uri => ("[" ++ result ++ "](" ++ uri ++ ")")%string
    | None => result
    end in
  ("<span style=" ++ quote ++ "color:#569CD6;" ++ quote ++ ">"
   ++ result ++ "</span>")%string.

(** The getter [latestVersion]. *)
Definition latestVersion (info : Info) : string :=
  ("[![latest version](https://img.shields.io/npm/v/" ++ pkgName info
   ++ "?label=latest)](https://www.npmjs.com/package/" ++ pkgName info
   ++ ")")%string.

(** The getter [downloadCountPerWeek]. *)
Definition downloadCountPerWeek (info : Info) : string :=
  ("[![NPM Downloads](https://img.shields.io/npm/dw/" ++ pkgName info
   ++ ")](https://www.npmjs.com/package/" ++ pkgName info
   ++ "?activeTab=versions)")%string.

(** The getter [githubStar]. *)
Definition githubStar (info : Info) : option string :=
  match githubUserAndRepo info with
  | Some userAndRepo =>
      if Js.truthy (githubUserAndRepo info) then
        Some ("[![GitHub Repo stars](https://img.shields.io/github/stars/"
              ++ userAndRepo ++ ")](https://github.com/" ++ userAndRepo
              ++ ")")%string
      else None
  | None => None
  end.

(** The getter [githubIssueCount]. *)
Definition githubIssueCount (info : Info) : option string :=
  match githubUserAndRepo info with
  | Some userAndRepo =>
      if Js.truthy (githubUserAndRepo info) then
        Some ("[![GitHub Issues](https://img.shields.io/github/issues-raw/"
              ++ userAndRepo ++ "?label=issues)](https://github.com/"
              ++ userAndRepo ++ "/issues)")%string
      else None
  | None => None
  end.

(** [values.filter(Boolean)] on [string | undefined] values. *)
Definition filterTruthy (values : list (option string)) : list string :=
  flat_map (fun v => match v with
                     | Some s => if Js.truthy v then [s] else []
                     | None => []
                     end) values.

(** The badges of [badgesInfo], before they are joined. *)
Definition badges (info : Info) : list string :=
  filterTruthy [Some (latestVersion info); Some (downloadCountPerWeek info);
                githubStar info; githubIssueCount info].

(** The getter [badgesInfo]. *)
Definition badgesInfo (info : Info) : string :=
  Js.join (spacing 3) (badges info).

(** The array [infos] of [moduleInfo]. *)
Definition moduleInfos (info : Info) : list string :=
  let nv := packageNameAndVersion (packageInfo info) in
  (if isESMModule info then ["[ESM](https://nodejs.org/api/esm.html)"] else [])
  ++ match containsTypes info with
     | Some typed =>
         [("[" ++ (if typed then "Typed" else "No Types")
           ++ "](https://arethetypeswrong.github.io/?p=" ++ nv ++ ")")%string]
     | None => []
     end
  ++ match bundleSize info with
     | Some size =>
         [("[BundleSize](https://bundlephobia.com/package/" ++ nv ++ "):"
           ++ spacing 1 ++ formatSize (normal size) ++ spacing 1
           ++ "(gzip:" ++ spacing 1 ++ formatSize (gzip size) ++ ")")%string]
     | None => []
     end.

(** The getter [moduleInfo]. *)
Definition moduleInfo (info : Info) : option string :=
  if isBuiltinModule (packageInfo info) then None
  else if (0 <? length (moduleInfos info))%nat
       then Some (Js.join (spacing 4) (moduleInfos info))
       else None.

(** [basicInfoMd] of [generate]. *)
Definition basicInfoMd (info : Info) (options : option GenerateOptions)
  : string :=
  let basic := (pkgNameLink info ++ spacing 2)%string in
  if isBuiltinModule (packageInfo info) then
    let homepageUrl :=
      ("https://nodejs.org/docs/latest/api/" ++ pkgName info ++ ".html")%string in
    let repositoryUrl :=
      ("https://github.com/nodejs/node/blob/main/lib/" ++ pkgName info
       ++ ".js")%string in
    ((basic ++ ("[Documentation](" ++ homepageUrl ++ ")" ++ spacing 4))
     ++ ("[Source Code](" ++ repositoryUrl ++ ")"))%string
  else
    let basic :=
      match moduleInfo info with
      | Some m => if Js.truthy (moduleInfo info) then (basic ++ m)%string
                  else basic
      | None => basic
      end in
    let wanted :=
      match options with
      | Some o => match showDescription o with
                  | Some b => b
                  | None => false
                  end
      | None => false
      end in
    match pkgDescription info with
    | Some d => if wanted && Js.truthy (pkgDescription info)
                then (basic ++ "<br />" ++ d)%string else basic
    | None => basic
    end.

(** [badgesInfoMd] of [generate]. *)
Definition badgesInfoMd (info : Info) : string :=
  if isBuiltinModule (packageInfo info) then ""
  else if Js.truthy (Some (badgesInfo info)) then badgesInfo info else "".

(** [generate(packageInfo, options)] *)
Definition generate (info : Info) (options : option GenerateOptions)
  : list MarkdownString :=
  map (fun md => {| value := md; isTrusted := true; supportHtml := true |})
      (filterTruthy
         [Some (basicInfoMd info options);
          pkgWebsites hostedHttps trimLeftSlash spacing (packageInfo info);
          Some (badgesInfoMd info)]).
End Creator.

End Hover.

(** ** The logger ([src/utils/logger.ts]) *)

Module Logger.

(** What was called on a [vscode.OutputChannel]. *)
Inductive ChannelCall :=
| Append (text : string)
| Show
| DisposeChannel.

(** An output channel: the arguments of [createOutputChannel] and the
    calls made on it since, oldest first. *)
Record OutputChannel := {
  channelName : string;
  languageId : string;
  calls : list ChannelCall
}.

(** The channels [vscode.window.createOutputChannel] made so far, in
    the order of their creation; a channel is referred to by its rank. *)
Definition Window := list OutputChannel.

(** The fields of a [Logger]. *)
Record Logger := {
  name : string;
  language : string;
  channel : option nat
}.

(** [new Logger(name, language)] *)
Definition newLogger (name_ language_ : string) : Logger :=
  {| name := name_; language := language_; channel := None |}.

(** The exported [logger]: [new Logger()], with the default arguments. *)
Definition logger : Logger := newLogger "" "log".

Definition isSpace (c : ascii) : bool :=
  let n := nat_of_ascii c in
  ((n =? 32) || ((9 <=? n) && (n <=? 13)))%nat.

Fixpoint trimStart (s : string) : string :=
  match s with
  | String c rest => if isSpace c then trimStart rest else s
  | EmptyString => EmptyString
  end.

Definition reverse (s : string) : string :=
  string_of_list_ascii (rev (list_ascii_of_string s)).

(** [s.trim()] on ASCII text. *)
Definition trim (s : string) : string :=
  reverse (trimStart (reverse (trimStart s))).

(** A call on the channel of rank [rank]. *)
Fixpoint callOn (rank : nat) (call : ChannelCall) (window : Window) : Window :=
  match window, rank with
  | [], _ => []
  | ch :: rest, 0 =>
      {| channelName := channelName ch; languageId := languageId ch;
         calls := calls ch ++ [call] |} :: rest
  | ch :: rest, S k => ch :: callOn k call rest
  end.

(** [_initChannel()] *)
Definition _initChannel (this : Logger) (window : Window) : Logger * Window :=
  let prefix := "Package Manager Enhancer" in
  ({| name := name this; language := language this;
      channel := Some (length window) |},
   window ++ [{| channelName := trim (prefix ++ " " ++ name this)%string;
                 languageId := language this;
                 calls := [] |}]).

(** [_output(message, active, level)]; [enableLogInfo] is
    [configuration.enableLogInfo] at the time of the call. *)
Definition _output (enableLogInfo : bool) (message : string) (active : bool)
           (level : string) (this : Logger) (window : Window)
  : Logger * Window :=
  if negb enableLogInfo then (this, window)
  else
    let '(this, window) :=
      match channel this with
      | None => _initChannel this window
      | Some _ => (this, window)
      end in
    match channel this with
    | Some rank =>
        let window :=
          callOn rank (Append ("[" ++ level ++ "] " ++ message
                               ++ String "010"%char EmptyString)%string)
                 window in
        (this, if active then callOn rank Show window else window)
    | None => (this, window)
    end.

(** [info(message, active)] and [error(message, active)] *)
Definition info (enableLogInfo : bool) (message : string) (active : bool) :=
  _output enableLogInfo message active "INFO".

Definition error (enableLogInfo : bool) (message : string) (active : bool) :=
  _output enableLogInfo message active "ERROR".

(** [dispose()] *)
Definition dispose (this : Logger) (window : Window) : Logger * Window :=
  match channel this with
  | Some rank => (this, callOn rank DisposeChannel window)
  | None => (this, window)
  end.

(** A use of the logger. *)
Inductive Use :=
| UseInfo (enableLogInfo : bool) (message : string) (active : bool)
| UseError (enableLogInfo : bool) (message : string) (active : bool)
| UseDispose.

Definition step (state : Logger * Window) (use : Use) : Logger * Window :=
  match use with
  | UseInfo e m a => info e m a (fst state) (snd state)
  | UseError e m a => error e m a (fst state) (snd state)
  | UseDispose => dispose (fst state) (snd state)
  end.

(** The uses one after the other. *)
Definition run (uses : list Use) (state : Logger * Window) : Logger * Window :=
  fold_left step uses state.

(** Whether a use writes, that is, is an [info] or [error] with logging
    enabled. *)
Definition writes (use : Use) : bool :=
  match use with
  | UseInfo e _ _ | UseError e _ _ => e
  | UseDispose => false
  end.

(** The calls one use makes on the channel; [created] says whether the
    channel exists before the use. *)
Definition callsOf (created : bool) (use : Use) : list ChannelCall :=
  let line level message :=
    Append ("[" ++ level ++ "] " ++ message
            ++ String "010"%char EmptyString)%string in
  match use with
  | UseInfo true m a => line "INFO" m :: (if a then [Show] else [])
  | UseError true m a => line "ERROR" m :: (if a then [Show] else [])
  | UseInfo false _ _ | UseError false _ _ => []
  | UseDispose => if created then [DisposeChannel] else []
  end.

(** The calls a list of uses makes on the channel, in order. *)
Fixpoint expectedCalls (created : bool) (uses : list Use) : list ChannelCall :=
  match uses with
  | [] => []
  | use :: rest =>
      callsOf created use ++ expectedCalls (created || writes use) rest
  end.

End Logger.

(** ** A package for the statements on the hover contents *)

Module Hosted.

(** A package whose repository field is the [git+https] URL of GitHub. *)
Definition package : Hover.Info :=
  {| Hover.packageInfo :=
       {| HoverContents.name := "repo";
          HoverContents.installedVersion := Some "1.0.0";
          HoverContents.isBuiltinModule := false;
          HoverContents.packageJson :=
            {| HoverContents.homepage := HoverContents.FUndefined;
               HoverContents.repository :=
                 HoverContents.FString "git+https://github.com/user/repo.git#main";
               HoverContents.bugs := HoverContents.FUndefined |} |};
     Hover.description := Some "A package";
     Hover.installDir := Some "/pkg/node_modules/repo";
     Hover.isESMModule := true;
     Hover.containsTypes := Some true;
     Hover.bundleSize := None |}.

End Hosted.

(** ** Vocabulary of the statements on the lenses of a call *)

Module Lenses.
Import FilesCodeLens.

(** The values of the string nodes at the front of the [files] array:
    the items the first loop treats before it meets a node of another
    type, or the end of the array. *)
Fixpoint leadingStrings (nodes : list Jsonc.AnyNode) : list string :=
  match nodes with
  | Jsonc.AValue (Jsonc.NString _ _ pattern_) :: rest =>
      pattern_ :: leadingStrings rest
  | _ => []
  end.

(** The patterns the first loop pushes onto [_negativePatterns]. *)
Definition pushed (nodes : list Jsonc.AnyNode) : list string :=
  filter (Js.startsWith "!") (leadingStrings nodes).

(** The children of the node found at [files], when there is one. *)
Definition filesChildren (root : option Jsonc.Node) : list Jsonc.AnyNode :=
  match root with
  | Some root =>
      match Jsonc.findNodeAtLocation root ["files"] with
      | Some (_, filesPropertyNode) =>
          Jsonc.children (Jsonc.AValue filesPropertyNode)
      | None => []
      end
  | None => []
  end.

Definition isString (node : Jsonc.AnyNode) : bool :=
  Jsonc.NodeType_eqb (Jsonc.nodeType node) Jsonc.TString.

(** The type of the lens of an item, read off its pattern. *)
Definition lensTypeOf (pattern_ : string) : LensType :=
  if Js.startsWith "!" pattern_ then exclude else include.

(** [{"files":["!a",1]}] *)
Definition negatedThenNumber : Jsonc.Node :=
  Jsonc.NObject 0 18
    [Jsonc.NProperty 1 16 1 7 "files"
       (Some (Jsonc.NArray 9 8
                [Jsonc.NString 10 4 "!a"; Jsonc.NNumber 15 1]))].

End Lenses.


(** ** Vocabulary of the statements on [findPkgInstallDir] *)

Module Installed.

(** [<dir>/node_modules/<name>], written out. *)
Definition installDirBelow (dir packageName : string) : string :=
  (Notions.prefixOf dir ++ "/node_modules/" ++ packageName)%string.

(** [dir] holds the package: both [<dir>/node_modules/<name>] and
    [<dir>/node_modules/<name>/package.json] exist. *)
Definition holds (fs : Fs.FileSystem) (packageName dir : string) : Prop :=
  Fs.pathExists fs (installDirBelow dir packageName) = true
  /\ Fs.pathExists fs (installDirBelow dir packageName ++ "/package.json")
     = true.

(** The level [n] above [start] lies between [start] and the boundary
    [endPath], both included: the boundary is none of the levels below
    it. *)
Definition upTo (endPath start : string) (n : nat) : Prop :=
  forall m, m < n -> Notions.ancestor m start <> endPath.

End Installed.


(* ================================================================== *)
(** * Part II: properties                                              *)
(* ================================================================== *)

(** ** Strings and sets *)

Section JsFacts.

Lemma has_In (x : string) (s : Js.SetOfString) :
  Js.has x s = true <-> In x s.
Proof.
  unfold Js.has. rewrite existsb_exists. split.
  - intros [y [Hy Heq]]. apply String.eqb_eq in Heq. now subst.
  - intros H. exists x. split; [assumption | apply String.eqb_refl].
Qed.

Lemma has_false_not_In (x : string) (s : Js.SetOfString) :
  Js.has x s = false <-> ~ In x s.
Proof.
  rewrite <- has_In. destruct (Js.has x s); split; congruence.
Qed.

Lemma In_add (s : Js.SetOfString) (x y : string) :
  In y (Js.add s x) <-> In y s \/ y = x.
Proof.
  unfold Js.add. destruct (Js.has x s) eqn:E.
  - apply has_In in E. split; [tauto | intros [H | ->]; assumption].
  - rewrite in_app_iff. simpl. split.
    + intros [H | [H | []]]; auto.
    + intros [H | H]; subst; auto.
Qed.

Lemma NoDup_add (s : Js.SetOfString) (x : string) :
  NoDup s -> NoDup (Js.add s x).
Proof.
  intros Hs. unfold Js.add. destruct (Js.has x s) eqn:E; [assumption |].
  apply has_false_not_In in E.
  apply NoDup_rev in Hs. rewrite <- (rev_involutive (s ++ [x])).
  apply NoDup_rev. rewrite rev_app_distr. simpl.
  constructor; [now rewrite <- in_rev | assumption].
Qed.

Lemma In_addAll (xs : list string) (s : Js.SetOfString) (y : string) :
  In y (Js.addAll s xs) <-> In y s \/ In y xs.
Proof.
  unfold Js.addAll. revert s.
  induction xs as [| x xs IH]; intros s; simpl.
  - tauto.
  - rewrite IH, In_add. intuition (subst; auto).
Qed.

Lemma NoDup_addAll (xs : list string) (s : Js.SetOfString) :
  NoDup s -> NoDup (Js.addAll s xs).
Proof.
  unfold Js.addAll. revert s.
  induction xs as [| x xs IH]; intros s Hs; simpl; [assumption |].
  apply IH. now apply NoDup_add.
Qed.

Lemma substring_whole (s : string) : substring 0 (String.length s) s = s.
Proof. induction s as [| c s IH]; simpl; [reflexivity | now rewrite IH]. Qed.

Lemma substring_skip (pre s : string) (n : nat) :
  substring (String.length pre) n (pre ++ s)%string = substring 0 n s.
Proof. induction pre as [| c pre IH]; simpl; [reflexivity | exact IH]. Qed.

Lemma length_append (a b : string) :
  String.length (a ++ b)%string = String.length a + String.length b.
Proof. induction a as [| c a IH]; simpl; [reflexivity | now rewrite IH]. Qed.

Lemma append_empty_r (a : string) : (a ++ "")%string = a.
Proof. induction a as [| c a IH]; simpl; [reflexivity | now rewrite IH]. Qed.

Lemma append_assoc (a b c : string) :
  ((a ++ b) ++ c)%string = (a ++ (b ++ c))%string.
Proof. induction a as [| x a IH]; simpl; [reflexivity | now rewrite IH]. Qed.

(** A text that ends with [suf] keeps doing so when text is put in
    front of it. *)
Lemma endsWith_append (suf pre : string) :
  Js.endsWith suf (pre ++ suf)%string = true.
Proof.
  unfold Js.endsWith. rewrite length_append.
  replace (String.length pre + String.length suf - String.length suf)
    with (String.length pre) by lia.
  rewrite substring_skip, substring_whole, String.eqb_refl.
  rewrite andb_true_r. apply Nat.leb_le. lia.
Qed.

Lemma substring_take_app (a b : string) :
  substring 0 (String.length a) (a ++ b)%string = a.
Proof. induction a as [| c a IH]; simpl; [now destruct b | now rewrite IH]. Qed.

End JsFacts.

(** ** [node:path] *)

Section PathFacts.

Example dirname_nested : Path.dirname "/a/b/LICENSE" = "/a/b".
Proof. reflexivity. Qed.

Example dirname_top : Path.dirname "/a" = "/".
Proof. reflexivity. Qed.

Example dirname_root : Path.dirname "/" = "/".
Proof. reflexivity. Qed.

Example dirname_double : Path.dirname "//a" = "//".
Proof. reflexivity. Qed.

Example dirname_trailing : Path.dirname "/a/b/" = "/a".
Proof. reflexivity. Qed.

Example dirname_relative : Path.dirname "a" = ".".
Proof. reflexivity. Qed.

Example basename_nested : Path.basename "/a/b/LICENSE" = "LICENSE".
Proof. reflexivity. Qed.

Example basename_trailing : Path.basename "/a/b//" = "b".
Proof. reflexivity. Qed.

Example resolve_two :
  Path.resolve "/w" ["/a/b"; "README.md"] = "/a/b/README.md".
Proof. reflexivity. Qed.

Example resolve_dots : Path.resolve "/w" ["/a/b"; "../c/./d"] = "/a/c/d".
Proof. reflexivity. Qed.

Example resolve_abs : Path.resolve "/w" ["/a/b"; "/c"] = "/c".
Proof. reflexivity. Qed.

Example resolve_rel : Path.resolve "/w" ["a"; "b"] = "/w/a/b".
Proof. reflexivity. Qed.

Example resolve_three :
  Path.resolve "/w" ["/p/src"; "node_modules"; "@scope/name"]
  = "/p/src/node_modules/@scope/name".
Proof. reflexivity. Qed.

Lemma splitFrom_append (a b cur : string) :
  Path.splitFrom cur (a ++ String Path.slash b)%string
  = Path.splitFrom cur a ++ Path.splitFrom "" b.
Proof.
  revert cur. induction a as [| c a IH]; intros cur; simpl.
  - reflexivity.
  - destruct (Ascii.eqb c Path.slash); simpl; now rewrite IH.
Qed.

Lemma splitFrom_noSlash (name cur : string) :
  Notions.noSlash name = true ->
  Path.splitFrom cur name = [(cur ++ name)%string].
Proof.
  revert cur. induction name as [| c name IH]; intros cur H; simpl in *.
  - now rewrite append_empty_r.
  - apply andb_true_iff in H. destruct H as [Hc Hn].
    apply negb_true_iff in Hc. rewrite Hc, (IH _ Hn), append_assoc.
    reflexivity.
Qed.

Lemma split_dir_name (dir name : string) :
  Notions.noSlash name = true ->
  Path.split (dir ++ "/" ++ name ++ "/")%string = Path.split dir ++ [name; ""].
Proof.
  intros H. unfold Path.split.
  change (dir ++ "/" ++ name ++ "/")%string
    with (dir ++ String Path.slash (name ++ String Path.slash ""))%string.
  rewrite splitFrom_append, splitFrom_append, (splitFrom_noSlash _ _ H).
  reflexivity.
Qed.

Lemma normStep_simple (stack : list string) (name : string) :
  Notions.simpleName name = true ->
  Path.normStep stack name = name :: stack.
Proof.
  unfold Notions.simpleName, Path.normStep. intros H.
  repeat (apply andb_true_iff in H; destruct H as [H ?]).
  apply negb_true_iff in H. rewrite H. simpl.
  match goal with E : negb (String.eqb name ".") = true |- _ =>
    apply negb_true_iff in E; rewrite E end.
  match goal with E : negb (String.eqb name "..") = true |- _ =>
    apply negb_true_iff in E; rewrite E end.
  reflexivity.
Qed.

Lemma simpleName_noSlash (name : string) :
  Notions.simpleName name = true -> Notions.noSlash name = true.
Proof.
  unfold Notions.simpleName. intros H.
  apply andb_true_iff in H. now destruct H.
Qed.

Lemma simpleName_not_absolute (name : string) :
  Notions.simpleName name = true -> Path.isAbsolute name = false.
Proof.
  intros H. apply simpleName_noSlash in H.
  destruct name as [| c name]; [reflexivity |].
  simpl in H. apply andb_true_iff in H. destruct H as [Hc _].
  apply negb_true_iff in Hc.
  unfold Path.isAbsolute, Js.startsWith.
  change (prefix "/" (String c name))
    with (if ascii_dec "/"%char c then prefix "" name else false).
  destruct (ascii_dec "/"%char c) as [<- | _]; [| reflexivity].
  discriminate Hc.
Qed.

Lemma render_snoc (segs : list string) (name : string) :
  Path.render (segs ++ [name])
  = (Path.renderSegments segs ++ "/" ++ name)%string.
Proof.
  unfold Path.render.
  destruct (segs ++ [name]) as [| x l] eqn:E; [now destruct segs |].
  rewrite <- E. clear E x l.
  induction segs as [| seg segs IH].
  - simpl. now rewrite append_empty_r.
  - change (Path.renderSegments ((seg :: segs) ++ [name]))
      with ("/" ++ seg ++ Path.renderSegments (segs ++ [name]))%string.
    rewrite IH. simpl. now rewrite append_assoc.
Qed.

Lemma normalize_dir_name (segs : list string) (name : string) :
  Notions.simpleName name = true ->
  Path.normalize (segs ++ [name; ""]) = Path.normalize segs ++ [name].
Proof.
  intros H. unfold Path.normalize.
  rewrite fold_left_app. simpl.
  rewrite (normStep_simple _ _ H). reflexivity.
Qed.

(** [resolve(dir, name)] for a simple [name] is the resolved directory
    followed by a separator and the name. *)
Lemma resolve_simple (processCwd dir name : string) :
  Notions.simpleName name = true ->
  Path.resolve processCwd [dir; name]
  = (Notions.dirText processCwd dir ++ "/" ++ name)%string.
Proof.
  intros H.
  pose proof (simpleName_not_absolute _ H) as Hrel.
  pose proof (simpleName_noSlash _ H) as Hns.
  assert (Hne : String.eqb name "" = false).
  { destruct name; [discriminate H | reflexivity]. }
  unfold Path.resolve, Notions.dirText. cbn [Path.joinArgs].
  rewrite Hne, Hrel. change ("/" ++ "")%string with "/".
  destruct (String.eqb dir "") eqn:Ed.
  - now rewrite split_dir_name, normalize_dir_name, render_snoc.
  - destruct (Path.isAbsolute dir) eqn:Ea.
    + now rewrite split_dir_name, normalize_dir_name, render_snoc.
    + replace (processCwd ++ "/" ++ dir ++ "/" ++ name ++ "/")%string
        with ((processCwd ++ "/" ++ dir) ++ "/" ++ name ++ "/")%string
        by now rewrite !append_assoc.
      now rewrite split_dir_name, normalize_dir_name, render_snoc.
Qed.

Lemma resolve_simple_endsWith (processCwd dir name suf : string) :
  Notions.simpleName name = true ->
  Js.endsWith suf name = true ->
  Js.endsWith suf (Path.resolve processCwd [dir; name]) = true.
Proof.
  intros H Hs. rewrite (resolve_simple _ _ _ H).
  unfold Js.endsWith in *.
  apply andb_true_iff in Hs. destruct Hs as [Hle Heq].
  apply Nat.leb_le in Hle. apply String.eqb_eq in Heq.
  rewrite <- append_assoc.
  set (pre := (Notions.dirText processCwd dir ++ "/")%string).
  rewrite length_append. apply andb_true_iff. split.
  - apply Nat.leb_le. lia.
  - replace (String.length pre + String.length name - String.length suf)
      with (String.length pre + (String.length name - String.length suf)) by lia.
    clear -Heq. induction pre as [| c pre IH]; simpl.
    + now rewrite Heq, String.eqb_refl.
    + exact IH.
Qed.

Lemma append_inj_l (pre a b : string) :
  (pre ++ a)%string = (pre ++ b)%string -> a = b.
Proof. induction pre as [| c pre IH]; simpl; [auto | intros H; injection H; auto]. Qed.

(** Distinct simple names resolve to distinct paths. *)
Lemma resolve_simple_inj (processCwd dir a b : string) :
  Notions.simpleName a = true -> Notions.simpleName b = true ->
  Path.resolve processCwd [dir; a] = Path.resolve processCwd [dir; b] ->
  a = b.
Proof.
  intros Ha Hb. rewrite (resolve_simple _ _ _ Ha), (resolve_simple _ _ _ Hb).
  intros H. apply append_inj_l in H. apply append_inj_l in H. exact H.
Qed.

(** *** [dirname] climbs towards the root *)

Lemma dirnameEnd_bounds (revChars : list ascii) :
  forall (matchedSlash : bool) (e : nat),
    Path.dirnameEnd revChars matchedSlash (length revChars) = Some e ->
    1 <= e <= length revChars
    /\ (matchedSlash = true -> e < length revChars).
Proof.
  induction revChars as [| c rest IH]; intros matchedSlash e; simpl;
    [discriminate |].
  rewrite Nat.sub_0_r.
  destruct (Ascii.eqb c Path.slash).
  - destruct matchedSlash.
    + intros H. destruct (IH _ _ H) as [Hb Hlt]. split; [lia |].
      intros _. specialize (Hlt eq_refl). lia.
    + intros [= <-]. split; [lia | discriminate].
  - intros H. destruct (IH _ _ H) as [Hb _]. split; lia.
Qed.

Lemma length_list_ascii (s : string) :
  length (list_ascii_of_string s) = String.length s.
Proof. induction s as [| c s IH]; simpl; [reflexivity | now rewrite IH]. Qed.

Lemma length_substring_0 (n : nat) :
  forall s, n <= String.length s -> String.length (substring 0 n s) = n.
Proof.
  induction n as [| n IH]; intros [| c s] H; simpl in *; try lia.
  f_equal. apply IH. lia.
Qed.

(** The directory of an absolute path other than [/] is absolute and
    shorter. *)
Lemma dirname_climbs (path : string) :
  Path.isAbsolute path = true -> path <> "/" ->
  Path.isAbsolute (Path.dirname path) = true
  /\ String.length (Path.dirname path) < String.length path.
Proof.
  destruct path as [| c rest]; [discriminate |].
  unfold Path.isAbsolute, Js.startsWith.
  change (prefix "/" (String c rest))
    with (if ascii_dec "/"%char c then prefix "" rest else false).
  destruct (ascii_dec "/"%char c) as [<- | _]; [| discriminate].
  intros _ Hroot. unfold Path.dirname.
  change (Ascii.eqb "/"%char Path.slash) with true. cbn [andb].
  assert (Hlen : 1 <= String.length rest).
  { destruct rest; [now destruct Hroot | simpl; lia]. }
  pose proof (dirnameEnd_bounds (rev (list_ascii_of_string rest)) true) as Hb.
  rewrite length_rev, length_list_ascii in Hb.
  destruct (Path.dirnameEnd (rev (list_ascii_of_string rest)) true
                            (String.length rest)) as [e |].
  - destruct (Hb e eq_refl) as [[H1 H2] H3]. specialize (H3 eq_refl).
    destruct (e =? 1)%nat eqn:E.
    + split; [reflexivity |]. apply Nat.eqb_eq in E. simpl. lia.
    + split.
      * destruct e as [| e']; [lia |].
        change (substring 0 (S e') (String "/"%char rest))
          with (String "/"%char (substring 0 e' rest)).
        change (prefix "/" (String "/"%char (substring 0 e' rest)))
          with (if ascii_dec "/"%char "/"%char
                then prefix "" (substring 0 e' rest) else false).
        destruct (ascii_dec "/"%char "/"%char); [| congruence].
        now destruct (substring 0 e' rest).
      * rewrite length_substring_0; simpl; lia.
  - split; [reflexivity | simpl; lia].
Qed.

Lemma dirname_absolute (path : string) :
  Path.isAbsolute path = true ->
  Path.isAbsolute (Path.dirname path) = true
  /\ String.length (Path.dirname path) <= String.length path.
Proof.
  intros H. destruct (string_dec path "/") as [-> | Hne].
  - split; [reflexivity | simpl; lia].
  - destruct (dirname_climbs _ H Hne). split; [assumption | lia].
Qed.


(** *** Paths below a resolved directory *)

Local Abbreviation simple := (fun s : string => Notions.simpleName s = true).
Local Abbreviation slashFree := (fun s : string => Notions.noSlash s = true).

Lemma renderSegments_splitFrom (s : string) :
  forall cur,
    Path.renderSegments (Path.splitFrom cur s) = ("/" ++ cur ++ s)%string.
Proof.
  induction s as [| c s IH]; intros cur.
  - reflexivity.
  - cbn [Path.splitFrom]. destruct (Ascii.eqb c Path.slash) eqn:Ec.
    + apply Ascii.eqb_eq in Ec. subst c.
      cbn [Path.renderSegments]. rewrite IH. reflexivity.
    + rewrite IH, append_assoc. reflexivity.
Qed.

Lemma renderSegments_app (a b : list string) :
  Path.renderSegments (a ++ b)
  = (Path.renderSegments a ++ Path.renderSegments b)%string.
Proof.
  induction a as [| seg a IH]; [reflexivity |].
  cbn [app Path.renderSegments]. rewrite IH.
  change ("/" ++ seg ++ Path.renderSegments a ++ Path.renderSegments b)%string
    with (String "/" (seg ++ Path.renderSegments a ++ Path.renderSegments b))%string.
  change (("/" ++ seg ++ Path.renderSegments a) ++ Path.renderSegments b)%string
    with (String "/" ((seg ++ Path.renderSegments a) ++ Path.renderSegments b))%string.
  now rewrite append_assoc.
Qed.

Lemma noSlash_append (a b : string) :
  Notions.noSlash (a ++ b)%string = Notions.noSlash a && Notions.noSlash b.
Proof.
  induction a as [| c a IH]; [reflexivity |].
  cbn [append Notions.noSlash]. now rewrite IH, andb_assoc.
Qed.

Lemma splitFrom_slashFree (s : string) :
  forall cur, slashFree cur -> Forall slashFree (Path.splitFrom cur s).
Proof.
  induction s as [| c s IH]; intros cur Hcur.
  - now constructor.
  - cbn [Path.splitFrom]. destruct (Ascii.eqb c Path.slash) eqn:Ec.
    + constructor; [exact Hcur | now apply IH].
    + apply IH. rewrite noSlash_append, Hcur. cbn. now rewrite Ec.
Qed.

Lemma normStep_keeps_simple (stack : list string) (seg : string) :
  Forall simple stack -> slashFree seg ->
  Forall simple (Path.normStep stack seg).
Proof.
  intros Hstack Hseg. unfold Path.normStep.
  destruct (String.eqb seg "") eqn:E1; [exact Hstack |].
  destruct (String.eqb seg ".") eqn:E2; [exact Hstack |].
  cbn [orb]. destruct (String.eqb seg "..") eqn:E3.
  - destruct Hstack; [constructor | assumption].
  - constructor; [| exact Hstack].
    unfold Notions.simpleName. now rewrite E1, E2, E3, Hseg.
Qed.

Lemma normalize_simple (segs : list string) :
  Forall slashFree segs -> Forall simple (Path.normalize segs).
Proof.
  intros Hsegs. unfold Path.normalize. apply Forall_rev.
  assert (H : forall stack, Forall simple stack ->
                            Forall simple (fold_left Path.normStep segs stack)).
  { induction Hsegs as [| seg segs Hseg _ IH]; intros stack Hstack;
      [exact Hstack |].
    cbn [fold_left]. apply IH. now apply normStep_keeps_simple. }
  apply H. constructor.
Qed.

Lemma fold_normStep_simple (names : list string) :
  Forall simple names ->
  forall stack, fold_left Path.normStep names stack = rev names ++ stack.
Proof.
  induction 1 as [| name names Hname _ IH]; intros stack; [reflexivity |].
  cbn [fold_left rev]. rewrite (normStep_simple _ _ Hname), IH.
  now rewrite <- app_assoc.
Qed.

Lemma normalize_names (segs names : list string) :
  Forall simple names ->
  Path.normalize (segs ++ names ++ [""]) = Path.normalize segs ++ names.
Proof.
  intros Hnames. unfold Path.normalize.
  rewrite !fold_left_app. cbn [fold_left].
  change (Path.normStep ?st "") with st.
  rewrite (fold_normStep_simple _ Hnames), rev_app_distr, rev_involutive.
  reflexivity.
Qed.

Lemma splitFrom_renderSegments (segs : list string) :
  Forall slashFree segs ->
  forall cur, Path.splitFrom cur (Path.renderSegments segs) = cur :: segs.
Proof.
  induction 1 as [| seg segs Hseg _ IH]; intros cur; [reflexivity |].
  cbn [Path.renderSegments].
  change ("/" ++ seg ++ Path.renderSegments segs)%string
    with (String Path.slash (seg ++ Path.renderSegments segs)).
  cbn [Path.splitFrom]. rewrite Ascii.eqb_refl. f_equal.
  assert (H : forall cur',
             Path.splitFrom cur' (seg ++ Path.renderSegments segs)
             = Path.splitFrom (cur' ++ seg) (Path.renderSegments segs)).
  { clear IH. induction seg as [| c seg IHs]; intros cur'.
    - now rewrite append_empty_r.
    - cbn [Notions.noSlash] in Hseg. apply andb_true_iff in Hseg.
      destruct Hseg as [Hc Hseg]. apply negb_true_iff in Hc.
      cbn [append Path.splitFrom]. rewrite Hc, (IHs Hseg), append_assoc.
      reflexivity. }
  rewrite H, IH. reflexivity.
Qed.

Lemma Forall_simple_slashFree (segs : list string) :
  Forall simple segs -> Forall slashFree segs.
Proof.
  intros H. eapply Forall_impl; [| exact H].
  intros s. apply simpleName_noSlash.
Qed.

(** Rendering and reading back the segments of a normalized path. *)
Lemma normalize_split_render (segs : list string) :
  Forall simple segs ->
  Path.normalize (Path.split (Path.render segs)) = segs.
Proof.
  intros Hsegs. destruct segs as [| seg segs]; [reflexivity |].
  unfold Path.render, Path.split.
  rewrite splitFrom_renderSegments by now apply Forall_simple_slashFree.
  unfold Path.normalize.
  change (fold_left Path.normStep ("" :: seg :: segs) [])
    with (fold_left Path.normStep (seg :: segs) []).
  rewrite (fold_normStep_simple _ Hsegs), app_nil_r. apply rev_involutive.
Qed.

Lemma renderSegments_absolute (seg : string) (segs : list string) :
  Path.isAbsolute (Path.renderSegments (seg :: segs)) = true
  /\ String.eqb (Path.renderSegments (seg :: segs)) "" = false.
Proof.
  split; [| reflexivity].
  unfold Path.isAbsolute, Js.startsWith.
  change (Path.renderSegments (seg :: segs))
    with (String "/" (seg ++ Path.renderSegments segs)).
  change (prefix "/" (String "/" (seg ++ Path.renderSegments segs)))
    with (prefix "" (seg ++ Path.renderSegments segs)).
  now destruct (seg ++ Path.renderSegments segs)%string.
Qed.


Lemma packagePath_segments (name : string) :
  Notions.packagePath name = true ->
  Forall simple (Path.split name)
  /\ String.eqb name "" = false /\ Path.isAbsolute name = false.
Proof.
  unfold Notions.packagePath. intros H.
  split; [now apply Forall_forall; apply forallb_forall |].
  destruct name as [| c name]; [discriminate H |].
  split; [reflexivity |].
  unfold Path.isAbsolute, Js.startsWith.
  change (prefix "/" (String c name))
    with (if ascii_dec "/"%char c then prefix "" name else false).
  destruct (ascii_dec "/"%char c) as [<- | _]; [| reflexivity].
  discriminate H.
Qed.

Lemma split_dir_names (dir mid name : string) :
  Notions.noSlash mid = true ->
  Path.split (dir ++ "/" ++ mid ++ "/" ++ name ++ "/")%string
  = Path.split dir ++ (mid :: Path.split name) ++ [""].
Proof.
  intros Hmid. unfold Path.split.
  change (dir ++ "/" ++ mid ++ "/" ++ name ++ "/")%string
    with (dir ++ String Path.slash
                   (mid ++ String Path.slash (name ++ String Path.slash "")))%string.
  rewrite !splitFrom_append, (splitFrom_noSlash _ _ Hmid).
  cbn [app Path.splitFrom append]. reflexivity.
Qed.

(** The directory part of a resolved path is the rendering of proper
    names. *)
Lemma dirText_segments (processCwd dir : string) :
  exists segs,
    Forall simple segs
    /\ Notions.dirText processCwd dir = Path.renderSegments segs.
Proof.
  unfold Notions.dirText. eexists. split; [| reflexivity].
  apply normalize_simple, splitFrom_slashFree. reflexivity.
Qed.

Lemma dirText_renderSegments (processCwd seg : string) (segs : list string) :
  Forall simple (seg :: segs) ->
  Notions.dirText processCwd (Path.renderSegments (seg :: segs))
  = Path.renderSegments (seg :: segs).
Proof.
  intros Hsegs. unfold Notions.dirText.
  destruct (renderSegments_absolute seg segs) as [-> ->].
  pose proof (normalize_split_render (seg :: segs) Hsegs) as H.
  unfold Path.render in H. now rewrite H.
Qed.

(** [resolve(dir, mid, name)] for a simple [mid] and a package name. *)
Lemma resolve_names (processCwd dir mid name : string) :
  Notions.simpleName mid = true ->
  Notions.packagePath name = true ->
  Path.resolve processCwd [dir; mid; name]
  = (Notions.dirText processCwd dir ++ "/" ++ mid ++ "/" ++ name)%string.
Proof.
  intros Hmid Hname.
  destruct (packagePath_segments _ Hname) as (Hsegs & Hne & Hrel).
  pose proof (simpleName_not_absolute _ Hmid) as Hmrel.
  pose proof (simpleName_noSlash _ Hmid) as Hmns.
  assert (Hmne : String.eqb mid "" = false).
  { destruct mid; [discriminate Hmid | reflexivity]. }
  assert (Hnorm : forall full,
    Path.render (Path.normalize
                   (Path.split (full ++ "/" ++ mid ++ "/" ++ name ++ "/")%string))
    = (Path.renderSegments (Path.normalize (Path.split full))
       ++ "/" ++ mid ++ "/" ++ name)%string).
  { intros full. rewrite (split_dir_names _ _ _ Hmns).
    rewrite normalize_names by (constructor; assumption).
    unfold Path.render.
    destruct (Path.normalize (Path.split full) ++ mid :: Path.split name)
      as [| x l] eqn:E;
      [now destruct (Path.normalize (Path.split full)) |].
    rewrite <- E, renderSegments_app. cbn [Path.renderSegments].
    unfold Path.split. rewrite renderSegments_splitFrom. reflexivity. }
  unfold Path.resolve, Notions.dirText. cbn [Path.joinArgs].
  rewrite Hne, Hrel, Hmne, Hmrel. change ("/" ++ "")%string with "/".
  destruct (String.eqb dir "") eqn:Ed.
  - apply Hnorm.
  - destruct (Path.isAbsolute dir) eqn:Ea.
    + apply Hnorm.
    + replace (processCwd ++ "/" ++ dir ++ "/" ++ mid ++ "/" ++ name ++ "/")%string
        with ((processCwd ++ "/" ++ dir) ++ "/" ++ mid ++ "/" ++ name ++ "/")%string
        by now rewrite !append_assoc.
      apply Hnorm.
Qed.

(** A path below a resolved directory is its own directory text. *)
Lemma dirText_below (processCwd dir mid name : string) :
  Notions.simpleName mid = true ->
  Notions.packagePath name = true ->
  Notions.dirText processCwd
    (Notions.dirText processCwd dir ++ "/" ++ mid ++ "/" ++ name)%string
  = (Notions.dirText processCwd dir ++ "/" ++ mid ++ "/" ++ name)%string.
Proof.
  intros Hmid Hname.
  destruct (packagePath_segments _ Hname) as (Hsegs & _ & _).
  destruct (dirText_segments processCwd dir) as (segs & Hsimple & ->).
  assert (E : (Path.renderSegments segs ++ "/" ++ mid ++ "/" ++ name)%string
              = Path.renderSegments (segs ++ mid :: Path.split name)).
  { rewrite renderSegments_app. cbn [Path.renderSegments].
    unfold Path.split. now rewrite renderSegments_splitFrom. }
  rewrite E.
  assert (Hall : Forall simple (segs ++ mid :: Path.split name)).
  { apply Forall_app. split; [exact Hsimple | now constructor]. }
  destruct (segs ++ mid :: Path.split name) as [| x l] eqn:El;
    [now destruct segs |].
  now apply dirText_renderSegments.
Qed.


(** *** [dirname] on a normalized path *)

Lemma list_ascii_append (a b : string) :
  list_ascii_of_string (a ++ b)
  = list_ascii_of_string a ++ list_ascii_of_string b.
Proof.
  induction a as [| c a IH]; [reflexivity |].
  cbn [append list_ascii_of_string app]. now rewrite IH.
Qed.

Lemma noSlash_chars (s : string) :
  Notions.noSlash s = true ->
  Forall (fun c => Ascii.eqb c Path.slash = false) (list_ascii_of_string s).
Proof.
  induction s as [| c s IH]; intros H; [constructor |].
  cbn [Notions.noSlash] in H. apply andb_true_iff in H.
  destruct H as [Hc Hs]. apply negb_true_iff in Hc.
  constructor; [exact Hc | now apply IH].
Qed.

Lemma dirnameEnd_no_separator (chars : list ascii) :
  Forall (fun c => Ascii.eqb c Path.slash = false) chars ->
  forall matchedSlash i, Path.dirnameEnd chars matchedSlash i = None.
Proof.
  induction 1 as [| c chars Hc _ IH]; intros matchedSlash i; [reflexivity |].
  cbn [Path.dirnameEnd]. rewrite Hc. apply IH.
Qed.

Lemma dirnameEnd_after_name (chars : list ascii) :
  Forall (fun c => Ascii.eqb c Path.slash = false) chars ->
  forall more i,
    Path.dirnameEnd (chars ++ Path.slash :: more) false i
    = Some (i - length chars).
Proof.
  induction 1 as [| c chars Hc _ IH]; intros more i.
  - cbn [app Path.dirnameEnd]. rewrite Ascii.eqb_refl.
    now rewrite Nat.sub_0_r.
  - cbn [app Path.dirnameEnd length]. rewrite Hc, IH. f_equal. lia.
Qed.

Lemma dirname_below (pre name : string) :
  Notions.noSlash name = true -> name <> "" -> pre <> "" ->
  Path.dirname (String Path.slash (pre ++ String Path.slash name))
  = String Path.slash pre.
Proof.
  intros Hname Hne Hpre. unfold Path.dirname.
  rewrite Ascii.eqb_refl, list_ascii_append.
  cbn [list_ascii_of_string]. rewrite rev_app_distr. cbn [rev].
  rewrite <- app_assoc. cbn [app].
  pose proof (noSlash_chars _ Hname) as Hchars.
  apply Forall_rev in Hchars.
  destruct (rev (list_ascii_of_string name)) as [| c chars] eqn:Erev.
  { apply (f_equal (@rev ascii)) in Erev. rewrite rev_involutive in Erev.
    destruct name; [now destruct Hne | discriminate Erev]. }
  inversion Hchars as [| c' chars' Hc Hrest]; subst.
  cbn [app Path.dirnameEnd]. rewrite Hc.
  rewrite (dirnameEnd_after_name _ Hrest).
  assert (Hlen : String.length (pre ++ String Path.slash name) - 1
                 - length chars = S (String.length pre)).
  { rewrite length_append. cbn [String.length].
    assert (E : S (length chars) = String.length name).
    { rewrite <- length_list_ascii, <- (rev_involutive (list_ascii_of_string name)),
        Erev, length_rev. reflexivity. }
    lia. }
  rewrite Hlen.
  destruct pre as [| p0 pre]; [now destruct Hpre |].
  cbn [String.length andb Nat.eqb substring]. f_equal.
  change (String p0 pre ++ String Path.slash name)%string
    with (String p0 (pre ++ String Path.slash name)).
  cbn [substring]. f_equal. apply substring_take_app.
Qed.


Lemma dirname_render (segs : list string) (name : string) :
  Forall simple (segs ++ [name]) ->
  Path.dirname (Path.render (segs ++ [name])) = Path.render segs.
Proof.
  intros Hall. apply Forall_app in Hall. destruct Hall as [Hsegs Hname].
  inversion Hname as [| n l Hn _]; subst.
  pose proof (simpleName_noSlash _ Hn) as Hns.
  assert (Hne : name <> "") by (intros ->; discriminate Hn).
  rewrite render_snoc. destruct segs as [| seg segs].
  - change (Path.renderSegments [] ++ "/" ++ name)%string
      with (String Path.slash name).
    unfold Path.dirname. rewrite Ascii.eqb_refl.
    rewrite dirnameEnd_no_separator; [reflexivity |].
    apply Forall_rev. now apply noSlash_chars.
  - change (Path.renderSegments (seg :: segs) ++ "/" ++ name)%string
      with (String Path.slash
              ((seg ++ Path.renderSegments segs) ++ String Path.slash name)).
    rewrite dirname_below; [reflexivity | exact Hns | exact Hne |].
    inversion Hsegs as [| s l Hs _]; subst.
    destruct seg; [discriminate Hs | discriminate].
Qed.

Lemma ancestor_root (n : nat) : Notions.ancestor n "/" = "/".
Proof. induction n as [| n IH]; [reflexivity | exact IH]. Qed.

(** The ancestors of a normalized path are normalized paths. *)
Lemma ancestor_render (n : nat) :
  forall segs,
    Forall simple segs ->
    exists segs',
      Forall simple segs'
      /\ Notions.ancestor n (Path.render segs) = Path.render segs'.
Proof.
  induction n as [| n IH]; intros segs Hsegs; [now exists segs |].
  destruct segs as [| seg rest] eqn:E.
  - exists []. split; [constructor | apply ancestor_root].
  - assert (Hne : segs <> []) by (rewrite E; discriminate).
    rewrite <- E in *. clear E.
    destruct (exists_last Hne) as (init & last_ & ->).
    cbn [Notions.ancestor]. rewrite (dirname_render _ _ Hsegs).
    apply IH. apply Forall_app in Hsegs. now destruct Hsegs.
Qed.

(** An absolute path that [resolve] leaves as it is, is the rendering
    of proper names. *)
Lemma canonical_segments (processCwd path : string) :
  Path.isAbsolute path = true ->
  Path.resolve processCwd [path] = path ->
  exists segs, Forall simple segs /\ path = Path.render segs.
Proof.
  intros Habs Hres.
  exists (Path.normalize (Path.split path)).
  split; [apply normalize_simple, splitFrom_slashFree; reflexivity |].
  rewrite <- Hres at 1. unfold Path.resolve. cbn [Path.joinArgs].
  assert (Hne : String.eqb path "" = false).
  { destruct path; [discriminate Habs | reflexivity]. }
  rewrite Hne, Habs.
  change (path ++ "/" ++ "")%string with (path ++ String Path.slash "")%string.
  unfold Path.split. rewrite splitFrom_append.
  change (Path.splitFrom "" "") with ([] ++ [""]).
  now rewrite (normalize_names _ [] (Forall_nil _)), app_nil_r.
Qed.

Lemma dirText_render (processCwd : string) (segs : list string) :
  Forall simple segs ->
  Notions.dirText processCwd (Path.render segs)
  = Notions.prefixOf (Path.render segs).
Proof.
  intros Hsegs. destruct segs as [| seg segs]; [reflexivity |].
  unfold Path.render. rewrite (dirText_renderSegments _ _ _ Hsegs).
  unfold Notions.prefixOf.
  inversion Hsegs as [| s l Hs _]; subst.
  destruct seg as [| c seg]; [discriminate Hs | reflexivity].
Qed.

(** Below a normalized absolute path, the directory text of every
    ancestor is the ancestor itself, the root apart. *)
Lemma dirText_ancestor (processCwd path : string) (n : nat) :
  Path.isAbsolute path = true ->
  Path.resolve processCwd [path] = path ->
  Notions.dirText processCwd (Notions.ancestor n path)
  = Notions.prefixOf (Notions.ancestor n path).
Proof.
  intros Habs Hres.
  destruct (canonical_segments _ _ Habs Hres) as (segs & Hsegs & ->).
  destruct (ancestor_render n _ Hsegs) as (segs' & Hsegs' & ->).
  now apply dirText_render.
Qed.


End PathFacts.

(** ** [pathExists] *)

Section FsFacts.
Variable fs : Fs.FileSystem.

(** C10.  [pathExists] answers [true] exactly when [access] succeeds
    and the listing of the containing directory holds the very base
    name asked for, character for character; a failing [access] or a
    failing [readdir] makes it answer [false].  It is a total function
    into the booleans: no rejection leaves it. *)
Theorem pathExists_case_sensitive (path : string) :
  (Fs.pathExists fs path = true <->
   Fs.access fs path = true /\
   exists fileNames,
     Fs.readdir fs (Path.dirname path) = Some fileNames /\
     In (Path.basename path) fileNames)
  /\ (Fs.access fs path = false -> Fs.pathExists fs path = false)
  /\ (Fs.readdir fs (Path.dirname path) = None ->
      Fs.pathExists fs path = false).
Proof.
  unfold Fs.pathExists. repeat split.
  - destruct (Fs.access fs path); [reflexivity | discriminate].
  - destruct (Fs.access fs path); [| discriminate].
    destruct (Fs.readdir fs (Path.dirname path)) as [names |];
      [| discriminate].
    exists names. split; [reflexivity | now apply has_In].
  - intros [Ha [names [Hr Hin]]]. rewrite Ha, Hr. now apply has_In.
  - intros ->. reflexivity.
  - intros ->. now destruct (Fs.access fs path).
Qed.

End FsFacts.

(** On a case-insensitive volume that holds [license], the path
    [/a/b/LICENSE] is accessible and yet does not exist for
    [pathExists]; [/a/b/license] does. *)
Example pathExists_LICENSE_vs_license :
  let fs := Demo.volume true [("/a/b", ["license"; "index.js"])] in
  Fs.access fs "/a/b/LICENSE" = true
  /\ Fs.pathExists fs "/a/b/LICENSE" = false
  /\ Fs.pathExists fs "/a/b/license" = true.
Proof. repeat split; reflexivity. Qed.

Example pathExists_readdir_fails :
  let fs := {| Fs.access := fun _ => true;
               Fs.readdir := fun _ => None;
               Fs.realpath := fun p => Some p |} in
  Fs.pathExists fs "/a/b/LICENSE" = false.
Proof. reflexivity. Qed.

(** ** [findPkgInstallDir] *)

Section FindPkgInstallDirFacts.
Variable processCwd : string.
Variable fs : Fs.FileSystem.
Variable getRoot : string -> string.

Local Abbreviation pkgExistsIn := (Pkg.pkgExistsIn processCwd fs).
Local Abbreviation pkgInstallDirIn := (Pkg.pkgInstallDirIn processCwd).
Local Abbreviation pkgJsonPathIn := (Pkg.pkgJsonPathIn processCwd).

Lemma pkgExistsIn_both (packageName dir : string) :
  pkgExistsIn packageName dir = true <->
  Fs.pathExists fs (pkgInstallDirIn packageName dir) = true /\
  Fs.pathExists fs (pkgJsonPathIn packageName dir) = true.
Proof.
  unfold Pkg.pkgExistsIn. simpl. rewrite andb_true_r, andb_true_iff.
  reflexivity.
Qed.

(** The levels are the start directory and its ancestors in turn; the
    boundary is the last of them and is met nowhere before. *)
Lemma levelsTo_ancestors (fuel : nat) (endPath : string) :
  forall start levels,
    Pkg.levelsTo fuel endPath start = Some levels ->
    levels = map (fun n => Notions.ancestor n start) (seq 0 (length levels))
    /\ Notions.ancestor (length levels - 1) start = endPath
    /\ (forall n, n < length levels - 1 -> Notions.ancestor n start <> endPath)
    /\ length levels <= fuel /\ 0 < length levels.
Proof.
  induction fuel as [| fuel IH]; intros start levels H; simpl in H.
  - discriminate.
  - destruct (String.eqb start endPath) eqn:E.
    + injection H as <-. apply String.eqb_eq in E. simpl.
      split; [reflexivity |]. split; [exact E |].
      split; [intros n Hn; lia | lia].
    + destruct (Pkg.levelsTo fuel endPath (Path.dirname start))
        as [rest |] eqn:Er; [| discriminate].
      injection H as <-.
      destruct (IH _ _ Er) as (Hmap & Hlast & Hbefore & Hlen & Hpos).
      simpl. split; [| split; [| split; [| lia]]].
      * f_equal. rewrite <- seq_shift, map_map. exact Hmap.
      * destruct (length rest) as [| k] eqn:Ek; [lia |].
        simpl in *. now rewrite Nat.sub_0_r in *.
      * intros [| n] Hn; simpl.
        -- now apply String.eqb_neq.
        -- apply Hbefore. lia.
Qed.

Lemma walkUp_levels (packageName endPath : string) (fuel : nat) :
  forall start levels,
    Pkg.levelsTo fuel endPath start = Some levels ->
    Pkg.walkUp processCwd fs fuel packageName endPath start
    = Some (option_map (pkgInstallDirIn packageName)
                       (find (pkgExistsIn packageName) levels)).
Proof.
  induction fuel as [| fuel IH]; intros start levels H; simpl in H.
  - discriminate.
  - simpl. destruct (String.eqb start endPath) eqn:E.
    + injection H as <-. simpl.
      now destruct (pkgExistsIn packageName start).
    + destruct (Pkg.levelsTo fuel endPath (Path.dirname start))
        as [rest |] eqn:Er; [| discriminate].
      injection H as <-. simpl.
      destruct (pkgExistsIn packageName start); [reflexivity |].
      now apply IH.
Qed.

Lemma find_first {A : Type} (f : A -> bool) (l : list A) (x : A) :
  find f l = Some x ->
  exists before after,
    l = before ++ x :: after /\ f x = true
    /\ forall y, In y before -> f y = false.
Proof.
  induction l as [| a l IH]; simpl; [discriminate |].
  destruct (f a) eqn:E.
  - intros [= <-]. exists [], l. repeat split; auto. intros y [].
  - intros H. destruct (IH H) as (before & after & -> & Hx & Hb).
    exists (a :: before), after. repeat split; auto.
    intros y [<- | Hy]; auto.
Qed.

(** From an absolute directory the volume root [/] is reached within as
    many levels as the path has characters. *)
Lemma levelsTo_root (fuel : nat) :
  forall start,
    Path.isAbsolute start = true -> String.length start <= fuel ->
    exists levels, Pkg.levelsTo fuel "/" start = Some levels.
Proof.
  induction fuel as [| fuel IH]; intros start Habs Hlen.
  - destruct start; [discriminate Habs | simpl in Hlen; lia].
  - simpl. destruct (String.eqb start "/") eqn:E; [now eexists |].
    apply String.eqb_neq in E.
    destruct (dirname_climbs _ Habs E) as [Habs' Hshort].
    destruct (IH (Path.dirname start) Habs' ltac:(lia)) as [levels ->].
    now eexists.
Qed.


(** The two paths tested at a level, written out. *)
Lemma pkgInstallDirIn_text (packageName dir : string) :
  Notions.packagePath packageName = true ->
  pkgInstallDirIn packageName dir
  = (Notions.dirText processCwd dir ++ "/node_modules/" ++ packageName)%string
  /\ pkgJsonPathIn packageName dir
     = ((Notions.dirText processCwd dir ++ "/node_modules/" ++ packageName)
        ++ "/package.json")%string.
Proof.
  intros Hname.
  assert (Hdir :
    pkgInstallDirIn packageName dir
    = (Notions.dirText processCwd dir ++ "/node_modules/" ++ packageName)%string).
  { unfold Pkg.pkgInstallDirIn, Pkg.NODE_MODULES.
    now rewrite (resolve_names processCwd dir "node_modules" packageName
                   eq_refl Hname). }
  split; [exact Hdir |].
  unfold Pkg.pkgJsonPathIn, Pkg.PACKAGE_JSON. rewrite Hdir.
  rewrite (resolve_simple _ _ "package.json" eq_refl).
  change (Notions.dirText processCwd dir ++ "/node_modules/" ++ packageName)%string
    with (Notions.dirText processCwd dir
          ++ "/" ++ "node_modules" ++ "/" ++ packageName)%string.
  now rewrite (dirText_below processCwd dir "node_modules" packageName
                 eq_refl Hname).
Qed.

(** At a level above a normalized absolute path, the test of the loop
    is the test of the two paths written out. *)
Lemma pkgExistsIn_holds (packageName real : string) (n : nat) :
  Notions.packagePath packageName = true ->
  Path.isAbsolute real = true ->
  Path.resolve processCwd [real] = real ->
  pkgInstallDirIn packageName (Notions.ancestor n (Path.dirname real))
  = Installed.installDirBelow (Notions.ancestor n (Path.dirname real))
                              packageName
  /\ (pkgExistsIn packageName (Notions.ancestor n (Path.dirname real)) = true
      <-> Installed.holds fs packageName
            (Notions.ancestor n (Path.dirname real))).
Proof.
  intros Hname Habs Hres.
  destruct (pkgInstallDirIn_text packageName
              (Notions.ancestor n (Path.dirname real)) Hname) as [Hdir Hjson].
  change (Notions.ancestor n (Path.dirname real))
    with (Notions.ancestor (S n) real) in *.
  rewrite (dirText_ancestor _ _ (S n) Habs Hres) in Hdir, Hjson.
  split; [exact Hdir |].
  rewrite pkgExistsIn_both, Hdir, Hjson. reflexivity.
Qed.

(** The loop, level by level: it leaves at the first level that passes
    the test, or at the boundary. *)
Lemma walkUp_first (packageName endPath : string) (k : nat) :
  forall start,
    Notions.ancestor k start = endPath ->
    exists result,
      Pkg.walkUp processCwd fs (S k) packageName endPath start = Some result
      /\ (result = None <->
          forall n, Installed.upTo endPath start n ->
                    pkgExistsIn packageName (Notions.ancestor n start) = false)
      /\ (forall found, result = Some found ->
          exists n,
            Installed.upTo endPath start n
            /\ found = pkgInstallDirIn packageName (Notions.ancestor n start)
            /\ pkgExistsIn packageName (Notions.ancestor n start) = true
            /\ forall m, m < n ->
                 pkgExistsIn packageName (Notions.ancestor m start) = false).
Proof.
  induction k as [| k IH]; intros start Hend.
  - cbn [Notions.ancestor] in Hend. subst endPath. cbn [Pkg.walkUp].
    destruct (pkgExistsIn packageName start) eqn:Eexists.
    + eexists. split; [reflexivity |]. split.
      * split; [discriminate |]. intros H.
        specialize (H 0). cbn [Notions.ancestor] in H.
        rewrite Eexists in H. discriminate H. intros m Hm. lia.
      * intros found [= <-]. exists 0.
        split; [intros m Hm; lia |]. split; [reflexivity |].
        split; [exact Eexists | intros m Hm; lia].
    + rewrite String.eqb_refl. eexists. split; [reflexivity |]. split.
      * split; [| reflexivity]. intros _ [| n] Hn; [exact Eexists |].
        exfalso. apply (Hn 0); [lia | reflexivity].
      * discriminate.
  - cbn [Pkg.walkUp].
    destruct (pkgExistsIn packageName start) eqn:Eexists.
    + eexists. split; [reflexivity |]. split.
      * split; [discriminate |]. intros H.
        specialize (H 0). cbn [Notions.ancestor] in H.
        rewrite Eexists in H. discriminate H. intros m Hm. lia.
      * intros found [= <-]. exists 0.
        split; [intros m Hm; lia |]. split; [reflexivity |].
        split; [exact Eexists | intros m Hm; lia].
    + destruct (String.eqb start endPath) eqn:Eend.
      * apply String.eqb_eq in Eend. eexists. split; [reflexivity |]. split.
        -- split; [| reflexivity]. intros _ [| n] Hn; [exact Eexists |].
           exfalso. apply (Hn 0); [lia | exact Eend].
        -- discriminate.
      * apply String.eqb_neq in Eend.
        destruct (IH (Path.dirname start) Hend)
          as (result & Hwalk & Hnone & Hfound).
        exists result. split; [exact Hwalk |]. split.
        -- rewrite Hnone. split.
           ++ intros H [| n] Hn; [exact Eexists |].
              apply (H n). intros m Hm. apply (Hn (S m)). lia.
           ++ intros H n Hn. apply (H (S n)).
              intros [| m] Hm; [exact Eend |]. apply (Hn m). lia.
        -- intros found Hres.
           destruct (Hfound found Hres) as (n & Hn & Hpath & Hex & Hbefore).
           exists (S n). split.
           ++ intros [| m] Hm; [exact Eend |]. apply (Hn m). lia.
           ++ split; [exact Hpath |]. split; [exact Hex |].
              intros [| m] Hm; [exact Eexists |]. apply Hbefore. lia.
Qed.

(** C3.  For a package name made of proper file names ([lodash],
    [@scope/name]) and a starting path that [realpath] resolves to a
    normalized absolute path, with the boundary [getRoot] names among
    the ancestors of the directory of that path, say [k] levels up:
    the call returns within [k + 1] levels.  It returns nothing
    exactly when no level from that directory up to the boundary holds
    both [<dir>/node_modules/<name>] and
    [<dir>/node_modules/<name>/package.json]; otherwise it returns
    [<dir>/node_modules/<name>] for the level [dir] nearest to the
    starting file that holds both. *)
Theorem findPkgInstallDir_nearest
        (packageName baseFilePath real : string) (k : nat) :
  Notions.packagePath packageName = true ->
  Fs.realpath fs baseFilePath = Some real ->
  Path.isAbsolute real = true ->
  Path.resolve processCwd [real] = real ->
  Notions.ancestor k (Path.dirname real) = getRoot real ->
  exists result,
    Pkg.findPkgInstallDir processCwd fs getRoot (S k) packageName baseFilePath
    = Some (Pkg.Returns result)
    /\ (result = None <->
        forall n,
          Installed.upTo (getRoot real) (Path.dirname real) n ->
          ~ Installed.holds fs packageName
              (Notions.ancestor n (Path.dirname real)))
    /\ (forall found, result = Some found ->
        exists n,
          Installed.upTo (getRoot real) (Path.dirname real) n
          /\ found
             = (Notions.prefixOf (Notions.ancestor n (Path.dirname real))
                ++ "/node_modules/" ++ packageName)%string
          /\ Fs.pathExists fs found = true
          /\ Fs.pathExists fs (found ++ "/package.json") = true
          /\ forall m, m < n ->
               ~ Installed.holds fs packageName
                   (Notions.ancestor m (Path.dirname real))).
Proof.
  intros Hname Hreal Habs Hres Hend.
  destruct (walkUp_first packageName _ _ _ Hend)
    as (result & Hwalk & Hnone & Hfound).
  assert (Hfalse : forall n,
    pkgExistsIn packageName (Notions.ancestor n (Path.dirname real)) = false
    <-> ~ Installed.holds fs packageName
            (Notions.ancestor n (Path.dirname real))).
  { intros n.
    destruct (pkgExistsIn_holds packageName real n Hname Habs Hres)
      as [_ Hiff].
    rewrite <- Hiff.
    destruct (pkgExistsIn packageName
                (Notions.ancestor n (Path.dirname real)));
      split; congruence. }
  exists result. split; [| split].
  - unfold Pkg.findPkgInstallDir. rewrite Hreal, Hwalk. reflexivity.
  - rewrite Hnone. split; intros H n Hn; apply Hfalse; now apply H.
  - intros found Hres'.
    destruct (Hfound found Hres') as (n & Hn & Hpath & Hex & Hbefore).
    destruct (pkgExistsIn_holds packageName real n Hname Habs Hres)
      as [Hdir Hiff].
    apply Hiff in Hex. destruct Hex as [Hex1 Hex2].
    rewrite Hdir in Hpath. subst found.
    exists n. split; [exact Hn |]. split; [reflexivity |].
    split; [exact Hex1 |]. split; [exact Hex2 |].
    intros m Hm. apply Hfalse. now apply Hbefore.
Qed.

(** X3.  With the root of the volume as the boundary, the walk from an
    absolute real path always ends: the call returns, having visited at
    most as many levels as the path has characters. *)
Theorem findPkgInstallDir_returns_below_root
      (packageName baseFilePath real : string) :
  Fs.realpath fs baseFilePath = Some real ->
  Path.isAbsolute real = true ->
  getRoot real = "/" ->
  exists result,
    Pkg.findPkgInstallDir processCwd fs getRoot (String.length real)
                          packageName baseFilePath
    = Some (Pkg.Returns result).
Proof.
  intros Hreal Habs Hroot.
  destruct (dirname_absolute _ Habs) as [Habs' Hlen].
  destruct (levelsTo_root (String.length real) _ Habs' Hlen) as [levels Hl].
  unfold Pkg.findPkgInstallDir. rewrite Hreal, Hroot.
  rewrite (walkUp_levels _ _ _ _ _ Hl). now eexists.
Qed.


End FindPkgInstallDirFacts.

(** ** [getPkgNameAndVersionFromDocPosition] *)

Section LocateFacts.
Variable validForOldPackages : string -> bool.

Local Abbreviation locate :=
  (Pkg.getPkgNameAndVersionFromDocPosition validForOldPackages).

(** Without a tree, and outside every node, nothing is returned. *)
Lemma locate_no_tree (offset : nat) : locate None offset = Pkg.Returns None.
Proof. reflexivity. Qed.

(** X2.  A match is returned only for a string node that is the first of
    the two children of a property whose second child is a string too
    and whose parent is the value of one of the four dependency fields,
    and only for a name the validator accepts. *)
Lemma locate_match_only_on_dependency_key
      (root : Jsonc.Node) (offset : nat) (found : Pkg.NameAndVersion) :
  locate (Some root) offset = Pkg.Returns (Some found) ->
  exists parent nameNode versionNode parentNode,
    Jsonc.findNodeAtOffset root offset = Some (Pkg.nameNode found)
    /\ Pkg.nameNode found = parent ++ [0]
    /\ Pkg.versionNode found = parent ++ [1]
    /\ Jsonc.nodeAt (Jsonc.AValue root) (Pkg.nameNode found) = Some nameNode
    /\ Jsonc.nodeType nameNode = Jsonc.TString
    /\ Jsonc.nodeValue nameNode = Some (Pkg.name found)
    /\ Jsonc.nodeAt (Jsonc.AValue root) parent = Some parentNode
    /\ Jsonc.nodeType parentNode = Jsonc.TProperty
    /\ length (Jsonc.children parentNode) = 2
    /\ nth_error (Jsonc.children parentNode) 1 = Some versionNode
    /\ Jsonc.nodeType versionNode = Jsonc.TString
    /\ Jsonc.nodeValue versionNode = Some (Pkg.version found)
    /\ Pkg.includesRef
         (map (fun path =>
                 option_map fst (Jsonc.findNodeAtLocation root [path]))
              Pkg.dependenciesNodePath)
         (Jsonc.parentRef parent) = true
    /\ validForOldPackages (Pkg.name found) = true.
Proof.
  unfold Pkg.getPkgNameAndVersionFromDocPosition.
  destruct (Jsonc.findNodeAtOffset root offset) as [nameRef |] eqn:Efind;
    [| discriminate].
  destruct (Jsonc.parentRef nameRef) as [parent |]; [| discriminate].
  destruct (Jsonc.nodeAt (Jsonc.AValue root) nameRef) as [nameNode |]
    eqn:Ename; [| discriminate].
  destruct (Jsonc.NodeType_eqb (Jsonc.nodeType nameNode) Jsonc.TString)
    eqn:Etype; [| discriminate].
  destruct (Jsonc.nodeAt (Jsonc.AValue root) parent) as [parentNode |]
    eqn:Eparent; [| simpl; discriminate].
  destruct (nth_error (Jsonc.children parentNode) 1) as [versionNode |]
    eqn:Ever; [| discriminate].
  match goal with
  | |- (if ?c then _ else _) = _ -> _ => destruct c eqn:Econd
  end; [| discriminate].
  apply andb_true_iff in Econd. destruct Econd as [Econd Hdeps].
  apply andb_true_iff in Econd. destruct Econd as [Econd Hfirst].
  apply andb_true_iff in Econd. destruct Econd as [Econd Hlen].
  apply andb_true_iff in Econd. destruct Econd as [Hvtype Hptype].
  destruct (Jsonc.nodeValue nameNode) as [pkgName |] eqn:Evn;
    [| discriminate].
  destruct (Jsonc.nodeValue versionNode) as [ver |] eqn:Evv;
    [| discriminate].
  destruct (validForOldPackages pkgName) eqn:Evalid; [| discriminate].
  intros [= <-]. simpl.
  assert (Href : nameRef = parent ++ [0]).
  { unfold Jsonc.NodeRef_eqb in Hfirst.
    destruct (list_eq_dec Nat.eq_dec nameRef (parent ++ [0]));
      [assumption | discriminate]. }
  assert (Htype : forall a t, Jsonc.NodeType_eqb a t = true -> a = t).
  { intros [] []; simpl; congruence. }
  apply Nat.eqb_eq in Hlen.
  exists parent, nameNode, versionNode, parentNode.
  repeat (split; [solve [auto] |]). exact Evalid.
Qed.

(** Hovering the key of a dependency entry gives the match. *)
Example locate_on_key :
  validForOldPackages "lodash" = true ->
  locate (Some Manifests.withDependency) 18
  = Pkg.Returns (Some {| Pkg.nameNode := [0; 1; 0; 0];
                         Pkg.versionNode := [0; 1; 0; 1];
                         Pkg.name := "lodash";
                         Pkg.version := "^4.17.21" |}).
Proof.
  intros H. unfold Pkg.getPkgNameAndVersionFromDocPosition. simpl.
  now rewrite H.
Qed.

(** Hovering the version of the entry gives nothing. *)
Example locate_on_version :
  locate (Some Manifests.withDependency) 27 = Pkg.Returns None.
Proof. reflexivity. Qed.

(** C4 (the defect).  In [{"files":["lib"]}] the node under offset 11
    is the string [lib], the only item of its array: [versionNode], the
    second child of the parent, is [undefined], and reading its [type]
    throws before the test on the number of children is reached.  The
    call fails where nothing should have been returned. *)
Theorem locate_throws_on_single_item_array :
  Jsonc.findNodeAtOffset Manifests.filesOnly 11 = Some [0; 1; 0]
  /\ locate (Some Manifests.filesOnly) 11 = Pkg.Throws.
Proof. split; reflexivity. Qed.

(** The same happens on a dependency key that has no value yet. *)
Example locate_throws_on_key_without_value :
  locate (Some Manifests.keyOnly) 18 = Pkg.Throws.
Proof. reflexivity. Qed.

End LocateFacts.

(** ** [extractGitUrl] and [pkgWebsites] *)

Section HoverFacts.
Variable hostedHttps : string -> option string.
Variable trimLeftSlash : string -> string.
Variable spacing : nat -> string.

Local Abbreviation extractGitUrl :=
  (HoverContents.extractGitUrl hostedHttps trimLeftSlash).
Local Abbreviation repositoryFieldUrl :=
  (HoverContents.repositoryFieldUrl hostedHttps trimLeftSlash).
Local Abbreviation repositoryUrlOf :=
  (HoverContents.repositoryUrlOf hostedHttps trimLeftSlash).
Local Abbreviation homepageUrlOf :=
  (HoverContents.homepageUrlOf hostedHttps trimLeftSlash).
Local Abbreviation websiteInfos :=
  (HoverContents.websiteInfos hostedHttps trimLeftSlash).
Local Abbreviation pkgWebsites :=
  (HoverContents.pkgWebsites hostedHttps trimLeftSlash spacing).

Lemma isHttpUrl_nonempty (url : string) :
  HoverContents.isHttpUrl url = true -> Js.truthy (Some url) = true.
Proof. destruct url; [discriminate | reflexivity]. Qed.

Lemma stripDotGit_suffix (r : string) :
  HoverContents.stripDotGit (r ++ ".git")%string = r.
Proof.
  unfold HoverContents.stripDotGit. rewrite endsWith_append.
  unfold Js.dropLast. rewrite length_append. simpl.
  replace (String.length r + 4 - 4) with (String.length r) by lia.
  apply substring_take_app.
Qed.

Lemma stripDotGit_other (r : string) :
  Js.endsWith ".git" r = false -> HoverContents.stripDotGit r = r.
Proof. unfold HoverContents.stripDotGit. now intros ->. Qed.

Lemma extractGitUrl_http (url : string) :
  HoverContents.isHttpUrl url = true ->
  extractGitUrl url = Some (HoverContents.stripDotGit url).
Proof.
  intros H. unfold HoverContents.extractGitUrl.
  now rewrite H, (isHttpUrl_nonempty _ H).
Qed.

Lemma extractGitUrl_hosted (url : string) :
  HoverContents.isHttpUrl url = false ->
  extractGitUrl url
  = option_map HoverContents.stripDotGit (hostedHttps (trimLeftSlash url)).
Proof.
  intros H. unfold HoverContents.extractGitUrl. rewrite H.
  destruct (hostedHttps (trimLeftSlash url)) as [r |]; [| reflexivity].
  destruct r; reflexivity.
Qed.

(** C5, as the code has it.  A value that already starts with
    [http://] or [https://] (in any case) is kept as it stands, scheme
    and [#committish] included; every other value is handed, without
    its leading separators, to [hosted-git-info], whose HTTPS rendering
    without [git+] and without committish is taken.  In both cases one
    trailing [.git] is removed.  For the field
    [git+https://github.com/user/repo.git#main], which
    [hosted-git-info] renders as [https://github.com/user/repo.git], the
    result is [https://github.com/user/repo]. *)
Theorem extractGitUrl_normalizes (url : string) :
  (HoverContents.isHttpUrl url = true ->
   extractGitUrl url = Some (HoverContents.stripDotGit url))
  /\ (HoverContents.isHttpUrl url = false ->
      extractGitUrl url
      = option_map HoverContents.stripDotGit
                   (hostedHttps (trimLeftSlash url)))
  /\ (forall r, HoverContents.stripDotGit (r ++ ".git")%string = r)
  /\ (forall r, Js.endsWith ".git" r = false ->
                HoverContents.stripDotGit r = r)
  /\ (hostedHttps (trimLeftSlash "git+https://github.com/user/repo.git#main")
      = Some "https://github.com/user/repo.git" ->
      extractGitUrl "git+https://github.com/user/repo.git#main"
      = Some "https://github.com/user/repo"
      /\ Links.canonicalHttps "https://github.com/user/repo").
Proof.
  split; [apply extractGitUrl_http |].
  split; [apply extractGitUrl_hosted |].
  split; [apply stripDotGit_suffix |].
  split; [apply stripDotGit_other |].
  intros H. split.
  - rewrite extractGitUrl_hosted by reflexivity. now rewrite H.
  - repeat split; reflexivity.
Qed.








End HoverFacts.

(** C5, counterexample to the statement for every field value.  A field
    that already is an [https] URL keeps its [.git#main]; an [http] URL
    stays [http].  Neither result is a canonical HTTPS URL. *)
Lemma extractGitUrl_keeps_http_urls :
  (forall hostedHttps trimLeftSlash,
     HoverContents.extractGitUrl hostedHttps trimLeftSlash
       "https://github.com/user/repo.git#main"
     = Some "https://github.com/user/repo.git#main")
  /\ ~ Links.canonicalHttps "https://github.com/user/repo.git#main"
  /\ (forall hostedHttps trimLeftSlash,
        HoverContents.extractGitUrl hostedHttps trimLeftSlash
          "http://github.com/user/repo.git"
        = Some "http://github.com/user/repo")
  /\ ~ Links.canonicalHttps "http://github.com/user/repo".
Proof.
  repeat split; try reflexivity.
  - intros (_ & _ & H). discriminate H.
  - intros (H & _). discriminate H.
Qed.

Example extractGitUrl_git_plus_https :
  HoverContents.extractGitUrl Links.hostedHttps Links.trimLeftSlash
    "git+https://github.com/user/repo.git#main"
  = Some "https://github.com/user/repo".
Proof. reflexivity. Qed.

Example stripIssues_github :
  HoverContents.stripIssues "https://github.com/user/repo/issues/new?x=1"
  = "https://github.com/user/repo".
Proof. reflexivity. Qed.

(** A manifest with a bugs URL and a homepage, and no repository. *)
Example pkgWebsites_bugs_only :
  let info :=
    {| HoverContents.name := "repo";
       HoverContents.installedVersion := Some "1.0.0";
       HoverContents.isBuiltinModule := false;
       HoverContents.packageJson :=
         {| HoverContents.homepage := HoverContents.FString "https://github.com/user/repo";
            HoverContents.repository := HoverContents.FUndefined;
            HoverContents.bugs :=
              HoverContents.FObject (Some "https://github.com/user/repo/issues") |} |} in
  firstn 2 (HoverContents.websiteInfos Links.hostedHttps Links.trimLeftSlash info)
  = ["[Npm](https://www.npmjs.com/package/repo/v/1.0.0)";
     "[Repository](https://github.com/user/repo)"].
Proof. reflexivity. Qed.


(** ** [globby] *)

Section GlobbyFacts.
Variable globMatch : string -> string -> bool.
Variable files : list string.

Local Abbreviation selects := (Globby.selects globMatch).
Local Abbreviation ignoredBy := (Globby.ignoredBy globMatch).

Lemma In_globby (patterns : list string) (file : string) :
  In file (Globby.globby globMatch files patterns) <->
  In file files /\ selects patterns file = true.
Proof. unfold Globby.globby. apply filter_In. Qed.

Lemma ignoredBy_app (a b : list string) (file : string) :
  ignoredBy (a ++ b) file = ignoredBy a file || ignoredBy b file.
Proof. unfold Globby.ignoredBy. apply existsb_app. Qed.

Lemma ignoredBy_false (patterns : list string) (file q : string) :
  ignoredBy patterns file = false ->
  In q patterns -> Globby.isNegativePattern q = true ->
  globMatch (Js.sliceFrom1 q) file = false.
Proof.
  unfold Globby.ignoredBy. intros Hex Hin Hneg.
  destruct (globMatch (Js.sliceFrom1 q) file) eqn:E; [| reflexivity].
  assert (existsb (fun q => Globby.isNegativePattern q
                            && globMatch (Js.sliceFrom1 q) file)
                  patterns = true) as Habs.
  { apply existsb_exists. exists q. now rewrite Hneg, E. }
  congruence.
Qed.

Lemma selects_all_negative (patterns : list string) (file : string) :
  (forall q, In q patterns -> Globby.isNegativePattern q = true) ->
  selects patterns file = false.
Proof.
  induction patterns as [| p rest IH]; intros Hneg; simpl; [reflexivity |].
  rewrite (Hneg p (or_introl eq_refl)). apply IH.
  intros q Hq. apply Hneg. now right.
Qed.

(** A selected file is matched by none of the negative patterns that
    close the list. *)
Lemma selects_excludes (pre post : list string) (file : string) :
  (forall q, In q post -> Globby.isNegativePattern q = true) ->
  selects (pre ++ post) file = true ->
  forall q, In q post -> globMatch (Js.sliceFrom1 q) file = false.
Proof.
  intros Hneg. induction pre as [| p pre IH]; simpl; intros Hsel q Hq.
  - rewrite (selects_all_negative _ _ Hneg) in Hsel. discriminate.
  - destruct (Globby.isNegativePattern p); [now apply IH |].
    apply orb_true_iff in Hsel. destruct Hsel as [Hsel | Hsel];
      [| now apply IH].
    apply andb_true_iff in Hsel. destruct Hsel as [_ Hign].
    apply negb_true_iff in Hign.
    apply (ignoredBy_false _ _ _ Hign).
    + apply in_or_app. now right.
    + now apply Hneg.
Qed.

(** Taking negative patterns out of a list keeps every selected file
    selected. *)
Lemma selects_without (pre extra post : list string) (file : string) :
  (forall q, In q extra -> Globby.isNegativePattern q = true) ->
  selects (pre ++ extra ++ post) file = true ->
  selects (pre ++ post) file = true.
Proof.
  intros Hneg. induction pre as [| p pre IH]; simpl.
  - induction extra as [| e extra IHe]; simpl; [auto |].
    rewrite (Hneg e (or_introl eq_refl)). apply IHe.
    intros q Hq. apply Hneg. now right.
  - destruct (Globby.isNegativePattern p); [exact IH |].
    intros Hsel. apply orb_true_iff in Hsel. apply orb_true_iff.
    destruct Hsel as [Hsel | Hsel]; [left | right; now apply IH].
    apply andb_true_iff in Hsel. destruct Hsel as [Hm Hign].
    rewrite Hm. simpl. apply negb_true_iff in Hign. apply negb_true_iff.
    rewrite !ignoredBy_app in Hign. rewrite ignoredBy_app.
    apply orb_false_iff in Hign. destruct Hign as [H1 H2].
    apply orb_false_iff in H2. destruct H2 as [_ H2].
    now rewrite H1, H2.
Qed.

End GlobbyFacts.

(** ** [getCodeLenses] *)

Section CodeLensFacts.
Variable processCwd : string.
Variable cwd : string.
Variable globMatch : string -> string -> bool.
Variable files : list string.
Variable fs : Fs.FileSystem.
Variable jsoncStringNodeToRange : Jsonc.Node -> FilesCodeLens.Range.

Local Abbreviation resolveInCwd := (FilesCodeLens.resolveInCwd processCwd cwd).
Local Abbreviation collectPatterns :=
  (FilesCodeLens.collectPatterns jsoncStringNodeToRange).
Local Abbreviation expand :=
  (FilesCodeLens.expand processCwd cwd globMatch files).
Local Abbreviation settle :=
  (FilesCodeLens.settle processCwd cwd globMatch files).
Local Abbreviation totalFilesOf :=
  (FilesCodeLens.totalFilesOf processCwd cwd globMatch files).
Local Abbreviation addFileWhenExists := (FilesCodeLens.addFileWhenExists fs).
Local Abbreviation tryCandidates := (FilesCodeLens.tryCandidates fs).
Local Abbreviation candidatesOf := (FilesCodeLens.candidatesOf processCwd cwd).
Local Abbreviation addDefault := (FilesCodeLens.addDefault processCwd cwd fs).
Local Abbreviation addMain := (FilesCodeLens.addMain processCwd cwd fs).
Local Abbreviation defaultHit := (Resolved.defaultHit processCwd cwd fs).
Local Abbreviation allFiles :=
  (FilesCodeLens.allFiles processCwd cwd globMatch files fs).
Local Abbreviation itemsOf := (Items.itemsOf jsoncStringNodeToRange).
(** *** The first loop *)

Lemma itemOf_negated (node : Jsonc.AnyNode) (item : FilesCodeLens.PatternItem) :
  Items.itemOf jsoncStringNodeToRange node = Some item ->
  FilesCodeLens.isNegated item
  = Js.startsWith "!" (FilesCodeLens.pattern item)
  /\ Resolved.isNegatedNode node = FilesCodeLens.isNegated item
  /\ Jsonc.nodeType node = Jsonc.TString.
Proof.
  destruct node as [[] |]; simpl; try discriminate.
  intros [= <-]. simpl. auto.
Qed.

Lemma itemOf_none (node : Jsonc.AnyNode) :
  Items.itemOf jsoncStringNodeToRange node = None <->
  Jsonc.nodeType node <> Jsonc.TString.
Proof.
  destruct node as [[] |]; simpl; split; congruence.
Qed.

Lemma negatedPatterns_app (a b : list FilesCodeLens.PatternItem) :
  Resolved.negatedPatterns (a ++ b)
  = Resolved.negatedPatterns a ++ Resolved.negatedPatterns b.
Proof. unfold Resolved.negatedPatterns. now rewrite filter_app, map_app. Qed.

Lemma collectPatterns_items (nodes : list Jsonc.AnyNode)
      (items : list FilesCodeLens.PatternItem) :
  itemsOf nodes items ->
  forall negs acc,
    collectPatterns nodes negs acc
    = (Some (acc ++ items), negs ++ Resolved.negatedPatterns items).
Proof.
  induction 1 as [| node item nodes items Hitem _ IH]; intros negs acc.
  - simpl. now rewrite !app_nil_r.
  - destruct node as [[o l p | | | | |] |]; simpl in Hitem; try discriminate.
    injection Hitem as <-. simpl. rewrite IH.
    unfold Resolved.negatedPatterns. simpl.
    destruct (Js.startsWith "!" p); simpl; now rewrite <- !app_assoc.
Qed.

Lemma collectPatterns_inv (nodes : list Jsonc.AnyNode) :
  forall negs acc patternList negs',
    collectPatterns nodes negs acc = (Some patternList, negs') ->
    exists items,
      itemsOf nodes items
      /\ patternList = acc ++ items
      /\ negs' = negs ++ Resolved.negatedPatterns items.
Proof.
  induction nodes as [| node nodes IH]; intros negs acc patternList negs' H.
  - simpl in H. injection H as <- <-. exists []. split; [constructor |].
    unfold Resolved.negatedPatterns. simpl. now rewrite !app_nil_r.
  - destruct node as [[o l p | | | | |] |]; simpl in H; try discriminate.
    destruct (IH _ _ _ _ H) as (items & Hitems & -> & ->).
    eexists (_ :: items). split; [constructor; [reflexivity | exact Hitems] |].
    unfold Resolved.negatedPatterns. simpl.
    destruct (Js.startsWith "!" p); simpl; now rewrite <- !app_assoc.
Qed.

Lemma collectPatterns_abort (nodes : list Jsonc.AnyNode) :
  (exists node, In node nodes /\ Jsonc.nodeType node <> Jsonc.TString) ->
  forall negs acc, fst (collectPatterns nodes negs acc) = None.
Proof.
  intros (node & Hin & Htype).
  induction nodes as [| n nodes IH]; intros negs acc; [destruct Hin |].
  destruct Hin as [-> | Hin].
  - destruct node as [[] |]; simpl in *; congruence.
  - destruct n as [[] |]; simpl; auto.
Qed.

Lemma itemsOf_positive (nodes : list Jsonc.AnyNode)
      (items : list FilesCodeLens.PatternItem) :
  itemsOf nodes items ->
  itemsOf (filter (fun node => negb (Resolved.isNegatedNode node)) nodes)
          (filter Items.positive items).
Proof.
  induction 1 as [| node item nodes items Hitem _ IH]; simpl;
    [constructor |].
  destruct (itemOf_negated _ _ Hitem) as (_ & Hsame & _).
  unfold Items.positive at 1. rewrite Hsame.
  destruct (FilesCodeLens.isNegated item); simpl; [exact IH |].
  now constructor.
Qed.

Lemma itemsOf_negated (nodes : list Jsonc.AnyNode)
      (items : list FilesCodeLens.PatternItem) :
  itemsOf nodes items ->
  forall item, In item items ->
    FilesCodeLens.isNegated item
    = Js.startsWith "!" (FilesCodeLens.pattern item).
Proof.
  induction 1 as [| node item nodes items Hitem _ IH]; intros it Hin;
    [destruct Hin |].
  destruct Hin as [<- | Hin]; [| now apply IH].
  now destruct (itemOf_negated _ _ Hitem).
Qed.

Lemma negatedPatterns_negative (items : list FilesCodeLens.PatternItem) :
  (forall item, In item items ->
     FilesCodeLens.isNegated item
     = Js.startsWith "!" (FilesCodeLens.pattern item)) ->
  forall q, In q (Resolved.negatedPatterns items) ->
    Globby.isNegativePattern q = true.
Proof.
  intros Hwf q Hq. unfold Resolved.negatedPatterns in Hq.
  apply in_map_iff in Hq. destruct Hq as (item & <- & Hin).
  apply filter_In in Hin. destruct Hin as [Hin Hneg].
  unfold Globby.isNegativePattern. now rewrite <- (Hwf _ Hin).
Qed.

Lemma negatedPatterns_positive (items : list FilesCodeLens.PatternItem) :
  Resolved.negatedPatterns (filter Items.positive items) = [].
Proof.
  unfold Resolved.negatedPatterns, Items.positive.
  induction items as [| item items IH]; simpl; [reflexivity |].
  destruct (FilesCodeLens.isNegated item) eqn:E; simpl; [exact IH |].
  now rewrite E.
Qed.

Lemma defaultIgnoredPatterns_negative (q : string) :
  In q FilesCodeLens.defaultIgnoredPatterns ->
  Globby.isNegativePattern q = true.
Proof.
  intros H.
  assert (forallb Globby.isNegativePattern
                  FilesCodeLens.defaultIgnoredPatterns = true) as Hall
    by reflexivity.
  rewrite forallb_forall in Hall. now apply Hall.
Qed.

(** *** Expansions and the accumulated set *)

Lemma In_expand (negs : list string) (item : FilesCodeLens.PatternItem)
      (path : string) :
  In path (expand negs item) <->
  exists file,
    path = resolveInCwd file /\ In file files
    /\ Globby.selects globMatch
         (FilesCodeLens.patternsOf negs item
          ++ FilesCodeLens.defaultIgnoredPatterns) file = true.
Proof.
  unfold FilesCodeLens.expand. rewrite in_map_iff. split.
  - intros (file & <- & Hin). apply In_globby in Hin.
    exists file. tauto.
  - intros (file & -> & Hin & Hsel). exists file.
    split; [reflexivity |]. now apply In_globby.
Qed.

Lemma In_settled (negs : list string)
      (settled : list FilesCodeLens.PatternItem) :
  forall (init : Js.SetOfString) (path : string),
    In path (fold_left (settle negs) settled init) <->
    In path init \/
    exists item, In item settled /\ FilesCodeLens.isNegated item = false
                 /\ In path (expand negs item).
Proof.
  induction settled as [| item settled IH]; intros init path; simpl.
  - split; [auto | intros [H | (item & [] & _)]; exact H].
  - rewrite IH. unfold FilesCodeLens.settle at 1.
    destruct (FilesCodeLens.isNegated item) eqn:E.
    + split.
      * intros [H | (it & Hin & Hpos & Hp)]; [now left |].
        right. exists it. auto.
      * intros [H | (it & [<- | Hin] & Hpos & Hp)]; [now left | congruence |].
        right. exists it. auto.
    + rewrite In_addAll. split.
      * intros [[H | H] | (it & Hin & Hpos & Hp)]; [now left | |].
        -- right. exists item. auto.
        -- right. exists it. auto.
      * intros [H | (it & [<- | Hin] & Hpos & Hp)]; [now left; left | |].
        -- left. now right.
        -- right. exists it. auto.
Qed.

Lemma In_totalFilesOf (negs : list string)
      (settled : list FilesCodeLens.PatternItem) (path : string) :
  In path (totalFilesOf negs settled) <->
  exists item, In item settled /\ FilesCodeLens.isNegated item = false
               /\ In path (expand negs item).
Proof.
  unfold FilesCodeLens.totalFilesOf. rewrite In_settled. simpl. tauto.
Qed.

Lemma NoDup_settled (negs : list string)
      (settled : list FilesCodeLens.PatternItem) :
  forall init : Js.SetOfString,
    NoDup init -> NoDup (fold_left (settle negs) settled init).
Proof.
  induction settled as [| item settled IH]; intros init Hinit; simpl;
    [assumption |].
  apply IH. unfold FilesCodeLens.settle.
  destruct (FilesCodeLens.isNegated item); [assumption |].
  now apply NoDup_addAll.
Qed.

Lemma NoDup_totalFilesOf (negs : list string)
      (settled : list FilesCodeLens.PatternItem) :
  NoDup (totalFilesOf negs settled).
Proof. apply NoDup_settled. constructor. Qed.

(** *** The merge into [totalFiles] *)

Lemma addAll_present (xs : list string) (s : Js.SetOfString) :
  (forall x, In x xs -> In x s) -> Js.addAll s xs = s.
Proof.
  unfold Js.addAll. induction xs as [| x xs IH]; intros H; simpl;
    [reflexivity |].
  assert (Hx : Js.add s x = s).
  { unfold Js.add.
    now rewrite (proj2 (has_In x s) (H x (or_introl eq_refl))). }
  rewrite Hx. apply IH. intros y Hy. apply H. now right.
Qed.

(** It only grows the set, ... *)
Lemma settle_monotonic (negs : list string) (total : Js.SetOfString)
      (item : FilesCodeLens.PatternItem) :
  incl total (settle negs total item).
Proof.
  intros path H. unfold FilesCodeLens.settle.
  destruct (FilesCodeLens.isNegated item); [assumption |].
  apply In_addAll. now left.
Qed.

(** ... merging the same expansion twice changes nothing, ... *)
Lemma settle_idempotent (negs : list string) (total : Js.SetOfString)
      (item : FilesCodeLens.PatternItem) :
  settle negs (settle negs total item) item = settle negs total item.
Proof.
  unfold FilesCodeLens.settle.
  destruct (FilesCodeLens.isNegated item); [reflexivity |].
  apply addAll_present. intros x Hx. apply In_addAll. now right.
Qed.

(** ... and two expansions merged in either order give the same
    members, each once. *)
Lemma settle_commutative (negs : list string) (total : Js.SetOfString)
      (a b : FilesCodeLens.PatternItem) :
  NoDup total ->
  Permutation (settle negs (settle negs total a) b)
              (settle negs (settle negs total b) a).
Proof.
  intros Hnd.
  apply NoDup_Permutation.
  - apply (NoDup_settled negs [a; b] total Hnd).
  - apply (NoDup_settled negs [b; a] total Hnd).
  - intros path.
    rewrite (In_settled negs [a; b] total path).
    rewrite (In_settled negs [b; a] total path).
    split; intros [H | (it & Hin & Hrest)]; auto; right; exists it;
      (split; [| exact Hrest]); simpl in *; tauto.
Qed.

(** *** The default files *)

Lemma tryCandidates_first (candidates : list string) :
  forall total : Js.SetOfString,
    tryCandidates total candidates
    = match find (Fs.pathExists fs) candidates with
      | Some hit => Js.add total hit
      | None => total
      end.
Proof.
  induction candidates as [| p rest IH]; intros total; simpl;
    [reflexivity |].
  unfold FilesCodeLens.addFileWhenExists.
  destruct (Fs.pathExists fs p); [reflexivity | apply IH].
Qed.

Lemma addDefault_hit (total : Js.SetOfString) (file : string) :
  addDefault total file
  = match defaultHit file with
    | Some hit => Js.add total hit
    | None => total
    end.
Proof.
  unfold FilesCodeLens.addDefault, Resolved.defaultHit.
  destruct (Js.endsWith ".md" (resolveInCwd file)).
  - apply tryCandidates_first.
  - unfold FilesCodeLens.addFileWhenExists.
    now destruct (Fs.pathExists fs (resolveInCwd file)).
Qed.

Lemma In_defaults (defaults : list string) :
  forall (total : Js.SetOfString) (path : string),
    In path (fold_left addDefault defaults total) <->
    In path total \/
    exists file, In file defaults /\ defaultHit file = Some path.
Proof.
  induction defaults as [| file defaults IH]; intros total path; simpl.
  - split; [auto | intros [H | (f & [] & _)]; exact H].
  - rewrite IH, addDefault_hit.
    destruct (defaultHit file) as [hit |] eqn:E.
    + rewrite In_add. split.
      * intros [[H | ->] | (f & Hin & Hf)]; [now left | |].
        -- right. exists file. auto.
        -- right. exists f. auto.
      * intros [H | (f & [<- | Hin] & Hf)]; [now left; left | |].
        -- left. right. congruence.
        -- right. exists f. auto.
    + split.
      * intros [H | (f & Hin & Hf)]; [now left |]. right. exists f. auto.
      * intros [H | (f & [<- | Hin] & Hf)]; [now left | congruence |].
        right. exists f. auto.
Qed.

Lemma NoDup_defaults (defaults : list string) :
  forall total : Js.SetOfString,
    NoDup total -> NoDup (fold_left addDefault defaults total).
Proof.
  induction defaults as [| file defaults IH]; intros total H; simpl;
    [assumption |].
  apply IH. rewrite addDefault_hit.
  destruct (defaultHit file); [now apply NoDup_add | assumption].
Qed.

(** No node [findNodeAtLocation] returns is a property: the guard of
    the [main] step never holds and the step adds nothing. *)
Lemma addMain_adds_nothing (root : Jsonc.Node) (total : Js.SetOfString) :
  addMain root total = total.
Proof.
  unfold FilesCodeLens.addMain.
  destruct (Jsonc.findNodeAtLocation root ["main"]) as [[ref node] |];
    [| reflexivity].
  now destruct node.
Qed.

Lemma In_allFiles (flag : bool) (root : Jsonc.Node) (negs : list string)
      (settled : list FilesCodeLens.PatternItem) (path : string) :
  In path (allFiles flag root negs settled) <->
  In path (totalFilesOf negs settled) \/
  (flag = true /\
   exists file, In file FilesCodeLens.defaultIncludedFiles
                /\ defaultHit file = Some path).
Proof.
  unfold FilesCodeLens.allFiles.
  destruct flag; cbn [negb].
  - rewrite addMain_adds_nothing, In_defaults.
    split; [intros [H | H]; auto | intros [H | [_ H]]; auto].
  - split; [auto | intros [H | [H _]]; [exact H | discriminate]].
Qed.

Lemma NoDup_allFiles (flag : bool) (root : Jsonc.Node) (negs : list string)
      (settled : list FilesCodeLens.PatternItem) :
  NoDup (allFiles flag root negs settled).
Proof.
  unfold FilesCodeLens.allFiles.
  destruct flag; cbn [negb].
  - rewrite addMain_adds_nothing. apply NoDup_defaults, NoDup_totalFilesOf.
  - apply NoDup_totalFilesOf.
Qed.

(** X1.  The files of the [all] lens are the paths of the expansions of
    the non-negated items that settled and, with
    [includeDefaultPackedFiles], the default files the probing found;
    the [main] step adds none, since the node it looks at is never of
    type [property]. *)
Theorem allFiles_characterized
        (flag : bool) (root : Jsonc.Node) (negs : list string)
        (settled : list FilesCodeLens.PatternItem) (path : string) :
  (In path (allFiles flag root negs settled) <->
   (exists item, In item settled /\ FilesCodeLens.isNegated item = false
                 /\ In path (expand negs item))
   \/ (flag = true /\
       exists file, In file FilesCodeLens.defaultIncludedFiles
                    /\ defaultHit file = Some path))
  /\ (forall total, addMain root total = total).
Proof.
  split; [| apply addMain_adds_nothing].
  now rewrite In_allFiles, In_totalFilesOf.
Qed.


(** *** Negation *)

Lemma expand_excludes (negs0 : list string)
      (items : list FilesCodeLens.PatternItem)
      (item negated : FilesCodeLens.PatternItem) (file : string) :
  (forall it, In it items ->
     FilesCodeLens.isNegated it
     = Js.startsWith "!" (FilesCodeLens.pattern it)) ->
  (forall f g, In f files -> In g files ->
               resolveInCwd f = resolveInCwd g -> f = g) ->
  FilesCodeLens.isNegated item = false ->
  In negated items -> In file files ->
  Resolved.excludedBy globMatch negated file ->
  ~ In (resolveInCwd file)
       (expand (negs0 ++ Resolved.negatedPatterns items) item).
Proof.
  intros Hwf Hinj Hpos Hneg Hfile [Hn Hmatch] Hin.
  apply In_expand in Hin. destruct Hin as (g & Heq & Hg & Hsel).
  apply (Hinj _ _ Hfile Hg) in Heq. subst g.
  unfold FilesCodeLens.patternsOf in Hsel. rewrite Hpos in Hsel.
  rewrite app_comm_cons, <- app_assoc in Hsel.
  assert (Hq : In (FilesCodeLens.pattern negated)
                  (Resolved.negatedPatterns items
                   ++ FilesCodeLens.defaultIgnoredPatterns)).
  { apply in_or_app. left. unfold Resolved.negatedPatterns.
    apply in_map. apply filter_In. auto. }
  assert (Hall : forall q,
             In q (Resolved.negatedPatterns items
                   ++ FilesCodeLens.defaultIgnoredPatterns) ->
             Globby.isNegativePattern q = true).
  { intros q Hq'. apply in_app_or in Hq'. destruct Hq' as [Hq' | Hq'].
    - now apply (negatedPatterns_negative items Hwf).
    - now apply defaultIgnoredPatterns_negative. }
  pose proof (selects_excludes globMatch _ _ file Hall Hsel _ Hq) as Hno.
  congruence.
Qed.

(** C1, as the code has it.  Let the first loop have read the [files]
    array.  A file of the package that a negated pattern of the array
    matches, wherever that pattern stands in the array, is in the
    expansion of no non-negated pattern and is not in the accumulated
    [totalFiles]; without [includeDefaultPackedFiles] it is not in the
    files of the [all] lens either.  With the flag set it can only be
    there as one of the default files.  (Distinct files of the package
    are taken to resolve to distinct paths.) *)
Theorem negation_is_global
        (flag : bool) (root : Jsonc.Node) (nodes : list Jsonc.AnyNode)
        (negs0 negs : list string)
        (patternList settled : list FilesCodeLens.PatternItem)
        (negated : FilesCodeLens.PatternItem) (file : string) :
  collectPatterns nodes negs0 [] = (Some patternList, negs) ->
  incl settled patternList ->
  (forall f g, In f files -> In g files ->
               resolveInCwd f = resolveInCwd g -> f = g) ->
  In negated patternList -> In file files ->
  Resolved.excludedBy globMatch negated file ->
  (forall item, In item patternList ->
                FilesCodeLens.isNegated item = false ->
                ~ In (resolveInCwd file) (expand negs item))
  /\ ~ In (resolveInCwd file) (totalFilesOf negs settled)
  /\ (flag = false ->
      ~ In (resolveInCwd file) (allFiles flag root negs settled))
  /\ (In (resolveInCwd file) (allFiles flag root negs settled) ->
      flag = true /\
      exists default, In default FilesCodeLens.defaultIncludedFiles
                      /\ defaultHit default = Some (resolveInCwd file)).
Proof.
  intros Hcollect Hsub Hinj Hneg Hfile Hex.
  destruct (collectPatterns_inv _ _ _ _ _ Hcollect)
    as (items & Hitems & Hlist & ->).
  simpl in Hlist. subst patternList.
  pose proof (itemsOf_negated _ _ Hitems) as Hwf.
  assert (Hexp : forall item, In item items ->
                   FilesCodeLens.isNegated item = false ->
                   ~ In (resolveInCwd file)
                        (expand (negs0 ++ Resolved.negatedPatterns items) item)).
  { intros item _ Hpos.
    now apply (expand_excludes negs0 items item negated file). }
  assert (Htot : ~ In (resolveInCwd file)
                      (totalFilesOf (negs0 ++ Resolved.negatedPatterns items)
                                    settled)).
  { intros Hin. apply In_totalFilesOf in Hin.
    destruct Hin as (item & Hin & Hpos & Hp).
    exact (Hexp item (Hsub _ Hin) Hpos Hp). }
  split; [exact Hexp |]. split; [exact Htot |]. split.
  - intros -> Hin. apply In_allFiles in Hin.
    destruct Hin as [Hin | [Habs _]]; [now apply Htot | discriminate].
  - intros Hin. apply In_allFiles in Hin.
    destruct Hin as [Hin | Hin]; [now destruct (Htot Hin) | exact Hin].
Qed.

(** C6.  The negated entries only narrow.  Running the first loop on
    the array without its negated entries, from the same provider,
    gives the non-negated items and pushes nothing; and the files of
    the [all] lens for the whole array are among those for the
    non-negated entries alone, in whatever order the expansions settle.
    Every member of [totalFiles] comes from the expansion of a
    non-negated item: no expansion of a negated item is added. *)
Theorem negation_only_narrows
        (flag : bool) (root : Jsonc.Node) (nodes : list Jsonc.AnyNode)
        (negs0 negs : list string)
        (patternList : list FilesCodeLens.PatternItem) :
  collectPatterns nodes negs0 [] = (Some patternList, negs) ->
  collectPatterns
    (filter (fun node => negb (Resolved.isNegatedNode node)) nodes) negs0 []
  = (Some (filter Items.positive patternList), negs0)
  /\ forall settled settled',
       Permutation settled patternList ->
       Permutation settled' (filter Items.positive patternList) ->
       incl (allFiles flag root negs settled)
            (allFiles flag root negs0 settled')
       /\ forall path, In path (totalFilesOf negs settled) ->
            exists item, In item patternList
                         /\ FilesCodeLens.isNegated item = false
                         /\ In path (expand negs item).
Proof.
  intros Hcollect.
  destruct (collectPatterns_inv _ _ _ _ _ Hcollect)
    as (items & Hitems & Hlist & ->).
  simpl in Hlist. subst patternList.
  pose proof (itemsOf_negated _ _ Hitems) as Hwf.
  split.
  - rewrite (collectPatterns_items _ _ (itemsOf_positive _ _ Hitems)).
    now rewrite negatedPatterns_positive, app_nil_r.
  - intros settled settled' Hperm Hperm'.
    assert (Hfrom : forall path,
               In path (totalFilesOf (negs0 ++ Resolved.negatedPatterns items)
                                     settled) ->
               exists item, In item items
                            /\ FilesCodeLens.isNegated item = false
                            /\ In path (expand (negs0 ++ Resolved.negatedPatterns items) item)).
    { intros path Hin. apply In_totalFilesOf in Hin.
      destruct Hin as (item & Hin & Hpos & Hp). exists item.
      split; [exact (Permutation_in _ Hperm Hin) | auto]. }
    split; [| exact Hfrom].
    intros path Hin. apply In_allFiles in Hin. apply In_allFiles.
    destruct Hin as [Hin | Hin]; [left | now right].
    destruct (Hfrom path Hin) as (item & Hitem & Hpos & Hp).
    apply In_totalFilesOf. exists item. split; [| split; [exact Hpos |]].
    + apply (Permutation_in _ (Permutation_sym Hperm')).
      apply filter_In. split; [exact Hitem |].
      unfold Items.positive. now rewrite Hpos.
    + apply In_expand in Hp. destruct Hp as (f & -> & Hf & Hsel).
      apply In_expand. exists f. split; [reflexivity |]. split; [exact Hf |].
      unfold FilesCodeLens.patternsOf in *. rewrite Hpos in *.
      rewrite app_comm_cons, <- app_assoc in Hsel.
      apply selects_without in Hsel; [exact Hsel |].
      now apply negatedPatterns_negative.
Qed.

(** C9.  Whatever the order in which the expansions settle, the [all]
    lens gets the same files, each once: two orders give lists that
    are permutations of each other.  The merge of one expansion only
    grows [totalFiles], is idempotent, and commutes with the merge of
    another up to the order of the members. *)
Theorem completion_order_is_irrelevant
        (flag : bool) (root : Jsonc.Node) (negs : list string)
        (patternList settled settled' : list FilesCodeLens.PatternItem) :
  Permutation settled patternList ->
  Permutation settled' patternList ->
  Permutation (allFiles flag root negs settled)
              (allFiles flag root negs settled')
  /\ NoDup (allFiles flag root negs settled)
  /\ (forall total item, incl total (settle negs total item))
  /\ (forall total item,
        settle negs (settle negs total item) item = settle negs total item)
  /\ (forall total a b, NoDup total ->
        Permutation (settle negs (settle negs total a) b)
                    (settle negs (settle negs total b) a)).
Proof.
  intros Hperm Hperm'.
  assert (Hboth : Permutation settled settled')
    by (eapply Permutation_trans; [exact Hperm | now apply Permutation_sym]).
  split; [| split; [apply NoDup_allFiles |
            split; [apply settle_monotonic |
            split; [apply settle_idempotent | apply settle_commutative]]]].
  apply NoDup_Permutation; try apply NoDup_allFiles.
  intros path. rewrite !In_allFiles, !In_totalFilesOf.
  split; (intros [(item & Hin & Hrest) | H]; [left | now right]);
    exists item; (split; [| exact Hrest]).
  - exact (Permutation_in _ Hboth Hin).
  - exact (Permutation_in _ (Permutation_sym Hboth) Hin).
Qed.

(** *** Default probing *)

Lemma candidatesOf_names (file : string) :
  candidatesOf file = map resolveInCwd (Resolved.candidateNames file).
Proof. reflexivity. Qed.

Lemma defaultHit_md (file : string) :
  Notions.simpleName file = true -> Js.endsWith ".md" file = true ->
  defaultHit file = find (Fs.pathExists fs) (candidatesOf file).
Proof.
  intros Hs He. unfold Resolved.defaultHit, FilesCodeLens.resolveInCwd.
  now rewrite (resolve_simple_endsWith _ _ _ _ Hs He).
Qed.

Lemma defaultHit_name (file path : string) :
  defaultHit file = Some path ->
  exists name, In name (Resolved.candidateNames file)
               /\ path = resolveInCwd name.
Proof.
  unfold Resolved.defaultHit.
  destruct (Js.endsWith ".md" (resolveInCwd file)).
  - intros H. apply find_some in H. destruct H as [H _].
    rewrite candidatesOf_names in H. apply in_map_iff in H.
    destruct H as (name & <- & Hin). now exists name.
  - destruct (Fs.pathExists fs (resolveInCwd file)); [| discriminate].
    intros [= <-]. exists file. split; [now left | reflexivity].
Qed.

Lemma Readme_md_is_no_default (file : string) :
  In file FilesCodeLens.defaultIncludedFiles ->
  defaultHit file <> Some (resolveInCwd "Readme.md").
Proof.
  intros Hfile Hhit. apply defaultHit_name in Hhit.
  destruct Hhit as (name & Hname & Heq).
  assert (Hall : forallb (fun n => Notions.simpleName n
                                   && negb (String.eqb n "Readme.md"))
                   (flat_map Resolved.candidateNames
                             FilesCodeLens.defaultIncludedFiles) = true)
    by reflexivity.
  rewrite forallb_forall in Hall.
  specialize (Hall name (proj2 (in_flat_map _ _ _)
                               (ex_intro _ file (conj Hfile Hname)))).
  apply andb_true_iff in Hall. destruct Hall as [Hsimple Hother].
  apply negb_true_iff, String.eqb_neq in Hother. apply Hother.
  symmetry.
  now apply (resolve_simple_inj processCwd cwd "Readme.md" name).
Qed.

(** C2, as the code has it.  With [includeDefaultPackedFiles] set, the
    probing for [README.md] tries, in this order, [README.md],
    [README], [readme.md] and [readme] in the directory of the
    manifest and adds the first that [pathExists] finds, and nothing
    after it; the same holds for the two licence entries.  No path is
    in the resolved files more than once.  When [readme.md] exists and
    neither [README.md] nor [README] does, [readme.md] is in the
    resolved files exactly once.  [Readme.md] is not among the
    candidates: it is in the resolved files only when a pattern
    expansion put it there. *)
Theorem readme_probing_first_hit
        (root : Jsonc.Node) (negs : list string)
        (settled : list FilesCodeLens.PatternItem) :
  candidatesOf "README.md"
  = [resolveInCwd "README.md"; resolveInCwd "README";
     resolveInCwd "readme.md"; resolveInCwd "readme"]
  /\ (forall file total,
        In file ["README.md"; "LICENSE.md"; "LICENCE.md"] ->
        addDefault total file
        = match find (Fs.pathExists fs) (candidatesOf file) with
          | Some hit => Js.add total hit
          | None => total
          end)
  /\ (forall path,
        count_occ string_dec (allFiles true root negs settled) path <= 1)
  /\ (Fs.pathExists fs (resolveInCwd "README.md") = false ->
      Fs.pathExists fs (resolveInCwd "README") = false ->
      Fs.pathExists fs (resolveInCwd "readme.md") = true ->
      count_occ string_dec (allFiles true root negs settled)
                (resolveInCwd "readme.md") = 1)
  /\ (In (resolveInCwd "Readme.md") (allFiles true root negs settled) <->
      In (resolveInCwd "Readme.md") (totalFilesOf negs settled)).
Proof.
  split; [reflexivity |]. split; [| split; [| split]].
  - intros file total Hfile. rewrite addDefault_hit.
    destruct Hfile as [<- | [<- | [<- | []]]];
      now rewrite defaultHit_md.
  - intros path. revert path. apply NoDup_count_occ, NoDup_allFiles.
  - intros H1 H2 H3.
    apply (proj1 (NoDup_count_occ' string_dec _) (NoDup_allFiles _ _ _ _)).
    apply In_allFiles. right. split; [reflexivity |].
    exists "README.md". split; [right; now left |].
    rewrite defaultHit_md by reflexivity.
    change (candidatesOf "README.md")
      with [resolveInCwd "README.md"; resolveInCwd "README";
            resolveInCwd "readme.md"; resolveInCwd "readme"].
    cbn [find]. now rewrite H1, H2, H3.
  - rewrite In_allFiles. split; [| auto].
    intros [H | (_ & file & Hfile & Hhit)]; [exact H |].
    now destruct (Readme_md_is_no_default file Hfile).
Qed.


Section Abort.
Variable includeDefaultPackedFiles : bool.
Variable positionAt : nat -> FilesCodeLens.Position.
Variable superGetCodeLenses :
  FilesCodeLens.Provider -> FilesCodeLens.Provider.
Variable completionOrder :
  list FilesCodeLens.PatternItem -> list FilesCodeLens.PatternItem.

Local Abbreviation getCodeLenses :=
  (FilesCodeLens.getCodeLenses processCwd cwd globMatch files fs
     includeDefaultPackedFiles positionAt jsoncStringNodeToRange
     superGetCodeLenses completionOrder).

(** C7.  When an item of the [files] array is not a string node, the
    call returns [undefined] and records no lens: the map is as
    [super.getCodeLenses] left it. *)
Theorem getCodeLenses_aborts_on_non_string
        (this : FilesCodeLens.Provider) (root filesPropertyNode : Jsonc.Node)
        (ref : Jsonc.NodeRef) (node : Jsonc.AnyNode) :
  Jsonc.findNodeAtLocation root ["files"] = Some (ref, filesPropertyNode) ->
  In node (Jsonc.children (Jsonc.AValue filesPropertyNode)) ->
  Jsonc.nodeType node <> Jsonc.TString ->
  fst (getCodeLenses this (Some root)) = None
  /\ FilesCodeLens._codeLensDataMap (snd (getCodeLenses this (Some root)))
     = FilesCodeLens._codeLensDataMap (superGetCodeLenses this).
Proof.
  intros Hfiles Hin Htype. unfold FilesCodeLens.getCodeLenses.
  rewrite Hfiles.
  destruct (Jsonc.children (Jsonc.AValue filesPropertyNode))
    as [| first rest] eqn:Echildren; [destruct Hin |].
  pose proof (collectPatterns_abort (first :: rest)
                (ex_intro _ node (conj Hin Htype))
                (FilesCodeLens._negativePatterns (superGetCodeLenses this))
                []) as Habort.
  destruct (collectPatterns (first :: rest)
              (FilesCodeLens._negativePatterns (superGetCodeLenses this)) [])
    as [[patternList |] negs]; [discriminate Habort |].
  split; reflexivity.
Qed.

End Abort.

End CodeLensFacts.

(** ** The properties on concrete packages *)

Lemma Package_files_distinct (f g : string) :
  In f Package.files -> In g Package.files ->
  FilesCodeLens.resolveInCwd "/" Package.cwd f
  = FilesCodeLens.resolveInCwd "/" Package.cwd g ->
  f = g.
Proof.
  unfold Package.files. simpl.
  intros [<- | [<- | [<- | [<- | [<- | []]]]]]
         [<- | [<- | [<- | [<- | [<- | []]]]]] Heq;
    try reflexivity; vm_compute in Heq; discriminate Heq.
Qed.

(** The example of the specification: with [lib/**] and
    [!lib/*.test.js], in either order, [lib/index.js] is resolved and
    [lib/index.test.js] is not. *)
Example lib_without_tests :
  let result :=
    Package.getCodeLenses false (fun l => l) Package.freshProvider
                          (Some Package.libManifest) in
  Resolved.allLensFiles (FilesCodeLens._codeLensDataMap (snd result))
  = [["/pkg/lib/index.js"]]
  /\ Resolved.includeLensFiles (FilesCodeLens._codeLensDataMap (snd result))
     = [["/pkg/lib/index.js"]].
Proof. split; reflexivity. Qed.

(** C1, counterexample to the statement for the [all] lens.  With
    [includeDefaultPackedFiles] set
    and the array [["index.js", "!package.json"]], the files of the [all]
    lens hold [package.json], a file the negated pattern matches: the
    default files are added after the patterns were applied. *)
Lemma default_files_override_negation :
  let result :=
    Package.getCodeLenses true (fun l => l) Package.freshProvider
                          (Some Package.negatedManifest) in
  Resolved.allLensFiles (FilesCodeLens._codeLensDataMap (snd result))
  = [["/pkg/index.js"; "/pkg/package.json"]]
  /\ In "package.json" Package.files
  /\ FilesCodeLens.resolveInCwd "/" Package.cwd "package.json"
     = "/pkg/package.json"
  /\ Resolved.excludedBy Demo.glob Package.notPackageJson "package.json".
Proof. repeat split; try reflexivity. now left. Qed.

Lemma negation_is_global_witness :
  FilesCodeLens.collectPatterns Package.jsoncStringNodeToRange
    (Jsonc.children
       (Jsonc.AValue (Jsonc.NArray 9 28
                        [Jsonc.NString 10 10 "index.js";
                         Jsonc.NString 21 15 "!package.json"])))
    [] []
  = (Some [Package.indexJs; Package.notPackageJson], ["!package.json"])
  /\ Resolved.excludedBy Demo.glob Package.notPackageJson "package.json"
  /\ ~ In "/pkg/package.json"
          (FilesCodeLens.expand "/" Package.cwd Demo.glob Package.files
             ["!package.json"] Package.indexJs)
  /\ ~ In "/pkg/package.json"
          (FilesCodeLens.allFiles "/" Package.cwd Demo.glob Package.files
             Package.volume false Package.negatedManifest ["!package.json"]
             [Package.indexJs; Package.notPackageJson]).
Proof.
  split; [reflexivity |]. split; [split; reflexivity |].
  destruct (negation_is_global "/" Package.cwd Demo.glob Package.files
              Package.volume Package.jsoncStringNodeToRange false
              Package.negatedManifest
              [Jsonc.AValue (Jsonc.NString 10 10 "index.js");
               Jsonc.AValue (Jsonc.NString 21 15 "!package.json")]
              [] ["!package.json"]
              [Package.indexJs; Package.notPackageJson]
              [Package.indexJs; Package.notPackageJson]
              Package.notPackageJson "package.json"
              eq_refl (incl_refl _) Package_files_distinct
              (or_intror (or_introl eq_refl)) (or_introl eq_refl)
              (conj eq_refl eq_refl))
    as (Hexpand & _ & Hall & _).
  split.
  - exact (Hexpand Package.indexJs (or_introl eq_refl) eq_refl).
  - exact (Hall eq_refl).
Defined.

(** C2, counterexample to the statement on [Readme.md].  The package
    holds [Readme.md] and no
    [README.md]; on its case-insensitive volume [README.md] is even
    accessible.  With [includeDefaultPackedFiles] set and the array
    [["index.js"]], the files of the [all] lens are [index.js] and
    [package.json]: [Readme.md] is not among them. *)
Lemma Readme_md_is_not_probed :
  let result :=
    Package.getCodeLenses true (fun l => l) Package.freshProvider
                          (Some Package.plainManifest) in
  Fs.pathExists Package.volume "/pkg/Readme.md" = true
  /\ Fs.access Package.volume "/pkg/README.md" = true
  /\ Fs.pathExists Package.volume "/pkg/README.md" = false
  /\ Resolved.allLensFiles (FilesCodeLens._codeLensDataMap (snd result))
     = [["/pkg/index.js"; "/pkg/package.json"]]
  /\ count_occ string_dec
       (concat (Resolved.allLensFiles
                  (FilesCodeLens._codeLensDataMap (snd result))))
       "/pkg/Readme.md" = 0.
Proof. repeat split; reflexivity. Qed.

(** With [readme.md] in the package instead, the probing finds it. *)
Example readme_md_is_probed :
  let volume :=
    Demo.volume true
      [("/pkg", ["package.json"; "readme.md"; "index.js"])] in
  FilesCodeLens.allFiles "/" Package.cwd Demo.glob
    ["package.json"; "readme.md"; "index.js"] volume true
    Package.plainManifest [] [Package.indexJs]
  = ["/pkg/index.js"; "/pkg/package.json"; "/pkg/readme.md"].
Proof. reflexivity. Qed.

Lemma negation_only_narrows_witness :
  FilesCodeLens.collectPatterns Package.jsoncStringNodeToRange
    [Jsonc.AValue (Jsonc.NString 10 10 "index.js");
     Jsonc.AValue (Jsonc.NString 21 15 "!package.json")] [] []
  = (Some [Package.indexJs; Package.notPackageJson], ["!package.json"])
  /\ incl (FilesCodeLens.allFiles "/" Package.cwd Demo.glob Package.files
             Package.volume true Package.negatedManifest ["!package.json"]
             [Package.notPackageJson; Package.indexJs])
          (FilesCodeLens.allFiles "/" Package.cwd Demo.glob Package.files
             Package.volume true Package.negatedManifest []
             [Package.indexJs]).
Proof.
  split; [reflexivity |].
  destruct (negation_only_narrows "/" Package.cwd Demo.glob Package.files
              Package.volume Package.jsoncStringNodeToRange true
              Package.negatedManifest
              [Jsonc.AValue (Jsonc.NString 10 10 "index.js");
               Jsonc.AValue (Jsonc.NString 21 15 "!package.json")]
              [] ["!package.json"]
              [Package.indexJs; Package.notPackageJson] eq_refl)
    as [_ Hnarrow].
  exact (proj1 (Hnarrow [Package.notPackageJson; Package.indexJs]
                        [Package.indexJs]
                        (perm_swap _ _ _) (Permutation_refl _))).
Defined.

(** Two orders of settling give the same files in different orders. *)
Example two_completion_orders :
  FilesCodeLens.allFiles "/" Package.cwd Demo.glob Package.files
    Package.volume true Package.libManifest []
    [Package.indexJs; Package.libAll]
  = ["/pkg/index.js"; "/pkg/lib/index.js"; "/pkg/lib/index.test.js";
     "/pkg/package.json"]
  /\ FilesCodeLens.allFiles "/" Package.cwd Demo.glob Package.files
       Package.volume true Package.libManifest []
       [Package.libAll; Package.indexJs]
     = ["/pkg/lib/index.js"; "/pkg/lib/index.test.js"; "/pkg/index.js";
        "/pkg/package.json"].
Proof. split; reflexivity. Qed.

Lemma completion_order_is_irrelevant_witness :
  Permutation
    (FilesCodeLens.allFiles "/" Package.cwd Demo.glob Package.files
       Package.volume true Package.libManifest []
       [Package.indexJs; Package.libAll])
    (FilesCodeLens.allFiles "/" Package.cwd Demo.glob Package.files
       Package.volume true Package.libManifest []
       [Package.libAll; Package.indexJs]).
Proof.
  exact (proj1 (completion_order_is_irrelevant "/" Package.cwd Demo.glob
                  Package.files Package.volume true Package.libManifest []
                  [Package.indexJs; Package.libAll]
                  [Package.indexJs; Package.libAll]
                  [Package.libAll; Package.indexJs]
                  (Permutation_refl _) (perm_swap _ _ _))).
Defined.

Lemma getCodeLenses_aborts_on_non_string_witness :
  let result :=
    Package.getCodeLenses true (fun l => l) Package.freshProvider
                          (Some Package.malformedManifest) in
  fst result = None
  /\ FilesCodeLens._codeLensDataMap (snd result) = [].
Proof.
  exact (getCodeLenses_aborts_on_non_string "/" Package.cwd Demo.glob
           Package.files Package.volume Package.jsoncStringNodeToRange true
           Package.positionAt Package.superGetCodeLenses (fun l => l)
           Package.freshProvider Package.malformedManifest
           (Jsonc.NArray 9 14
              [Jsonc.NString 10 10 "index.js"; Jsonc.NNumber 21 1])
           [0; 1] (Jsonc.AValue (Jsonc.NNumber 21 1))
           eq_refl (or_intror (or_introl eq_refl))
           ltac:(discriminate)).
Defined.

(** The walk from [/p/src/index.js] finds the package installed at the
    root of the project, and returns nothing for one that is not
    installed. *)
Example findPkgInstallDir_lodash :
  Pkg.findPkgInstallDir "/" Package.project Package.getRoot 8
                        "lodash" "/p/src/index.js"
  = Some (Pkg.Returns (Some "/p/node_modules/lodash"))
  /\ Pkg.findPkgInstallDir "/" Package.project Package.getRoot 8
                           "react" "/p/src/index.js"
     = Some (Pkg.Returns None)
  /\ Pkg.findPkgInstallDir "/" Package.project Package.getRoot 8
                           "lodash" "/p/src/missing.js"
     = Some Pkg.Throws.
Proof. repeat split; reflexivity. Qed.

(** C3, counterexample to the statement for every starting path.  A
    starting path that does not exist: [realpath] rejects, and so
    does the call, whatever the number of levels it is given; it
    returns neither the directory of [lodash], installed one level
    above the directory of the path, nor nothing for [react], installed
    nowhere. *)
Lemma findPkgInstallDir_rejects_unresolved_start :
  Fs.realpath Package.project "/p/src/missing.js" = None
  /\ Notions.ancestor 1 (Path.dirname "/p/src/missing.js") = "/p"
  /\ Installed.holds Package.project "lodash" "/p"
  /\ (forall fuel,
        Pkg.findPkgInstallDir "/" Package.project Package.getRoot fuel
                              "lodash" "/p/src/missing.js"
        = Some Pkg.Throws)
  /\ (forall fuel,
        Pkg.findPkgInstallDir "/" Package.project Package.getRoot fuel
                              "react" "/p/src/missing.js"
        = Some Pkg.Throws).
Proof.
  split; [reflexivity |]. split; [reflexivity |].
  split; [split; reflexivity |].
  split; intros fuel; reflexivity.
Qed.


Lemma findPkgInstallDir_nearest_witness :
  Fs.realpath Package.project "/p/src/index.js" = Some "/p/src/index.js"
  /\ Path.resolve "/" ["/p/src/index.js"] = "/p/src/index.js"
  /\ Notions.ancestor 2 (Path.dirname "/p/src/index.js")
     = Package.getRoot "/p/src/index.js"
  /\ Pkg.findPkgInstallDir "/" Package.project Package.getRoot 3
                           "lodash" "/p/src/index.js"
     = Some (Pkg.Returns (Some "/p/node_modules/lodash"))
  /\ exists n,
       Installed.upTo "/" "/p/src" n
       /\ "/p/node_modules/lodash"
          = (Notions.prefixOf (Notions.ancestor n "/p/src")
             ++ "/node_modules/" ++ "lodash")%string
       /\ Fs.pathExists Package.project "/p/node_modules/lodash" = true
       /\ Fs.pathExists Package.project
            ("/p/node_modules/lodash" ++ "/package.json") = true
       /\ forall m, m < n ->
            ~ Installed.holds Package.project "lodash"
                (Notions.ancestor m "/p/src").
Proof.
  split; [reflexivity |]. split; [reflexivity |]. split; [reflexivity |].
  split; [reflexivity |].
  destruct (findPkgInstallDir_nearest "/" Package.project Package.getRoot
              "lodash" "/p/src/index.js" "/p/src/index.js" 2
              eq_refl eq_refl eq_refl eq_refl eq_refl)
    as (result & Hcall & _ & Hfound).
  exact (Hfound "/p/node_modules/lodash"
           (f_equal (fun outcome =>
                       match outcome with
                       | Some (Pkg.Returns r) => r
                       | _ => None
                       end) (eq_sym Hcall))).
Defined.

Lemma findPkgInstallDir_returns_below_root_witness :
  exists result,
    Pkg.findPkgInstallDir "/" Package.project Package.getRoot
                          (String.length "/p/src/index.js")
                          "react" "/p/src/index.js"
    = Some (Pkg.Returns result).
Proof.
  exact (findPkgInstallDir_returns_below_root "/" Package.project
           Package.getRoot "react" "/p/src/index.js" "/p/src/index.js"
           eq_refl eq_refl eq_refl).
Defined.

Lemma locate_match_only_on_dependency_key_witness :
  Jsonc.findNodeAtOffset Manifests.withDependency 18 = Some [0; 1; 0; 0].
Proof.
  destruct (locate_match_only_on_dependency_key (fun _ => true)
              Manifests.withDependency 18
              {| Pkg.nameNode := [0; 1; 0; 0];
                 Pkg.versionNode := [0; 1; 0; 1];
                 Pkg.name := "lodash";
                 Pkg.version := "^4.17.21" |} eq_refl)
    as (parent & nameNode & versionNode & parentNode & Hfind & _).
  exact Hfind.
Defined.

(** ** The logger *)

Section LoggerFacts.

Lemma callOn_at (before after : Logger.Window) (ch : Logger.OutputChannel)
      (call : Logger.ChannelCall) :
  Logger.callOn (length before) call (before ++ ch :: after)
  = before
    ++ {| Logger.channelName := Logger.channelName ch;
          Logger.languageId := Logger.languageId ch;
          Logger.calls := Logger.calls ch ++ [call] |} :: after.
Proof.
  induction before as [| b before IH]; simpl; [reflexivity |].
  now rewrite IH.
Qed.

(** Once the channel exists, every use goes to it and to no other. *)
Lemma run_created (uses : list Logger.Use) :
  forall (this : Logger.Logger) (before after : Logger.Window)
         (ch : Logger.OutputChannel),
    Logger.channel this = Some (length before) ->
    Logger.run uses (this, before ++ ch :: after)
    = (this,
       before
       ++ {| Logger.channelName := Logger.channelName ch;
             Logger.languageId := Logger.languageId ch;
             Logger.calls := Logger.calls ch
                             ++ Logger.expectedCalls true uses |} :: after).
Proof.
  induction uses as [| use uses IH]; intros this before after ch Hch.
  - simpl. rewrite app_nil_r. now destruct ch.
  - unfold Logger.run in *. cbn [fold_left].
    assert (Hstep : Logger.step (this, before ++ ch :: after) use
                    = (this,
                       before
                       ++ {| Logger.channelName := Logger.channelName ch;
                             Logger.languageId := Logger.languageId ch;
                             Logger.calls := Logger.calls ch
                                             ++ Logger.callsOf true use |}
                          :: after)).
    { destruct use as [[] m [] | [] m [] |]; cbn [Logger.step fst snd];
        unfold Logger.info, Logger.error, Logger.dispose, Logger._output;
        cbn [negb]; rewrite ?Hch; rewrite ?callOn_at; cbn;
        rewrite ?callOn_at; cbn; rewrite <- ?app_assoc; cbn;
        rewrite ?app_nil_r; try reflexivity; now destruct ch. }
    rewrite Hstep, (IH this before after _ Hch). cbn.
    now rewrite <- app_assoc.
Qed.


(** X4.  A logger that has no channel yet creates it at the first
    [info] or [error] issued while logging is enabled, and never creates
    another: after any uses, either nothing was written and the window
    is as before, or the window has exactly one more channel, named
    [Package Manager Enhancer <name>] (trimmed), that received every
    line, [show] and [dispose] in the order of the uses.  A [dispose]
    does not detach the channel: later lines still go to it.  Channels
    that existed before are never touched. *)
Theorem logger_single_lazy_channel
        (name language : string) (uses : list Logger.Use)
        (window : Logger.Window) :
  Logger.run uses (Logger.newLogger name language, window)
  = if existsb Logger.writes uses then
      ({| Logger.name := name; Logger.language := language;
          Logger.channel := Some (length window) |},
       window
       ++ [{| Logger.channelName :=
                Logger.trim ("Package Manager Enhancer" ++ " " ++ name)%string;
              Logger.languageId := language;
              Logger.calls := Logger.expectedCalls false uses |}])
    else (Logger.newLogger name language, window).
Proof.
  induction uses as [| use uses IH]; [reflexivity |].
  destruct (Logger.writes use) eqn:Hwrites.
  - cbn [existsb]. rewrite Hwrites. cbn [orb].
    unfold Logger.run. cbn [fold_left].
    assert (Hstep :
              Logger.step (Logger.newLogger name language, window) use
              = ({| Logger.name := name; Logger.language := language;
                    Logger.channel := Some (length window) |},
                 window
                 ++ {| Logger.channelName :=
                         Logger.trim ("Package Manager Enhancer" ++ " " ++ name)%string;
                       Logger.languageId := language;
                       Logger.calls := Logger.callsOf false use |} :: [])).
    { destruct use as [e m a | e m a |]; cbn in Hwrites; subst;
        try discriminate; cbn [Logger.step fst snd];
        unfold Logger.info, Logger.error, Logger._output, Logger._initChannel;
        cbn [negb Logger.newLogger Logger.channel Logger.name Logger.language];
        rewrite callOn_at; destruct a; cbn; rewrite ?callOn_at; reflexivity. }
    rewrite Hstep.
    fold (Logger.run uses
            ({| Logger.name := name; Logger.language := language;
                Logger.channel := Some (length window) |},
             window
             ++ {| Logger.channelName :=
                     Logger.trim ("Package Manager Enhancer" ++ " " ++ name)%string;
                   Logger.languageId := language;
                   Logger.calls := Logger.callsOf false use |} :: [])).
    rewrite run_created by reflexivity.
    cbn [Logger.expectedCalls Logger.channelName Logger.languageId
         Logger.calls]. rewrite Hwrites. reflexivity.
  - cbn [existsb]. rewrite Hwrites. cbn [orb].
    assert (Hstep :
              Logger.step (Logger.newLogger name language, window) use
              = (Logger.newLogger name language, window)).
    { destruct use as [e m a | e m a |]; cbn in Hwrites; subst; reflexivity. }
    unfold Logger.run in *. cbn [fold_left]. rewrite Hstep, IH.
    cbn [Logger.expectedCalls]. rewrite Hwrites. cbn [orb].
    assert (Hnone : Logger.callsOf false use = []).
    { destruct use as [e m a | e m a |]; cbn in Hwrites; subst; reflexivity. }
    now rewrite Hnone.
Qed.

(** After [dispose], a further line is appended to the disposed
    channel. *)
Example logger_writes_after_dispose :
  snd (Logger.run [Logger.UseInfo true "a" false; Logger.UseDispose;
                   Logger.UseError true "b" true]
                  (Logger.logger, []))
  = [{| Logger.channelName := "Package Manager Enhancer";
        Logger.languageId := "log";
        Logger.calls :=
          [Logger.Append ("[INFO] a" ++ String "010"%char "");
           Logger.DisposeChannel;
           Logger.Append ("[ERROR] b" ++ String "010"%char "");
           Logger.Show] |}].
Proof. reflexivity. Qed.

End LoggerFacts.

(** ** The hover contents *)

Section HoverContentFacts.
Variable hostedHttps : string -> option string.
Variable trimLeftSlash : string -> string.
Variable spacing : nat -> string.
Variable formatSize : nat -> string.
Variable pathJoin : string -> string -> string.
Variable encodeURIComponent : string -> string.
Variable uriToString : string -> string.

Local Abbreviation githubUserAndRepo :=
  (Hover.githubUserAndRepo hostedHttps trimLeftSlash).
Local Abbreviation githubStar := (Hover.githubStar hostedHttps trimLeftSlash).
Local Abbreviation githubIssueCount :=
  (Hover.githubIssueCount hostedHttps trimLeftSlash).
Local Abbreviation badges := (Hover.badges hostedHttps trimLeftSlash).
Local Abbreviation badgesInfo :=
  (Hover.badgesInfo hostedHttps trimLeftSlash spacing).
Local Abbreviation generate :=
  (Hover.generate hostedHttps trimLeftSlash spacing formatSize pathJoin
                  encodeURIComponent uriToString).

Lemma startsWith_split (p : string) :
  forall s, Js.startsWith p s = true -> exists rest, s = (p ++ rest)%string.
Proof.
  unfold Js.startsWith.
  induction p as [| c p IH]; intros s H.
  - now exists s.
  - destruct s as [| d s]; [discriminate |].
    cbn [prefix] in H. destruct (ascii_dec c d) as [<- | _]; [| discriminate].
    destruct (IH s H) as [rest ->]. now exists rest.
Qed.

Lemma startsWith_append (p rest : string) :
  Js.startsWith p (p ++ rest)%string = true.
Proof.
  unfold Js.startsWith. induction p as [| c p IH]; [now destruct rest |].
  cbn [append prefix]. destruct (ascii_dec c c); [exact IH | congruence].
Qed.

Lemma splitFrom_length (s cur : string) : 1 <= length (Path.splitFrom cur s).
Proof.
  revert cur. induction s as [| c s IH]; intros cur; simpl; [lia |].
  destruct (Ascii.eqb c Path.slash); simpl; [lia | apply IH].
Qed.

Lemma lastTwo_two {A : Type} (xs : list A) :
  2 <= length xs -> exists a b, Hover.lastTwo xs = [a; b].
Proof.
  intros H. unfold Hover.lastTwo.
  assert (Hlen : length (skipn (length xs - 2) xs) = 2)
    by (rewrite length_skipn; lia).
  destruct (skipn (length xs - 2) xs) as [| a [| b [| c l]]];
    simpl in Hlen; try lia.
  now exists a, b.
Qed.

Lemma lastTwo_app {A : Type} (xs : list A) (a b : A) :
  Hover.lastTwo (xs ++ [a; b]) = [a; b].
Proof.
  unfold Hover.lastTwo. rewrite length_app. simpl.
  replace (length xs + 2 - 2) with (length xs + 0) by lia.
  rewrite skipn_app, Nat.add_0_r, skipn_all.
  replace (length xs - length xs) with 0 by lia. reflexivity.
Qed.

(** A URL that starts with [https://github] has at least three
    segments, so its last two, joined, are never empty. *)
Lemma lastTwoSegments_github (url : string) :
  Js.startsWith "https://github" url = true ->
  Js.truthy (Some (Hover.lastTwoSegments url)) = true.
Proof.
  intros H. apply startsWith_split in H. destruct H as [rest ->].
  unfold Hover.lastTwoSegments.
  destruct (lastTwo_two (Path.split ("https://github" ++ rest))) as (a & b & ->).
  - unfold Path.split. cbn. pose proof (splitFrom_length rest "github"). lia.
  - cbn. destruct a; reflexivity.
Qed.

(** The last two segments of [.../user/repo]. *)
Lemma lastTwoSegments_user_repo (before user repo : string) :
  Notions.noSlash user = true -> Notions.noSlash repo = true ->
  Hover.lastTwoSegments (before ++ "/" ++ user ++ "/" ++ repo)
  = (user ++ "/" ++ repo)%string.
Proof.
  intros Hu Hr. unfold Hover.lastTwoSegments, Path.split.
  change (before ++ "/" ++ user ++ "/" ++ repo)%string
    with (before ++ String Path.slash (user ++ String Path.slash repo))%string.
  rewrite !splitFrom_append, (splitFrom_noSlash _ _ Hu),
    (splitFrom_noSlash _ _ Hr).
  cbn [append app]. now rewrite lastTwo_app.
Qed.

Lemma githubUserAndRepo_unfold (info : Hover.Info) :
  githubUserAndRepo info
  = if HoverContents.isBuiltinModule (Hover.packageInfo info) then None
    else
      match HoverContents.repositoryFieldUrl hostedHttps trimLeftSlash
              (HoverContents.packageJson (Hover.packageInfo info)) with
      | Some r => if Js.startsWith "https://github" r
                  then Some (Hover.lastTwoSegments r) else None
      | None => None
      end.
Proof. reflexivity. Qed.

Lemma githubUserAndRepo_truthy (info : Hover.Info) (userAndRepo : string) :
  githubUserAndRepo info = Some userAndRepo ->
  Js.truthy (Some userAndRepo) = true.
Proof.
  rewrite githubUserAndRepo_unfold.
  destruct (HoverContents.isBuiltinModule (Hover.packageInfo info));
    [discriminate |].
  destruct (HoverContents.repositoryFieldUrl hostedHttps trimLeftSlash
              (HoverContents.packageJson (Hover.packageInfo info)))
    as [r |]; [| discriminate].
  destruct (Js.startsWith "https://github" r) eqn:E; [| discriminate].
  intros [= <-]. now apply lastTwoSegments_github.
Qed.


(** X5.  For a package that is no built-in module and whose repository
    field yields [https://github<host>/<user>/<repo>], with no
    separator in [<user>] and [<repo>], [githubUserAndRepo] is
    [<user>/<repo>], and the stars and issues badges link to
    [https://github.com/<user>/<repo>]. *)
Theorem githubUserAndRepo_of_repository
        (info : Hover.Info) (host user repo : string) :
  HoverContents.isBuiltinModule (Hover.packageInfo info) = false ->
  HoverContents.repositoryFieldUrl hostedHttps trimLeftSlash
    (HoverContents.packageJson (Hover.packageInfo info))
  = Some (("https://github" ++ host) ++ "/" ++ user ++ "/" ++ repo)%string ->
  Notions.noSlash user = true -> Notions.noSlash repo = true ->
  githubUserAndRepo info = Some (user ++ "/" ++ repo)%string
  /\ githubStar info
     = Some ("[![GitHub Repo stars](https://img.shields.io/github/stars/"
             ++ (user ++ "/" ++ repo)
             ++ ")](https://github.com/" ++ (user ++ "/" ++ repo) ++ ")")%string
  /\ githubIssueCount info
     = Some ("[![GitHub Issues](https://img.shields.io/github/issues-raw/"
             ++ (user ++ "/" ++ repo)
             ++ "?label=issues)](https://github.com/"
             ++ (user ++ "/" ++ repo) ++ "/issues)")%string.
Proof.
  intros Hbuiltin Hurl Hu Hr.
  assert (Hgit : githubUserAndRepo info = Some (user ++ "/" ++ repo)%string).
  { rewrite githubUserAndRepo_unfold, Hbuiltin, Hurl.
    rewrite (lastTwoSegments_user_repo _ _ _ Hu Hr).
    now rewrite append_assoc, startsWith_append. }
  pose proof (githubUserAndRepo_truthy _ _ Hgit) as Htruthy.
  split; [exact Hgit |].
  unfold Hover.githubStar, Hover.githubIssueCount.
  rewrite Hgit, Htruthy. split; reflexivity.
Qed.

Lemma badges_shape (info : Hover.Info) :
  badges info
  = Hover.latestVersion info :: Hover.downloadCountPerWeek info
    :: match githubStar info, githubIssueCount info with
       | Some star, Some issues => [star; issues]
       | _, _ => []
       end.
Proof.
  unfold Hover.badges, Hover.filterTruthy. cbn [flat_map].
  unfold Hover.githubStar, Hover.githubIssueCount.
  destruct (githubUserAndRepo info) as [g |] eqn:E; [| reflexivity].
  rewrite (githubUserAndRepo_truthy _ _ E). reflexivity.
Qed.

(** X6.  [badgesInfo] always carries the latest-version and the weekly
    downloads badge, built-in module or not.  The GitHub stars and
    issues badges come together or not at all, exactly when
    [githubUserAndRepo] is defined, that is, for a package that is no
    built-in module and whose repository field yields a URL starting
    with [https://github]: there are two badges or four. *)
Theorem badges_two_or_four (info : Hover.Info) :
  badges info
  = Hover.latestVersion info :: Hover.downloadCountPerWeek info
    :: match githubStar info, githubIssueCount info with
       | Some star, Some issues => [star; issues]
       | _, _ => []
       end
  /\ (githubStar info = None <-> githubUserAndRepo info = None)
  /\ (githubIssueCount info = None <-> githubUserAndRepo info = None)
  /\ (githubUserAndRepo info <> None <->
      HoverContents.isBuiltinModule (Hover.packageInfo info) = false
      /\ exists url,
           HoverContents.repositoryFieldUrl hostedHttps trimLeftSlash
             (HoverContents.packageJson (Hover.packageInfo info)) = Some url
           /\ Js.startsWith "https://github" url = true)
  /\ badgesInfo info = Js.join (spacing 3) (badges info).
Proof.
  assert (Hstar : githubStar info = None <-> githubUserAndRepo info = None).
  { unfold Hover.githubStar.
    destruct (githubUserAndRepo info) as [g |] eqn:E; [| tauto].
    rewrite (githubUserAndRepo_truthy _ _ E). split; discriminate. }
  assert (Hissue : githubIssueCount info = None
                   <-> githubUserAndRepo info = None).
  { unfold Hover.githubIssueCount.
    destruct (githubUserAndRepo info) as [g |] eqn:E; [| tauto].
    rewrite (githubUserAndRepo_truthy _ _ E). split; discriminate. }
  split; [| split; [exact Hstar | split; [exact Hissue | split]]].
  - apply badges_shape.
  - rewrite githubUserAndRepo_unfold.
    destruct (HoverContents.isBuiltinModule (Hover.packageInfo info)).
    + split; [congruence | intros [H _]; discriminate].
    + destruct (HoverContents.repositoryFieldUrl hostedHttps trimLeftSlash
                  (HoverContents.packageJson (Hover.packageInfo info)))
        as [r |].
      * destruct (Js.startsWith "https://github" r) eqn:E.
        -- split; [| discriminate]. intros _. split; [reflexivity |].
           now exists r.
        -- split; [congruence |]. intros (_ & url & [= <-] & H). congruence.
      * split; [congruence |]. intros (_ & url & H & _). discriminate.
  - reflexivity.
Qed.

Lemma truthy_append (a b : string) :
  Js.truthy (Some a) = true -> Js.truthy (Some (a ++ b)%string) = true.
Proof. destruct a; [discriminate | reflexivity]. Qed.

Lemma truthy_join (sep first : string) (rest : list string) :
  Js.truthy (Some first) = true ->
  Js.truthy (Some (Js.join sep (first :: rest))) = true.
Proof.
  intros H. unfold Js.join. cbn [String.concat].
  destruct rest; [exact H | now apply truthy_append].
Qed.

Lemma pkgNameLink_truthy (info : Hover.Info) :
  Js.truthy (Some (Hover.pkgNameLink pathJoin encodeURIComponent uriToString
                                     info)) = true.
Proof. reflexivity. Qed.

Lemma basicInfoMd_truthy (info : Hover.Info)
      (options : option Hover.GenerateOptions) :
  Js.truthy (Some (Hover.basicInfoMd spacing
                     formatSize pathJoin encodeURIComponent uriToString
                     info options)) = true.
Proof.
  unfold Hover.basicInfoMd.
  destruct (HoverContents.isBuiltinModule (Hover.packageInfo info)).
  - rewrite !append_assoc. apply truthy_append, pkgNameLink_truthy.
  - repeat match goal with
           | |- context [match ?x with _ => _ end] => destruct x
           end;
      rewrite ?append_assoc; apply truthy_append, pkgNameLink_truthy.
Qed.

(** X7.  [generate] yields one block for a built-in module, the name
    with the two documentation links, and three blocks for every other
    package: the basic information, the web sites and the badges, none
    of them empty.  Every block is trusted and supports HTML. *)
Theorem generate_blocks (info : Hover.Info)
        (options : option Hover.GenerateOptions) :
  map Hover.value (generate info options)
  = (if HoverContents.isBuiltinModule (Hover.packageInfo info) then
       [(Hover.pkgNameLink pathJoin encodeURIComponent uriToString info
         ++ spacing 2
         ++ "[Documentation](https://nodejs.org/docs/latest/api/"
         ++ Hover.pkgName info ++ ".html)" ++ spacing 4
         ++ "[Source Code](https://github.com/nodejs/node/blob/main/lib/"
         ++ Hover.pkgName info ++ ".js)")%string]
     else
       [Hover.basicInfoMd spacing formatSize
          pathJoin encodeURIComponent uriToString info options;
        Js.join (spacing 4)
          (HoverContents.websiteInfos hostedHttps trimLeftSlash
             (Hover.packageInfo info));
        badgesInfo info])
  /\ length (generate info options)
     = (if HoverContents.isBuiltinModule (Hover.packageInfo info)
        then 1 else 3)
  /\ (forall block, In block (generate info options) ->
        Hover.isTrusted block = true /\ Hover.supportHtml block = true
        /\ Hover.value block <> "").
Proof.
  assert (Hvalues :
    map Hover.value (generate info options)
    = (if HoverContents.isBuiltinModule (Hover.packageInfo info) then
         [(Hover.pkgNameLink pathJoin encodeURIComponent uriToString info
           ++ spacing 2
           ++ "[Documentation](https://nodejs.org/docs/latest/api/"
           ++ Hover.pkgName info ++ ".html)" ++ spacing 4
           ++ "[Source Code](https://github.com/nodejs/node/blob/main/lib/"
           ++ Hover.pkgName info ++ ".js)")%string]
       else
         [Hover.basicInfoMd spacing formatSize
            pathJoin encodeURIComponent uriToString info options;
          Js.join (spacing 4)
            (HoverContents.websiteInfos hostedHttps trimLeftSlash
               (Hover.packageInfo info));
          badgesInfo info])).
  { unfold Hover.generate. rewrite map_map. cbn [Hover.value]. rewrite map_id.
    unfold Hover.filterTruthy. cbn [flat_map].
    rewrite basicInfoMd_truthy.
    unfold HoverContents.pkgWebsites, Hover.badgesInfoMd.
    destruct (HoverContents.isBuiltinModule (Hover.packageInfo info)) eqn:E.
    - change (Js.truthy (Some "")) with false. cbn [app]. f_equal.
      unfold Hover.basicInfoMd. rewrite E.
      rewrite !append_assoc. reflexivity.
    - assert (Hw : Js.truthy
                     (Some (Js.join (spacing 4)
                              (HoverContents.websiteInfos hostedHttps
                                 trimLeftSlash (Hover.packageInfo info))))
                   = true).
      { unfold HoverContents.websiteInfos.
        change (HoverContents.linkWhen "Npm"
                  (Some (HoverContents.npmUrlOf (Hover.packageInfo info))))
          with [("[Npm](" ++ HoverContents.npmUrlOf (Hover.packageInfo info)
                 ++ ")")%string].
        cbn [app]. apply truthy_join. reflexivity. }
      assert (Hb : Js.truthy (Some (badgesInfo info)) = true).
      { unfold Hover.badgesInfo.
        rewrite badges_shape.
        apply truthy_join. reflexivity. }
      rewrite Hw, Hb. reflexivity. }
  split; [exact Hvalues |]. split.
  - rewrite <- (length_map Hover.value), Hvalues.
    now destruct (HoverContents.isBuiltinModule (Hover.packageInfo info)).
  - intros block Hin.
    assert (Hval : In (Hover.value block)
                      (map Hover.value (generate info options)))
      by now apply in_map.
    unfold Hover.generate in Hin. apply in_map_iff in Hin.
    destruct Hin as (md & <- & Hmd). cbn.
    split; [reflexivity |]. split; [reflexivity |].
    unfold Hover.filterTruthy in Hmd. apply in_flat_map in Hmd.
    destruct Hmd as ([s |] & _ & Hs); [| destruct Hs].
    destruct (Js.truthy (Some s)) eqn:E; [| destruct Hs].
    destruct Hs as [<- | []]. intros ->. discriminate E.
Qed.

End HoverContentFacts.

Lemma githubUserAndRepo_of_repository_witness :
  Hover.githubUserAndRepo Links.hostedHttps Links.trimLeftSlash Hosted.package
  = Some "user/repo"
  /\ Hover.githubStar Links.hostedHttps Links.trimLeftSlash Hosted.package
     = Some "[![GitHub Repo stars](https://img.shields.io/github/stars/user/repo)](https://github.com/user/repo)"
  /\ Hover.githubIssueCount Links.hostedHttps Links.trimLeftSlash Hosted.package
     = Some "[![GitHub Issues](https://img.shields.io/github/issues-raw/user/repo?label=issues)](https://github.com/user/repo/issues)".
Proof.
  exact (githubUserAndRepo_of_repository Links.hostedHttps Links.trimLeftSlash
           Hosted.package ".com" "user" "repo"
           eq_refl eq_refl eq_refl eq_refl).
Defined.

(** ** The lenses and the provider after a call of [getCodeLenses] *)

Section LensFacts.
Variable processCwd : string.
Variable cwd : string.
Variable globMatch : string -> string -> bool.
Variable files : list string.
Variable fs : Fs.FileSystem.
Variable includeDefaultPackedFiles : bool.
Variable positionAt : nat -> FilesCodeLens.Position.
Variable jsoncStringNodeToRange : Jsonc.Node -> FilesCodeLens.Range.
Variable superGetCodeLenses :
  FilesCodeLens.Provider -> FilesCodeLens.Provider.
Variable completionOrder :
  list FilesCodeLens.PatternItem -> list FilesCodeLens.PatternItem.

Local Abbreviation collectPatterns :=
  (FilesCodeLens.collectPatterns jsoncStringNodeToRange).
Local Abbreviation getCodeLenses :=
  (FilesCodeLens.getCodeLenses processCwd cwd globMatch files fs
     includeDefaultPackedFiles positionAt jsoncStringNodeToRange
     superGetCodeLenses completionOrder).
Local Abbreviation itemsOf := (Items.itemsOf jsoncStringNodeToRange).

Lemma collectPatterns_pushed (nodes : list Jsonc.AnyNode) :
  forall negs acc,
    snd (collectPatterns nodes negs acc) = negs ++ Lenses.pushed nodes.
Proof.
  induction nodes as [| node rest IH]; intros negs acc.
  - cbn. now rewrite app_nil_r.
  - destruct node as [[o l v | o l | o l | o l | o l items | o l props] | p];
      try (cbn; now rewrite app_nil_r).
    cbn [FilesCodeLens.collectPatterns]. rewrite IH.
    unfold Lenses.pushed. cbn [Lenses.leadingStrings filter].
    destruct (Js.startsWith "!" v); [| reflexivity].
    now rewrite <- app_assoc.
Qed.

Lemma pushed_negative (nodes : list Jsonc.AnyNode) (q : string) :
  In q (Lenses.pushed nodes) -> Js.startsWith "!" q = true.
Proof.
  unfold Lenses.pushed. rewrite filter_In. now intros [_ H].
Qed.

(** X8.  The list [_negativePatterns] of the provider only grows in a
    call: whatever the call returns, the list afterwards is the list
    [super.getCodeLenses] left followed by the negated patterns among
    the string items at the front of the [files] array, in their order.
    This holds of a call that leaves at a node that is no string as
    well: the patterns pushed before that node stay. *)
Theorem negativePatterns_only_grow
        (this : FilesCodeLens.Provider) (root : option Jsonc.Node) :
  FilesCodeLens._negativePatterns (snd (getCodeLenses this root))
  = FilesCodeLens._negativePatterns (superGetCodeLenses this)
    ++ Lenses.pushed (Lenses.filesChildren root)
  /\ (forall q, In q (Lenses.pushed (Lenses.filesChildren root)) ->
                Js.startsWith "!" q = true)
  /\ (forall q, In q (FilesCodeLens._negativePatterns
                        (superGetCodeLenses this)) ->
                In q (FilesCodeLens._negativePatterns
                        (snd (getCodeLenses this root)))).
Proof.
  assert (Hnegs :
    FilesCodeLens._negativePatterns (snd (getCodeLenses this root))
    = FilesCodeLens._negativePatterns (superGetCodeLenses this)
      ++ Lenses.pushed (Lenses.filesChildren root)).
  { unfold FilesCodeLens.getCodeLenses, Lenses.filesChildren.
    destruct root as [root |]; [| cbn; now rewrite app_nil_r].
    destruct (Jsonc.findNodeAtLocation root ["files"])
      as [[ref filesPropertyNode] |]; [| cbn; now rewrite app_nil_r].
    destruct (Jsonc.children (Jsonc.AValue filesPropertyNode))
      as [| first rest]; [cbn; now rewrite app_nil_r |].
    pose proof (collectPatterns_pushed (first :: rest)
                  (FilesCodeLens._negativePatterns (superGetCodeLenses this))
                  []) as Hpushed.
    destruct (collectPatterns (first :: rest)
                (FilesCodeLens._negativePatterns (superGetCodeLenses this)) [])
      as [[patternList |] negs]; exact Hpushed. }
  split; [exact Hnegs | split].
  - intros q. apply pushed_negative.
  - intros q Hq. rewrite Hnegs. apply in_or_app. now left.
Qed.

Lemma collectPatterns_defined (nodes : list Jsonc.AnyNode) :
  forall negs acc,
    match fst (collectPatterns nodes negs acc) with
    | Some _ => true
    | None => false
    end = forallb Lenses.isString nodes.
Proof.
  induction nodes as [| node rest IH]; intros negs acc; [reflexivity |].
  destruct node as [[o l v | o l | o l | o l | o l items | o l props] | p];
    try reflexivity.
  cbn [FilesCodeLens.collectPatterns forallb]. rewrite IH. reflexivity.
Qed.

Lemma itemsOf_leadingStrings (nodes : list Jsonc.AnyNode)
      (items : list FilesCodeLens.PatternItem) :
  itemsOf nodes items ->
  Lenses.leadingStrings nodes = map FilesCodeLens.pattern items
  /\ map (fun item =>
            if FilesCodeLens.isNegated item
            then FilesCodeLens.exclude else FilesCodeLens.include) items
     = map Lenses.lensTypeOf (map FilesCodeLens.pattern items)
  /\ length items = length nodes.
Proof.
  induction 1 as [| node item nodes items Hitem _ IH].
  - repeat split.
  - destruct IH as (IH1 & IH2 & IH3).
    destruct node as [[o l v | o l | o l | o l | o l its | o l props] | p];
      try discriminate Hitem.
    injection Hitem as <-.
    cbn [Lenses.leadingStrings map FilesCodeLens.pattern
         FilesCodeLens.isNegated length].
    rewrite IH1, IH2, IH3. repeat split.
Qed.

(** X9.  A call returns lenses exactly when the [files] array is found,
    is not empty and holds string nodes only.  It then returns one lens
    per item, placed on the item, followed by the lens placed on the
    first five characters of the array; and the map of the provider
    gains exactly one entry per returned lens, in the same order: an
    [exclude] entry for an item that starts with [!], an [include]
    entry for any other item, the [all] entry last, each positioned at
    the start of its lens.  The files of an item's entry are the
    expansion of the item under the negated patterns the provider holds
    after the first loop, its own and later ones included.  A call that
    returns [undefined] adds no entry to the map. *)
Theorem getCodeLenses_records_every_lens
        (this : FilesCodeLens.Provider) (root : option Jsonc.Node) :
  (fst (getCodeLenses this root) <> None <->
   Lenses.filesChildren root <> []
   /\ forallb Lenses.isString (Lenses.filesChildren root) = true)
  /\ (fst (getCodeLenses this root) = None ->
      FilesCodeLens._codeLensDataMap (snd (getCodeLenses this root))
      = FilesCodeLens._codeLensDataMap (superGetCodeLenses this))
  /\ (forall lenses,
        fst (getCodeLenses this root) = Some lenses ->
        exists entries,
          FilesCodeLens._codeLensDataMap (snd (getCodeLenses this root))
          = FilesCodeLens._codeLensDataMap (superGetCodeLenses this)
            ++ entries
          /\ map fst entries = lenses
          /\ map (fun entry => FilesCodeLens.type (snd entry)) entries
             = map Lenses.lensTypeOf
                   (Lenses.leadingStrings (Lenses.filesChildren root))
               ++ [FilesCodeLens.all]
          /\ map (fun entry => FilesCodeLens.position (snd entry)) entries
             = map (fun lens =>
                      FilesCodeLens.rangeStart (FilesCodeLens.range lens))
                   lenses
          /\ length lenses = S (length (Lenses.filesChildren root))
          /\ exists r ref filesPropertyNode items,
               root = Some r
               /\ Jsonc.findNodeAtLocation r ["files"]
                  = Some (ref, filesPropertyNode)
               /\ itemsOf (Lenses.filesChildren root) items
               /\ lenses
                  = map FilesCodeLens.itemLens items
                    ++ [{| FilesCodeLens.range :=
                             {| FilesCodeLens.rangeStart :=
                                  positionAt
                                    (Jsonc.valueOffset filesPropertyNode);
                                FilesCodeLens.rangeEnd :=
                                  positionAt
                                    (Jsonc.valueOffset filesPropertyNode
                                     + 5) |} |}]
               /\ map (fun entry =>
                         FilesCodeLens.getReferenceFilesPromise (snd entry))
                      entries
                  = map (FilesCodeLens.expand processCwd cwd globMatch files
                           (FilesCodeLens._negativePatterns
                              (snd (getCodeLenses this root))))
                        items
                    ++ [FilesCodeLens.allFiles processCwd cwd globMatch files
                          fs includeDefaultPackedFiles r
                          (FilesCodeLens._negativePatterns
                             (snd (getCodeLenses this root)))
                          (completionOrder items)]).
Proof.
  unfold FilesCodeLens.getCodeLenses, Lenses.filesChildren.
  destruct root as [root |];
    [| split; [split; [intros H; now destruct H | intros [H _]; now destruct H]
              | split; [reflexivity | discriminate]]].
  destruct (Jsonc.findNodeAtLocation root ["files"])
    as [[ref filesPropertyNode] |] eqn:Efind;
    [| split; [split; [intros H; now destruct H | intros [H _]; now destruct H]
              | split; [reflexivity | discriminate]]].
  destruct (Jsonc.children (Jsonc.AValue filesPropertyNode))
    as [| first rest];
    [split; [split; [intros H; now destruct H | intros [H _]; now destruct H]
            | split; [reflexivity | discriminate]] |].
  pose proof (collectPatterns_defined (first :: rest)
                (FilesCodeLens._negativePatterns (superGetCodeLenses this))
                []) as Hdefined.
  destruct (collectPatterns (first :: rest)
              (FilesCodeLens._negativePatterns (superGetCodeLenses this)) [])
    as [[patternList |] negs] eqn:Ecollect.
  - cbn [fst snd] in *. split; [| split].
    + split; [intros _ | discriminate].
      split; [discriminate | now symmetry].
    + discriminate.
    + intros lenses [= <-].
      destruct (collectPatterns_inv jsoncStringNodeToRange _ _ _ _ _ Ecollect)
        as (items & Hitems & -> & _).
      cbn [app] in *.
      destruct (itemsOf_leadingStrings _ _ Hitems) as (Hlead & Htypes & Hlen).
      eexists. split; [reflexivity |].
      cbn [FilesCodeLens._codeLensDataMap].
      rewrite !map_app, !map_map. cbn [map fst snd FilesCodeLens.type
        FilesCodeLens.position FilesCodeLens.itemData FilesCodeLens.itemLens
        FilesCodeLens.range FilesCodeLens.rangeStart
        FilesCodeLens.getReferenceFilesPromise
        FilesCodeLens._negativePatterns].
      split; [reflexivity |].
      split; [now rewrite Hlead, <- Htypes |].
      split; [reflexivity |].
      split; [rewrite length_app, length_map, Hlen; cbn; lia |].
      exists root, ref, filesPropertyNode, items.
      repeat split; assumption || reflexivity.
  - cbn [fst snd] in *. split; [| split].
    + split; [intros H; now destruct H |].
      intros [_ H]. rewrite H in Hdefined. discriminate.
    + reflexivity.
    + discriminate.
Qed.

End LensFacts.

(** ** The files of an [include] and of an [exclude] lens *)

Section LensFileFacts.
Variable processCwd : string.
Variable cwd : string.
Variable globMatch : string -> string -> bool.
Variable files : list string.

Local Abbreviation resolveInCwd := (FilesCodeLens.resolveInCwd processCwd cwd).
Local Abbreviation expand :=
  (FilesCodeLens.expand processCwd cwd globMatch files).

Lemma ignoredBy_none (patterns : list string) (file : string) :
  (forall q, In q patterns -> Js.startsWith "!" q = true) ->
  Globby.ignoredBy globMatch patterns file = false <->
  forall q, In q patterns -> globMatch (Js.sliceFrom1 q) file = false.
Proof.
  intros Hneg. split.
  - intros Hignored q Hq.
    exact (ignoredBy_false globMatch patterns file q Hignored Hq (Hneg q Hq)).
  - intros Hnone. unfold Globby.ignoredBy.
    apply not_true_is_false. intros Hex.
    apply existsb_exists in Hex. destruct Hex as (q & Hq & Hmatch).
    apply andb_true_iff in Hmatch. destruct Hmatch as [_ Hmatch].
    rewrite (Hnone q Hq) in Hmatch. discriminate.
Qed.

Lemma selects_one_positive (p : string) (rest : list string) (file : string) :
  Js.startsWith "!" p = false ->
  (forall q, In q rest -> Js.startsWith "!" q = true) ->
  Globby.selects globMatch (p :: rest) file = true <->
  globMatch p file = true
  /\ forall q, In q rest -> globMatch (Js.sliceFrom1 q) file = false.
Proof.
  intros Hp Hrest. cbn [Globby.selects]. unfold Globby.isNegativePattern.
  rewrite Hp, (selects_all_negative globMatch rest file Hrest), orb_false_r.
  rewrite andb_true_iff, negb_true_iff, (ignoredBy_none rest file Hrest).
  reflexivity.
Qed.

Lemma In_app_negative (a b : list string) :
  (forall q, In q a -> Js.startsWith "!" q = true) ->
  (forall q, In q b -> Js.startsWith "!" q = true) ->
  forall q, In q (a ++ b) -> Js.startsWith "!" q = true.
Proof.
  intros Ha Hb q Hq. apply in_app_or in Hq. destruct Hq; auto.
Qed.

(** X10.  The files of an [include] lens.  For an item that does not
    start with [!], with every pattern of [_negativePatterns] a negated
    one, the lens shows the absolute paths of exactly the files below
    the directory of the manifest that the pattern matches and that
    none of the negated patterns of the provider and none of the
    seventeen default ignores, each without its [!], matches. *)
Theorem include_lens_files
        (negs : list string) (item : FilesCodeLens.PatternItem)
        (path : string) :
  FilesCodeLens.isNegated item = false ->
  Js.startsWith "!" (FilesCodeLens.pattern item) = false ->
  (forall q, In q negs -> Js.startsWith "!" q = true) ->
  In path (expand negs item) <->
  exists file,
    path = resolveInCwd file /\ In file files
    /\ globMatch (FilesCodeLens.pattern item) file = true
    /\ (forall q, In q negs -> globMatch (Js.sliceFrom1 q) file = false)
    /\ (forall q, In q FilesCodeLens.defaultIgnoredPatterns ->
                  globMatch (Js.sliceFrom1 q) file = false).
Proof.
  intros Hitem Hpattern Hnegs.
  rewrite (In_expand processCwd cwd globMatch files).
  unfold FilesCodeLens.patternsOf. rewrite Hitem.
  change ((FilesCodeLens.pattern item :: negs)
          ++ FilesCodeLens.defaultIgnoredPatterns)
    with (FilesCodeLens.pattern item
          :: (negs ++ FilesCodeLens.defaultIgnoredPatterns)).
  assert (Hall : forall q,
             In q (negs ++ FilesCodeLens.defaultIgnoredPatterns) ->
             Js.startsWith "!" q = true).
  { apply In_app_negative; [exact Hnegs |].
    exact defaultIgnoredPatterns_negative. }
  split.
  - intros (file & Hpath & Hfile & Hselects).
    apply (selects_one_positive _ _ _ Hpattern Hall) in Hselects.
    destruct Hselects as [Hmatch Hnone].
    exists file. split; [exact Hpath |]. split; [exact Hfile |].
    split; [exact Hmatch |].
    split; intros q Hq; apply Hnone; apply in_or_app; [now left | now right].
  - intros (file & Hpath & Hfile & Hmatch & Hn & Hd).
    exists file. split; [exact Hpath |]. split; [exact Hfile |].
    apply (selects_one_positive _ _ _ Hpattern Hall).
    split; [exact Hmatch |].
    intros q Hq. apply in_app_or in Hq. destruct Hq; auto.
Qed.

(** X11.  The files of an [exclude] lens.  For an item that starts
    with [!], the lens shows the absolute paths of exactly the files
    that the pattern without its [!] matches and that none of the
    default ignores matches; the other negated patterns play no part.
    When the rest of the pattern starts with [!] again, the lens shows
    nothing. *)
Theorem exclude_lens_files
        (negs : list string) (item : FilesCodeLens.PatternItem)
        (path : string) :
  FilesCodeLens.isNegated item = true ->
  In path (expand negs item) <->
  Js.startsWith "!" (Js.sliceFrom1 (FilesCodeLens.pattern item)) = false
  /\ exists file,
       path = resolveInCwd file /\ In file files
       /\ globMatch (Js.sliceFrom1 (FilesCodeLens.pattern item)) file = true
       /\ (forall q, In q FilesCodeLens.defaultIgnoredPatterns ->
                     globMatch (Js.sliceFrom1 q) file = false).
Proof.
  intros Hitem.
  rewrite (In_expand processCwd cwd globMatch files).
  unfold FilesCodeLens.patternsOf. rewrite Hitem.
  change ([Js.sliceFrom1 (FilesCodeLens.pattern item)]
          ++ FilesCodeLens.defaultIgnoredPatterns)
    with (Js.sliceFrom1 (FilesCodeLens.pattern item)
          :: FilesCodeLens.defaultIgnoredPatterns).
  destruct (Js.startsWith "!" (Js.sliceFrom1 (FilesCodeLens.pattern item)))
    eqn:Hrest.
  - split; [| intros [H _]; discriminate H].
    intros (file & _ & _ & Hselects).
    rewrite selects_all_negative in Hselects; [discriminate |].
    intros q [<- | Hq]; [exact Hrest |].
    now apply defaultIgnoredPatterns_negative.
  - split.
    + intros (file & Hpath & Hfile & Hselects).
      apply (selects_one_positive _ _ _ Hrest
               defaultIgnoredPatterns_negative) in Hselects.
      split; [reflexivity |]. exists file. tauto.
    + intros (_ & file & Hpath & Hfile & Hmatch & Hd).
      exists file. split; [exact Hpath |]. split; [exact Hfile |].
      apply (selects_one_positive _ _ _ Hrest
               defaultIgnoredPatterns_negative).
      split; assumption.
Qed.

End LensFileFacts.

(** With [!lib/*.test.js] among the negated patterns, the lens of
    [lib/**] shows [lib/index.js]. *)
Lemma include_lens_files_witness :
  In "/pkg/lib/index.js"
     (FilesCodeLens.expand "/" Package.cwd Demo.glob Package.files
        ["!lib/*.test.js"] Package.libAll).
Proof.
  apply (include_lens_files "/" Package.cwd Demo.glob Package.files
           ["!lib/*.test.js"] Package.libAll "/pkg/lib/index.js");
    [reflexivity | reflexivity | intros q [<- | []]; reflexivity |].
  exists "lib/index.js".
  split; [reflexivity |].
  split; [cbn; tauto |].
  split; [reflexivity |].
  split; intros q Hq;
    repeat (destruct Hq as [<- | Hq]; [reflexivity |]); destruct Hq.
Defined.

(** The lens of [!lib/*.test.js] shows [lib/index.test.js]. *)
Lemma exclude_lens_files_witness :
  In "/pkg/lib/index.test.js"
     (FilesCodeLens.expand "/" Package.cwd Demo.glob Package.files
        ["!lib/*.test.js"] (Package.itemAt 10 16 "!lib/*.test.js")).
Proof.
  apply (exclude_lens_files "/" Package.cwd Demo.glob Package.files
           ["!lib/*.test.js"] (Package.itemAt 10 16 "!lib/*.test.js")
           "/pkg/lib/index.test.js");
    [reflexivity |].
  split; [reflexivity |].
  exists "lib/index.test.js".
  split; [reflexivity |].
  split; [cbn; tauto |].
  split; [reflexivity |].
  intros q Hq;
    repeat (destruct Hq as [<- | Hq]; [reflexivity |]); destruct Hq.
Defined.

(** ** The default files of the [all] lens *)

Section DefaultFileFacts.
Variable processCwd : string.
Variable cwd : string.
Variable globMatch : string -> string -> bool.
Variable files : list string.
Variable fs : Fs.FileSystem.

Local Abbreviation resolveInCwd := (FilesCodeLens.resolveInCwd processCwd cwd).
Local Abbreviation totalFilesOf :=
  (FilesCodeLens.totalFilesOf processCwd cwd globMatch files).
Local Abbreviation addDefault := (FilesCodeLens.addDefault processCwd cwd fs).
Local Abbreviation defaultHit := (Resolved.defaultHit processCwd cwd fs).
Local Abbreviation allFiles :=
  (FilesCodeLens.allFiles processCwd cwd globMatch files fs).

Lemma substring_skip_from (pre s : string) (k n : nat) :
  substring (String.length pre + k) n (pre ++ s)%string = substring k n s.
Proof. induction pre as [| c pre IH]; simpl; [reflexivity | exact IH]. Qed.

(** Whether a text ends with [suf] is decided by any of its ends that
    is as long as [suf]. *)
Lemma endsWith_append_keep (suf pre s : string) :
  String.length suf <= String.length s ->
  Js.endsWith suf (pre ++ s)%string = Js.endsWith suf s.
Proof.
  intros Hlen. unfold Js.endsWith. rewrite length_append.
  replace (String.length pre + String.length s - String.length suf)
    with (String.length pre + (String.length s - String.length suf)) by lia.
  rewrite substring_skip_from. f_equal.
  apply Nat.leb_le in Hlen. rewrite Hlen. apply Nat.leb_le. apply Nat.leb_le in Hlen. lia.
Qed.

Lemma defaultHit_exists (file path : string) :
  defaultHit file = Some path -> Fs.pathExists fs path = true.
Proof.
  unfold Resolved.defaultHit.
  destruct (Js.endsWith ".md" (resolveInCwd file)).
  - intros H. apply find_some in H. now destruct H.
  - destruct (Fs.pathExists fs (resolveInCwd file)) eqn:E; [| discriminate].
    now intros [= <-].
Qed.

Lemma defaults_extend (defaults : list string) :
  forall total : Js.SetOfString,
    exists added,
      fold_left addDefault defaults total = total ++ added
      /\ length added <= length defaults
      /\ forall path, In path added ->
           exists file, In file defaults /\ defaultHit file = Some path.
Proof.
  induction defaults as [| file defaults IH]; intros total.
  - exists []. cbn. rewrite app_nil_r. repeat split; [lia | intros p []].
  - cbn [fold_left]. rewrite (addDefault_hit processCwd cwd fs).
    destruct (defaultHit file) as [hit |] eqn:Ehit.
    + unfold Js.add. destruct (Js.has hit total).
      * destruct (IH total) as (added & Heq & Hlen & Hin).
        exists added. split; [exact Heq |]. split; [cbn; lia |].
        intros path Hpath. destruct (Hin path Hpath) as (f & Hf & Hhit).
        exists f. split; [now right | exact Hhit].
      * destruct (IH (total ++ [hit])) as (added & Heq & Hlen & Hin).
        exists (hit :: added). rewrite Heq, <- app_assoc.
        split; [reflexivity |]. split; [cbn; lia |].
        intros path [<- | Hpath].
        -- exists file. split; [now left | exact Ehit].
        -- destruct (Hin path Hpath) as (f & Hf & Hhit).
           exists f. split; [now right | exact Hhit].
    + destruct (IH total) as (added & Heq & Hlen & Hin).
      exists added. split; [exact Heq |]. split; [cbn; lia |].
      intros path Hpath. destruct (Hin path Hpath) as (f & Hf & Hhit).
      exists f. split; [now right | exact Hhit].
Qed.

Lemma package_json_is_no_md :
  Js.endsWith ".md" (resolveInCwd "package.json") = false.
Proof.
  unfold FilesCodeLens.resolveInCwd.
  rewrite resolve_simple by reflexivity.
  change ("/" ++ "package.json")%string with "/package.json".
  now rewrite endsWith_append_keep by (cbn; lia).
Qed.

(** X12.  The default files of the [all] lens.  The lens lists the
    files of the patterns first and, after them, what the default
    probing added: nothing when [includeDefaultPackedFiles] is off, at
    most four paths otherwise, one per entry of [defaultIncludedFiles]
    at most.  Every added path was found on disk by [pathExists] and
    is [resolve(cwd, name)] for one of the names probed for an entry.
    With the setting on, the [package.json] beside the manifest is in
    the lens whenever it exists, whatever the patterns exclude. *)
Theorem default_files_come_last_and_exist
        (flag : bool) (root : Jsonc.Node) (negs : list string)
        (settled : list FilesCodeLens.PatternItem) :
  exists added,
    allFiles flag root negs settled = totalFilesOf negs settled ++ added
    /\ length added <= 4
    /\ (flag = false -> added = [])
    /\ (forall path, In path added ->
          Fs.pathExists fs path = true
          /\ exists file name,
               In file FilesCodeLens.defaultIncludedFiles
               /\ In name (Resolved.candidateNames file)
               /\ path = resolveInCwd name)
    /\ (flag = true ->
        Fs.pathExists fs (resolveInCwd "package.json") = true ->
        In (resolveInCwd "package.json") (allFiles flag root negs settled)).
Proof.
  assert (Hpkg :
    flag = true ->
    Fs.pathExists fs (resolveInCwd "package.json") = true ->
    In (resolveInCwd "package.json") (allFiles flag root negs settled)).
  { intros Hflag Hexists.
    apply (In_allFiles processCwd cwd globMatch files fs). right.
    split; [exact Hflag |]. exists "package.json". split; [now left |].
    unfold Resolved.defaultHit.
    now rewrite package_json_is_no_md, Hexists. }
  unfold FilesCodeLens.allFiles in *. destruct flag; cbn [negb] in *.
  - rewrite (addMain_adds_nothing processCwd cwd fs) in *.
    destruct (defaults_extend FilesCodeLens.defaultIncludedFiles
                (totalFilesOf negs settled))
      as (added & Heq & Hlen & Hin).
    exists added. split; [exact Heq |]. split; [exact Hlen |].
    split; [discriminate |]. split; [| exact Hpkg].
    intros path Hpath. destruct (Hin path Hpath) as (file & Hfile & Hhit).
    split; [exact (defaultHit_exists _ _ Hhit) |].
    destruct (defaultHit_name processCwd cwd fs _ _ Hhit)
      as (name & Hname & ->).
    now exists file, name.
  - exists []. rewrite app_nil_r. split; [reflexivity |].
    split; [cbn; lia |]. split; [reflexivity |].
    split; [intros path [] | discriminate].
Qed.

End DefaultFileFacts.

(** ** When [getPkgNameAndVersionFromDocPosition] throws *)

Section LocateThrowFacts.
Variable validForOldPackages : string -> bool.

Local Abbreviation locate :=
  (Pkg.getPkgNameAndVersionFromDocPosition validForOldPackages).

Lemma nodeAt_app (p q : Jsonc.NodeRef) :
  forall a,
    Jsonc.nodeAt a (p ++ q)
    = match Jsonc.nodeAt a p with
      | Some c => Jsonc.nodeAt c q
      | None => None
      end.
Proof.
  induction p as [| i p IH]; intros a; [reflexivity |].
  cbn [app Jsonc.nodeAt].
  destruct (nth_error (Jsonc.children a) i); [apply IH | reflexivity].
Qed.

Lemma parentRef_snoc (ref parent : Jsonc.NodeRef) :
  Jsonc.parentRef ref = Some parent <-> exists i, ref = parent ++ [i].
Proof.
  split.
  - destruct ref as [| i ref]; [discriminate |].
    intros [= <-]. exists (last (i :: ref) 0).
    apply app_removelast_last. discriminate.
  - intros [i ->]. unfold Jsonc.parentRef.
    destruct (parent ++ [i]) eqn:E; [now destruct parent |].
    rewrite <- E. now rewrite removelast_last.
Qed.

(** A string node that is the only child of its parent is the one item
    of an array or the key of a property without a value. *)
Lemma only_child_string (parentNode : Jsonc.AnyNode) (o l : nat)
      (value : string) :
  Jsonc.children parentNode = [Jsonc.AValue (Jsonc.NString o l value)] <->
  (exists ao al,
     parentNode = Jsonc.AValue (Jsonc.NArray ao al [Jsonc.NString o l value]))
  \/ (exists po pl,
        parentNode
        = Jsonc.AProperty (Jsonc.NProperty po pl o l value None)).
Proof.
  split.
  - destruct parentNode as [[| | | | ao al items | oo ol props]
                           | [po pl ko kl k [v |]]];
      cbn; try discriminate.
    + destruct items as [| item [| item2 items]]; cbn; try discriminate.
      intros [= ->]. left. now exists ao, al.
    + destruct props as [| prop props]; discriminate.
    + intros [= -> -> ->]. right. now exists po, pl.
  - intros [(ao & al & ->) | (po & pl & ->)]; reflexivity.
Qed.

(** X13.  The call throws exactly when the innermost node under the
    cursor is a string node that is the only child of its parent: the
    one item of an array, or the key of a property that has no value
    yet.  [versionNode], the second child of the parent, is then
    [undefined], and its [type] is read before the number of children
    is tested. *)
Theorem locate_throws_iff (root : Jsonc.Node) (offset : nat) :
  locate (Some root) offset = Pkg.Throws <->
  exists parent parentNode o l value,
    Jsonc.findNodeAtOffset root offset = Some (parent ++ [0])
    /\ Jsonc.nodeAt (Jsonc.AValue root) parent = Some parentNode
    /\ Jsonc.children parentNode = [Jsonc.AValue (Jsonc.NString o l value)]
    /\ ((exists ao al,
           parentNode
           = Jsonc.AValue (Jsonc.NArray ao al [Jsonc.NString o l value]))
        \/ (exists po pl,
              parentNode
              = Jsonc.AProperty (Jsonc.NProperty po pl o l value None))).
Proof.
  unfold Pkg.getPkgNameAndVersionFromDocPosition. split.
  - destruct (Jsonc.findNodeAtOffset root offset) as [nameRef |];
      [| discriminate].
    destruct (Jsonc.parentRef nameRef) as [parent |] eqn:Eparent;
      [| discriminate].
    destruct (Jsonc.nodeAt (Jsonc.AValue root) nameRef)
      as [nameNode |] eqn:Ename; [| discriminate].
    apply parentRef_snoc in Eparent. destruct Eparent as [i ->].
    rewrite nodeAt_app in Ename.
    destruct (Jsonc.nodeAt (Jsonc.AValue root) parent)
      as [parentNode |] eqn:Eparent; [| discriminate].
    cbn [Jsonc.nodeAt] in Ename.
    destruct (nth_error (Jsonc.children parentNode) i)
      as [child |] eqn:Echild; [| discriminate].
    injection Ename as ->.
    destruct (Jsonc.NodeType_eqb (Jsonc.nodeType nameNode) Jsonc.TString)
      eqn:Etype; [| discriminate].
    destruct (nth_error (Jsonc.children parentNode) 1)
      as [versionNode |] eqn:Eversion.
    + destruct (_ && _ && _ && _ && _); [| discriminate].
      destruct (Jsonc.nodeValue nameNode); [| discriminate].
      destruct (Jsonc.nodeValue versionNode); [| discriminate].
      destruct (validForOldPackages s); discriminate.
    + intros _.
      destruct nameNode as [[o l value | | | | |] |]; try discriminate Etype.
      destruct (Jsonc.children parentNode) as [| first [| second rest]]
        eqn:Echildren; [now destruct i | | discriminate Eversion].
      destruct i as [| [| i]]; try discriminate Echild.
      injection Echild as ->.
      exists parent, parentNode, o, l, value.
      split; [reflexivity |]. split; [exact Eparent |].
      split; [exact Echildren |].
      now apply only_child_string.
  - intros (parent & parentNode & o & l & value & -> & Hparent & Hchildren & _).
    rewrite (proj2 (parentRef_snoc (parent ++ [0]) parent))
      by now exists 0.
    rewrite nodeAt_app, Hparent. cbn [Jsonc.nodeAt].
    rewrite Hchildren. reflexivity.
Qed.

End LocateThrowFacts.

(** ** When the walk of [findPkgInstallDir] ends *)

Section WalkFacts.
Variable processCwd : string.
Variable fs : Fs.FileSystem.
Variable getRoot : string -> string.

Local Abbreviation pkgExistsIn := (Pkg.pkgExistsIn processCwd fs).
Local Abbreviation walkUp := (Pkg.walkUp processCwd fs).

(** A level at which the loop leaves: the package is there, or the
    level is the boundary. *)
Local Abbreviation leavesAt packageName endPath start n :=
  (pkgExistsIn packageName (Notions.ancestor n start) = true
   \/ Notions.ancestor n start = endPath).

Lemma walkUp_leaves (packageName endPath : string) (n : nat) :
  forall start,
    leavesAt packageName endPath start n ->
    exists result, walkUp (S n) packageName endPath start = Some result.
Proof.
  induction n as [| n IH]; intros start Hleave.
  - cbn [Notions.ancestor] in Hleave. cbn [Pkg.walkUp].
    destruct (pkgExistsIn packageName start); [now eexists |].
    destruct Hleave as [H | ->]; [discriminate |].
    rewrite String.eqb_refl. now eexists.
  - cbn [Pkg.walkUp].
    destruct (pkgExistsIn packageName start); [now eexists |].
    destruct (String.eqb start endPath); [now eexists |].
    apply IH. exact Hleave.
Qed.

Lemma walkUp_returns_leaves (packageName endPath : string) (fuel : nat) :
  forall start result,
    walkUp fuel packageName endPath start = Some result ->
    exists n, n < fuel /\ leavesAt packageName endPath start n.
Proof.
  induction fuel as [| fuel IH]; intros start result; [discriminate |].
  cbn [Pkg.walkUp].
  destruct (pkgExistsIn packageName start) eqn:Eexists.
  - intros _. exists 0. split; [lia | now left].
  - destruct (String.eqb start endPath) eqn:Eend.
    + intros _. exists 0. split; [lia | right].
      now apply String.eqb_eq in Eend.
    + intros H. destruct (IH _ _ H) as (n & Hn & Hleave).
      exists (S n). split; [lia | exact Hleave].
Qed.

(** X14.  When the walk ends.  Once [realpath] gave the real path, the
    loop leaves only at a level that holds the package or that is the
    boundary [getRoot] names, so the call returns exactly when the
    directory of the file has such a level among its ancestors.  When
    it has none, the call never settles, whatever the number of levels
    it is given: [dirname] of the root is the root again, and the loop
    stays there. *)
Theorem findPkgInstallDir_returns_iff
        (packageName baseFilePath real : string) :
  Fs.realpath fs baseFilePath = Some real ->
  ((exists fuel outcome,
      Pkg.findPkgInstallDir processCwd fs getRoot fuel packageName
                            baseFilePath = Some outcome)
   <-> exists n,
         leavesAt packageName (getRoot real) (Path.dirname real) n)
  /\ ((forall n,
         pkgExistsIn packageName (Notions.ancestor n (Path.dirname real))
         = false
         /\ Notions.ancestor n (Path.dirname real) <> getRoot real) ->
      forall fuel,
        Pkg.findPkgInstallDir processCwd fs getRoot fuel packageName
                              baseFilePath = None).
Proof.
  intros Hreal. unfold Pkg.findPkgInstallDir. rewrite Hreal.
  split; [split |].
  - intros (fuel & outcome & Hcall).
    destruct (walkUp fuel packageName (getRoot real) (Path.dirname real))
      as [result |] eqn:Ewalk; [| discriminate].
    destruct (walkUp_returns_leaves _ _ _ _ _ Ewalk) as (n & _ & Hleave).
    now exists n.
  - intros (n & Hleave).
    destruct (walkUp_leaves _ _ _ _ Hleave) as (result & Hwalk).
    exists (S n), (Pkg.Returns result). now rewrite Hwalk.
  - intros Hnever fuel.
    destruct (walkUp fuel packageName (getRoot real) (Path.dirname real))
      as [result |] eqn:Ewalk; [| reflexivity].
    destruct (walkUp_returns_leaves _ _ _ _ _ Ewalk) as (n & _ & Hleave).
    destruct (Hnever n) as [Hnone Hoff].
    destruct Hleave as [H | H]; [rewrite Hnone in H; discriminate |].
    now destruct Hoff.
Qed.

End WalkFacts.

(** From [/p/src/index.js], with a boundary [/q] that is no ancestor of
    the file and a package installed nowhere, the call does not
    settle. *)
Lemma findPkgInstallDir_returns_iff_witness :
  Fs.realpath Package.project "/p/src/index.js" = Some "/p/src/index.js"
  /\ forall fuel,
       Pkg.findPkgInstallDir "/" Package.project (fun _ => "/q") fuel
                             "react" "/p/src/index.js" = None.
Proof.
  split; [reflexivity |].
  refine (proj2 (findPkgInstallDir_returns_iff "/" Package.project
                   (fun _ => "/q") "react" "/p/src/index.js"
                   "/p/src/index.js" eq_refl) _).
  assert (Hroot : forall k, Notions.ancestor k "/" = "/").
  { induction k as [| k IH]; [reflexivity | exact IH]. }
  intros [| [| n]]; [split; [reflexivity | discriminate] ..|].
  change (Notions.ancestor (S (S n)) (Path.dirname "/p/src/index.js"))
    with (Notions.ancestor n "/").
  rewrite Hroot. split; [reflexivity | discriminate].
Defined.

(** ** The links of [pkgWebsites] *)

Section WebsiteFacts.
Variable hostedHttps : string -> option string.
Variable trimLeftSlash : string -> string.

Local Abbreviation repositoryFieldUrl :=
  (HoverContents.repositoryFieldUrl hostedHttps trimLeftSlash).
Local Abbreviation repositoryUrlOf :=
  (HoverContents.repositoryUrlOf hostedHttps trimLeftSlash).
Local Abbreviation homepageUrlOf :=
  (HoverContents.homepageUrlOf hostedHttps trimLeftSlash).
Local Abbreviation websiteInfos :=
  (HoverContents.websiteInfos hostedHttps trimLeftSlash).

Lemma linkWhen_cases (label : string) (url : option string) :
  (HoverContents.linkWhen label url = []
   /\ Js.truthy url = false)
  \/ exists u,
       url = Some u /\ u <> ""
       /\ HoverContents.linkWhen label url
          = [("[" ++ label ++ "](" ++ u ++ ")")%string].
Proof.
  destruct url as [u |]; [| now left].
  unfold HoverContents.linkWhen. destruct (Js.truthy (Some u)) eqn:E.
  - right. exists u. split; [reflexivity |]. split; [| reflexivity].
    intros ->. discriminate E.
  - now left.
Qed.

(** X15.  The links of [pkgWebsites].  The list starts with the [Npm]
    link and ends with the eight fixed links; between them come the
    [HomePage] link, when the manifest has a homepage that is not
    empty, and the [Repository] link, when a repository URL was
    derived: nine to eleven links in all.  The two never carry the
    same URL: a homepage equal to the repository URL is left out.  A
    repository field that yields a URL is never replaced by the bugs
    URL. *)
Theorem websiteInfos_shape (info : HoverContents.PackageInfo) :
  exists home repo,
    websiteInfos info
    = ("[Npm](" ++ HoverContents.npmUrlOf info ++ ")")%string
      :: home ++ repo ++ HoverContents.fixedLinks info
    /\ (home = []
        \/ exists h,
             home = [("[HomePage](" ++ h ++ ")")%string] /\ h <> ""
             /\ HoverContents.tryGetUrl
                  (HoverContents.homepage (HoverContents.packageJson info))
                = Some h
             /\ repositoryUrlOf (HoverContents.packageJson info) <> Some h)
    /\ (repo = []
        \/ exists r,
             repo = [("[Repository](" ++ r ++ ")")%string] /\ r <> ""
             /\ repositoryUrlOf (HoverContents.packageJson info) = Some r)
    /\ 9 <= length (websiteInfos info) <= 11
    /\ (Js.truthy (repositoryFieldUrl (HoverContents.packageJson info)) = true ->
        repositoryUrlOf (HoverContents.packageJson info)
        = repositoryFieldUrl (HoverContents.packageJson info)).
Proof.
  exists (HoverContents.linkWhen "HomePage"
            (homepageUrlOf (HoverContents.packageJson info))),
         (HoverContents.linkWhen "Repository"
            (repositoryUrlOf (HoverContents.packageJson info))).
  assert (Hhome :
    HoverContents.linkWhen "HomePage"
      (homepageUrlOf (HoverContents.packageJson info)) = []
    \/ exists h,
         HoverContents.linkWhen "HomePage"
           (homepageUrlOf (HoverContents.packageJson info))
         = [("[HomePage](" ++ h ++ ")")%string] /\ h <> ""
         /\ HoverContents.tryGetUrl
              (HoverContents.homepage (HoverContents.packageJson info))
            = Some h
         /\ repositoryUrlOf (HoverContents.packageJson info) <> Some h).
  { destruct (linkWhen_cases "HomePage"
                (homepageUrlOf (HoverContents.packageJson info)))
      as [[Hnil _] | (h & Hurl & Hne & Hlink)]; [now left | right].
    exists h. split; [exact Hlink |]. split; [exact Hne |].
    unfold HoverContents.homepageUrlOf in Hurl.
    destruct (Js.strictEq
                (repositoryUrlOf (HoverContents.packageJson info))
                (HoverContents.tryGetUrl
                   (HoverContents.homepage (HoverContents.packageJson info))))
      eqn:Eeq; [discriminate |].
    split; [exact Hurl |].
    intros Hrepo. rewrite Hrepo, Hurl in Eeq.
    cbn in Eeq. rewrite String.eqb_refl in Eeq. discriminate. }
  assert (Hrepo :
    HoverContents.linkWhen "Repository"
      (repositoryUrlOf (HoverContents.packageJson info)) = []
    \/ exists r,
         HoverContents.linkWhen "Repository"
           (repositoryUrlOf (HoverContents.packageJson info))
         = [("[Repository](" ++ r ++ ")")%string] /\ r <> ""
         /\ repositoryUrlOf (HoverContents.packageJson info) = Some r).
  { destruct (linkWhen_cases "Repository"
                (repositoryUrlOf (HoverContents.packageJson info)))
      as [[Hnil _] | (r & Hurl & Hne & Hlink)]; [now left | right].
    now exists r. }
  split; [reflexivity |].
  split; [exact Hhome |]. split; [exact Hrepo |]. split.
  - unfold HoverContents.websiteInfos.
    change (HoverContents.linkWhen "Npm"
              (Some (HoverContents.npmUrlOf info)))
      with [("[Npm](" ++ HoverContents.npmUrlOf info ++ ")")%string].
    rewrite !length_app.
    change (length (HoverContents.fixedLinks info)) with 8.
    destruct Hhome as [-> | (h & -> & _)];
      destruct Hrepo as [-> | (r & -> & _)]; cbn [length]; lia.
  - unfold HoverContents.repositoryUrlOf. now intros ->.
Qed.

End WebsiteFacts.

(** A call that leaves at the number of [{"files":["!a",1]}] returns
    [undefined] and has pushed [!a]. *)
Example negativePatterns_after_abort :
  Package.getCodeLenses true (fun l => l) Package.freshProvider
                        (Some Lenses.negatedThenNumber)
  = (None, {| FilesCodeLens._negativePatterns := ["!a"];
              FilesCodeLens._codeLensDataMap := [] |}).
Proof. reflexivity. Qed.
